(** * KEGG retrieval scripts: a shallow embedding and its properties

    The development follows [scripts/helpers/utils.py],
    [scripts/get_sequences.py], [scripts/get_enzymes.py],
    [scripts/get_pathways.py] and [scripts/get_organisms.py].

    Conventions of the embedding.
    - A Python [str] is a [string]; a character is a code point below 256.
    - A compiled pattern is a term of [regex]; the matcher [matches] lists
      the successful ways to match at a cursor in the priority order of a
      backtracking engine (greedy repetition, left alternative first), so
      the head of the list is the match that [re] reports.
    - Effects (HTTP requests, the cache directory, [random()], sleeping and
      printing) are threaded through a [World]; a computation either
      returns, raises a Python exception or does not come back (the only
      unbounded loop is the 403 loop of [fetch_with_retry], and a sleep of
      infinite length does not end).
    - The server always answers and a file can always be written: the
      exceptions of the transport and of the file system are not
      modelled, so the statements say what happens when none of them
      occurs.  The cache is a map from path strings to contents, with
      implicit directories; a file is read back as it was written, which
      is what text mode does with a text that holds no carriage return.
    - A Python [float] is a binary64 number ([Float.t]): a sum or a
      product is the exact result rounded to the nearest such number, ties
      to even, and infinity from [2^1024] on.  Only numbers that are not
      negative occur.
    - The operations that [aiometer] runs concurrently are run one after
      the other in input order; the order in which [amap] hands results
      back is a parameter (a [Scheduler]).  The caps on rate and
      concurrency are those of [aiometer] and are not modelled.  An
      exception that leaves one of the operations is reported as itself,
      not wrapped in an exception group.  The statements on a pass of
      [amap] speak of the results and of the exception it ends with, not
      of which operations were started by then.
    - The reading of the input file and the writing of the output file are
      outside: a [main] takes the content of its input and returns the rows
      it hands to the CSV writer. *)

From Stdlib Require Import Ascii QArith Qround Lqa.
From stdpp Require Import gmap strings list sorting.

(** ** Strings *)

Module Str.

Definition of_char (a : ascii) : string := String a "".

Fixpoint startswith (p s : string) : bool :=
  match p, s with
  | "", _ => true
  | String a p', String b s' => if decide (a = b) then startswith p' s' else false
  | String _ _, "" => false
  end.

(** [needle in s] *)
Fixpoint contains (needle s : string) : bool :=
  startswith needle s ||
  match s with
  | "" => false
  | String _ s' => contains needle s'
  end.

Fixpoint take (n : nat) (s : string) : string :=
  match n, s with
  | S n', String a s' => String a (take n' s')
  | _, _ => ""
  end.

Definition code (a : ascii) : N := Ascii.N_of_ascii a.

Definition between (lo hi a : ascii) : bool :=
  (code lo <=? code a)%N && (code a <=? code hi)%N.

Definition is_upper (a : ascii) : bool := between "A" "Z" a.
Definition is_digit (a : ascii) : bool := between "0" "9" a.

(** [str.lower] on code points below 256: the ASCII capitals and the
    Latin-1 capitals other than the multiplication sign move up by 32. *)
Definition lower_char (a : ascii) : ascii :=
  if is_upper a || (between "192" "222" a && negb (code a =? 215)%N)
  then Ascii.ascii_of_N (code a + 32) else a.

Fixpoint lower (s : string) : string :=
  match s with
  | "" => ""
  | String a s' => String (lower_char a) (lower s')
  end.

(** [s.split(sep)] for a one-character separator: never empty, an empty
    field between two adjacent separators. *)
Fixpoint split_go (sep : ascii) (cur : string) (s : string) : list string :=
  match s with
  | "" => [String.rev cur]
  | String a s' =>
      if decide (a = sep) then String.rev cur :: split_go sep "" s'
      else split_go sep (String a cur) s'
  end.
Definition split (sep : ascii) (s : string) : list string := split_go sep "" s.

(** [sep.join(parts)] *)
Fixpoint join (sep : string) (parts : list string) : string :=
  match parts with
  | [] => ""
  | [p] => p
  | p :: ps => p +:+ sep +:+ join sep ps
  end.

(** [str.splitlines()]: the boundaries below 256 are LF, VT, FF, CR (and
    CR LF as one), FS, GS, RS and NEL; no empty last line. *)
Definition is_linebreak (a : ascii) : bool :=
  between "010" "013" a || between "028" "030" a || (code a =? 133)%N.

Fixpoint splitlines_go (cur : string) (s : string) : list string :=
  match s with
  | "" => match cur with "" => [] | _ => [String.rev cur] end
  | String a s' =>
      if is_linebreak a then
        String.rev cur ::
          match a, s' with
          | "013"%char, String "010"%char s'' => splitlines_go "" s''
          | _, _ => splitlines_go "" s'
          end
      else splitlines_go (String a cur) s'
  end.
Definition splitlines (s : string) : list string := splitlines_go "" s.

End Str.

(** ** Regular expressions of Python's [re], as used by the scripts *)

Module Re.

(** The pattern constructs that occur in the scripts. *)
Inductive regex : Type :=
| Eps                              (* the empty pattern *)
| Lit (s : string)                 (* literal text *)
| Class (p : ascii -> bool)        (* one character of a class *)
| Cat (r1 r2 : regex)              (* r1 r2 *)
| Alt (r1 r2 : regex)              (* r1|r2 *)
| Plus (r : regex)                 (* r+, greedy *)
| Group (n : nat) (r : regex)      (* the n-th capturing group *)
| Behind (s : string)              (* (?<=s) *)
| Ahead (r : regex)                (* (?=r) *)
| Eol.                             (* $ *)

(** r*, greedy *)
Definition Star (r : regex) : regex := Alt (Plus r) Eps.

(** Character classes. *)
Definition dot (a : ascii) : bool := negb (Str.code a =? 10)%N.       (* . *)
Definition upper (a : ascii) : bool := Str.is_upper a.               (* [A-Z] *)
Definition not_upper (a : ascii) : bool := negb (Str.is_upper a).    (* [^A-Z] *)
Definition upper_or_nl (a : ascii) : bool :=                         (* [A-Z\n] *)
  Str.is_upper a || (Str.code a =? 10)%N.
Definition ec_char (a : ascii) : bool :=                             (* [\d .-] *)
  Str.is_digit a || (Str.code a =? 32)%N || (Str.code a =? 46)%N
  || (Str.code a =? 45)%N.
(** \s on code points below 256: TAB to CR, FS to US, space, NEL, NBSP *)
Definition space (a : ascii) : bool :=
  Str.between "009" "013" a || Str.between "028" "032" a
  || (Str.code a =? 133)%N || (Str.code a =? 160)%N.

(** A position in the subject: the text before it, nearest character
    first, and the text after it. *)
Record cursor : Type := Cursor { behind : string; ahead : string }.

Definition origin (s : string) : cursor := Cursor "" s.

Definition pos (c : cursor) : nat := String.length (behind c).

(** Captured groups, most recent assignment first. *)
Definition groups : Type := list (nat * string).

Fixpoint lookup_group (n : nat) (g : groups) : option string :=
  match g with
  | [] => None
  | (m, s) :: g' => if decide (m = n) then Some s else lookup_group n g'
  end.

Definition set_group (n : nat) (s : string) (g : groups) : groups :=
  (n, s) :: filter (fun ms => ms.1 <> n) g.

(** The text between two cursors of one subject. *)
Definition span (c c' : cursor) : string :=
  Str.take (pos c' - pos c) (ahead c).

(** Consume literal text. *)
Fixpoint eat (s : string) (c : cursor) : option cursor :=
  match s with
  | "" => Some c
  | String a s' =>
      match ahead c with
      | String b rest =>
          if decide (a = b) then eat s' (Cursor (String b (behind c)) rest)
          else None
      | "" => None
      end
  end.

(** One or more rounds of a pattern whose matches at a cursor are given by
    [body]: after each round, first try another round (only if the round
    consumed something), then stop there.  A round consumes at least one
    character, so the length of the text ahead bounds the recursion. *)
Fixpoint plus_loop (body : cursor -> groups -> list (cursor * groups))
  (fuel : nat) (c : cursor) (g : groups) {struct fuel}
  : list (cursor * groups) :=
  match fuel with
  | O => []
  | S fuel' =>
      flat_map
        (fun cg =>
           (if Nat.ltb (String.length (ahead (fst cg))) (String.length (ahead c))
            then plus_loop body fuel' (fst cg) (snd cg) else [])
           ++ [cg])
        (body c g)
  end.

(** All the ways in which [r] matches at [c], best first. *)
Fixpoint matches (r : regex) (c : cursor) (g : groups)
  : list (cursor * groups) :=
  match r with
  | Eps => [(c, g)]
  | Lit s => match eat s c with Some c' => [(c', g)] | None => [] end
  | Class p =>
      match ahead c with
      | String a rest =>
          if p a then [(Cursor (String a (behind c)) rest, g)] else []
      | "" => []
      end
  | Cat r1 r2 =>
      flat_map (fun cg => matches r2 (fst cg) (snd cg)) (matches r1 c g)
  | Alt r1 r2 => matches r1 c g ++ matches r2 c g
  | Plus r1 => plus_loop (matches r1) (S (String.length (ahead c))) c g
  | Group n r1 =>
      map (fun cg => (fst cg, set_group n (span c (fst cg)) (snd cg)))
        (matches r1 c g)
  | Behind s =>
      if Str.startswith (String.rev s) (behind c) then [(c, g)] else []
  | Ahead r1 =>
      match matches r1 c g with
      | cg :: _ => [(c, snd cg)]
      | [] => []
      end
  | Eol =>
      match ahead c with
      | "" | String "010"%char "" => [(c, g)]
      | _ => []
      end
  end.

(** A match object: [m.group(0)], the numbered groups, and where the
    match ends. *)
Record Match : Type := MkMatch {
  group0 : string;
  captured : groups;
  m_end : cursor
}.

(** [m.group(n)] for a group that took part in the match. *)
Definition group (n : nat) (m : Match) : string :=
  default "" (lookup_group n (captured m)).

(** [m.groups()] of a pattern with two groups. *)
Definition groups2 (m : Match) : string * string := (group 1 m, group 2 m).

Definition match_here (r : regex) (c : cursor) : option Match :=
  match matches r c [] with
  | cg :: _ => Some (MkMatch (span c (fst cg)) (snd cg) (fst cg))
  | [] => None
  end.

(** [pattern.search]: the first position, scanning forward, at which the
    pattern matches. *)
Fixpoint search_from (r : regex) (bh ah : string) {struct ah} : option Match :=
  match match_here r (Cursor bh ah) with
  | Some m => Some m
  | None =>
      match ah with
      | "" => None
      | String a rest => search_from r (String a bh) rest
      end
  end.
Definition search (r : regex) (s : string) : option Match := search_from r "" s.

(** The successive non-overlapping matches, as [finditer] yields them.
    [skip] counts the characters still covered by the last match.  (The
    patterns of the scripts never match the empty string; CPython's retry
    at the same position after an empty match is not modelled.) *)
Fixpoint finditer_from (r : regex) (bh ah : string) (skip : nat) {struct ah}
  : list Match :=
  let here :=
    match skip with
    | O => match_here r (Cursor bh ah)
    | S _ => None
    end in
  let skip' :=
    match here with
    | Some m => String.length (group0 m)
    | None => skip
    end in
  from_option (fun m => [m]) [] here ++
  match ah with
  | "" => []
  | String a rest => finditer_from r (String a bh) rest (Nat.pred skip')
  end.
Definition finditer (r : regex) (s : string) : list Match :=
  finditer_from r "" s 0.

(** [pattern.findall] for a pattern with exactly one group. *)
Definition findall (r : regex) (s : string) : list string :=
  map (group 1) (finditer r s).

(** [pattern.sub("", s)]: delete every match. *)
Fixpoint delete_from (r : regex) (bh ah : string) (skip : nat) {struct ah}
  : string :=
  let here :=
    match skip with
    | O => match_here r (Cursor bh ah)
    | S _ => None
    end in
  let skip' :=
    match here with
    | Some m => String.length (group0 m)
    | None => skip
    end in
  match ah with
  | "" => ""
  | String a rest =>
      match skip' with
      | O => String a (delete_from r (String a bh) rest 0)
      | S k => delete_from r (String a bh) rest k
      end
  end.
Definition delete (r : regex) (s : string) : string := delete_from r "" s 0.

(** [re.split(pattern, s)] for a pattern without groups. *)
Fixpoint split_from (r : regex) (bh ah : string) (skip : nat) (cur : string)
  {struct ah} : list string :=
  let here :=
    match skip with
    | O => match_here r (Cursor bh ah)
    | S _ => None
    end in
  let skip' :=
    match here with
    | Some m => String.length (group0 m)
    | None => skip
    end in
  match ah with
  | "" => [String.rev cur]
  | String a rest =>
      match here, skip' with
      | Some _, S k => String.rev cur :: split_from r (String a bh) rest k ""
      | _, S k => split_from r (String a bh) rest k cur
      | _, O => split_from r (String a bh) rest 0 (String a cur)
      end
  end.
Definition split (r : regex) (s : string) : list string :=
  split_from r "" s 0 "".

End Re.

(** ** The patterns of the scripts *)

Import Re.

(** [helpers/utils.py]: [re.compile(r">(.+)\n([A-Z\n]+)")] *)
Definition REGEX_FASTA : regex :=
  Cat (Lit ">")
    (Cat (Group 1 (Plus (Class dot)))
       (Cat (Lit (Str.of_char "010"))
          (Group 2 (Plus (Class upper_or_nl))))).

(** [helpers/utils.py]: [re.compile(r"(?<=\[EC:)([\d .-]+)(?=])")] *)
Definition REGEX_EC_NUMBERS : regex :=
  Cat (Behind "[EC:") (Cat (Group 1 (Plus (Class ec_char))) (Ahead (Lit "]"))).

(** [helpers/utils.py]:
    [re.compile(r"(?<=" + section + r")(.|\n )+(?=\n[A-Z]+)")] *)
Definition get_kegg_section_regex (section : string) : regex :=
  Cat (Behind section)
    (Cat (Plus (Group 1 (Alt (Class dot) (Lit (String "010" " ")))))
       (Ahead (Cat (Lit (Str.of_char "010")) (Plus (Class upper))))).

(** [get_sequences.py]: [REGEX_GENES_SECTION] *)
Definition REGEX_GENES_SECTION : regex := get_kegg_section_regex "GENES".

(** [parse_genes]: [re.compile(r"([A-Z]+): (.+)")] *)
Definition regex_gene_row : regex :=
  Cat (Group 1 (Plus (Class upper)))
    (Cat (Lit ": ") (Group 2 (Plus (Class dot)))).

(** [parse_genes]: [re.compile(r"\(.+\)")] *)
Definition regex_parentheses : regex :=
  Cat (Lit "(") (Cat (Plus (Class dot)) (Lit ")")).

(** [fetch_enzyme]: [r"///\s+$"] *)
Definition regex_terminator : regex :=
  Cat (Lit "///") (Cat (Plus (Class space)) Eol).

(** [fetch_sequence]: ["[^A-Z]+"] *)
Definition regex_not_upper : regex := Plus (Class not_upper).

(** [get_organisms.py], [get_pathways.py]: [r"\s*\t\s*"] *)
Definition regex_tab : regex :=
  Cat (Star (Class space)) (Cat (Lit (Str.of_char "009")) (Star (Class space))).

(** ** Paths of [pathlib] (POSIX flavour) *)

Module Path.

(** A parsed path: the root ([""], ["/"] or ["//"]) and the components. *)
Record t : Type := Mk { anchor : string; parts : list string }.

Definition components (s : string) : list string :=
  filter (fun x => x <> "" /\ x <> ".") (Str.split "/" s).

Definition root_of (s : string) : string :=
  if Str.startswith "///" s then "/"
  else if Str.startswith "//" s then "//"
  else if Str.startswith "/" s then "/"
  else "".

(** [Path(s)] *)
Definition of_string (s : string) : t := Mk (root_of s) (components s).

(** [p / s]: an absolute right operand replaces the left one. *)
Definition div (p : t) (s : string) : t :=
  if Str.startswith "/" s then of_string s
  else Mk (anchor p) (parts p ++ components s).

(** [p.joinpath] applied to the unpacked list of segments *)
Definition joinpath (p : t) (segments : list string) : t :=
  foldl div p segments.

(** [str(p)] *)
Definition to_string (p : t) : string :=
  match anchor p, parts p with
  | "", [] => "."
  | a, ps => a +:+ Str.join "/" ps
  end.

End Path.

Infix "/:" := Path.div (at level 40, left associativity).

(** ** Numbers of Python's [float] *)

Module Float.

(** A binary64 number that is not negative: a finite one, as the rational
    number it denotes, or infinity.  (The scripts compute with [random()],
    which lies in [0, 1), and with the constants 4 and 2.) *)
Inductive t : Type :=
| Finite (q : Q)
| Infinity.

Definition finite (x : t) : Prop := exists q : Q, x = Finite q.

(** [2^e], also for a negative [e]. *)
Definition pow2 (e : Z) : Q :=
  if (0 <=? e)%Z then inject_Z (2 ^ e) else 1 # Z.to_pos (2 ^ (- e)).

(** The exponent of a positive number [q]: the [e] with
    [2^e <= q < 2^(e+1)]. *)
Definition exponent (q : Q) : Z :=
  if Qle_bool 1 q then Z.log2 (Qfloor q)
  else (- Z.log2_up (Qceiling (/ q)))%Z.

(** The nearest integer, the even one of two that are equally near. *)
Definition round_half_even (q : Q) : Z :=
  let f := Qfloor q in
  match (q - inject_Z f ?= 1 # 2)%Q with
  | Lt => f
  | Gt => (f + 1)%Z
  | Eq => if Z.even f then f else (f + 1)%Z
  end.

(** The binary64 number nearest to [q]: a significand of 53 bits, so a
    multiple of [2^(e-52)] for the exponent [e] of [q]; exponents below
    -1022 are kept at -1022 (subnormal numbers), and a result of
    [2^1024] or more is infinity. *)
Definition round (q : Q) : t :=
  if Qle_bool q 0 then Finite 0
  else
    let ulp := pow2 (Z.max (exponent q) (-1022) - 52) in
    let r := (inject_Z (round_half_even (q / ulp)) * ulp)%Q in
    if Qle_bool (pow2 1024) r then Infinity else Finite (Qred r).

(** [x + y] *)
Definition add (x y : t) : t :=
  match x, y with
  | Finite a, Finite b => round (a + b)
  | _, _ => Infinity
  end.

(** [x * y]; the product of zero and infinity, which is not a number,
    does not occur: one factor of every product of the scripts is 2. *)
Definition mul (x y : t) : t :=
  match x, y with
  | Finite a, Finite b => round (a * b)
  | _, _ => Infinity
  end.

End Float.

(** ** The world the scripts run in *)

Record Response : Type := MkResponse { status_code : Z; text : string }.

(** The lines the scripts print, by format string. *)
Inductive Msg : Type :=
| MsgExists (output : string)            (* "{output} exists, not downloading" *)
| MsgWaiting (sleep_seconds : Float.t)   (* "Waiting for {sleep_seconds} seconds" *)
| MsgErrorFetching (ec_number : string)  (* "Error fetching {ec_number}" *)
| MsgGenes (ec_number : string) (n : nat)          (* "{ec_number}: {n} genes" *)
| MsgNoSequence (organism id : string)   (* "Could not get sequence {organism}:{id}" *)
| MsgGotSequence (organism id : string)  (* "Got sequence {organism}:{id}" *)
| MsgInCache (found total : nat) (title : string)  (* "{found} / {total} {title} found in cache" *)
| MsgNotFound (organism id : string)     (* "Could not find sequence {organism}:{id}" *)
| MsgECNumbers (organism id : string) (n : nat)    (* "{pathway}: {n} EC numbers" *)
| MsgPathways (organism_code : string) (n : nat).  (* "{organism_code}: {n} pathways" *)

Record World : Type := MkWorld {
  api : nat -> string -> Response;  (* the answer to the n-th request of the run *)
  requests : list string;           (* the paths requested so far, latest first *)
  random_source : nat -> Q;         (* the successive values of random(), in [0, 1) *)
  draws : nat;                      (* how many of them were drawn *)
  slept : list Float.t;             (* the durations slept, latest first *)
  files : gmap string string;       (* the cache: path to content *)
  stdout : list Msg;                (* the lines printed, latest first *)
  DEBUG : bool;                     (* the module's global flag *)
  environ_DEBUG : bool              (* os.environ["DEBUG"] == "1" *)
}.

Inductive Exn : Type :=
| AttributeError   (* 'NoneType' object has no attribute 'groups' *)
| TypeError.       (* unsupported operand type(s) for /: 'NoneType' and 'str' *)

(** The result of running a computation: it returns, raises, or has not
    come back: it is still in the 403 loop when the fuel runs out, or in a
    sleep without end. *)
Inductive Outcome (A : Type) : Type :=
| Return (a : A) (w : World)
| Raise (e : Exn) (w : World)
| OutOfFuel.
Arguments Return {A} a w.
Arguments Raise {A} e w.
Arguments OutOfFuel {A}.

Definition M (A : Type) : Type := World -> Outcome A.

Definition ret {A} (a : A) : M A := fun w => Return a w.

Definition bind {A B} (m : M A) (k : A -> M B) : M B :=
  fun w =>
    match m w with
    | Return a w' => k a w'
    | Raise e w' => Raise e w'
    | OutOfFuel => OutOfFuel
    end.

Definition raise {A} (e : Exn) : M A := fun w => Raise e w.

Declare Scope io_scope.
Delimit Scope io_scope with io.
Notation "x <- m ;; k" := (bind m (fun x => k))
  (at level 100, m at next level, right associativity) : io_scope.
Notation "m ;; k" := (bind m (fun _ => k))
  (at level 100, right associativity) : io_scope.
Local Open Scope io_scope.

(** [for x in l: ...] collecting the results, in order. *)
Fixpoint mapM {A B} (f : A -> M B) (l : list A) : M (list B) :=
  match l with
  | [] => ret []
  | x :: l' => y <- f x ;; ys <- mapM f l' ;; ret (y :: ys)
  end.

(** Changes of the world. *)

Definition add_line (m : Msg) (w : World) : World :=
  MkWorld (api w) (requests w) (random_source w) (draws w) (slept w)
    (files w) (m :: stdout w) (DEBUG w) (environ_DEBUG w).

Definition add_request (path : string) (w : World) : World :=
  MkWorld (api w) (path :: requests w) (random_source w) (draws w) (slept w)
    (files w) (stdout w) (DEBUG w) (environ_DEBUG w).

Definition add_draw (w : World) : World :=
  MkWorld (api w) (requests w) (random_source w) (S (draws w)) (slept w)
    (files w) (stdout w) (DEBUG w) (environ_DEBUG w).

Definition add_sleep (seconds : Float.t) (w : World) : World :=
  MkWorld (api w) (requests w) (random_source w) (draws w) (seconds :: slept w)
    (files w) (stdout w) (DEBUG w) (environ_DEBUG w).

Definition add_file (path content : string) (w : World) : World :=
  MkWorld (api w) (requests w) (random_source w) (draws w) (slept w)
    (<[path := content]> (files w)) (stdout w) (DEBUG w) (environ_DEBUG w).

Definition enable_DEBUG (w : World) : World :=
  MkWorld (api w) (requests w) (random_source w) (draws w) (slept w)
    (files w) (stdout w) true (environ_DEBUG w).

Definition enable_environ_DEBUG (w : World) : World :=
  MkWorld (api w) (requests w) (random_source w) (draws w) (slept w)
    (files w) (stdout w) (DEBUG w) true.

(** Primitive effects. *)

Definition print (m : Msg) : M unit := fun w => Return tt (add_line m w).

(** [await client.get(path)] *)
Definition client_get (path : string) : M Response := fun w =>
  Return (api w (length (requests w)) path) (add_request path w).

(** [random()] *)
Definition random : M Q := fun w =>
  Return (random_source w (draws w)) (add_draw w).

(** [await asyncio.sleep(seconds)]: a sleep without end does not come
    back. *)
Definition sleep (seconds : Float.t) : M unit := fun w =>
  match seconds with
  | Float.Finite _ => Return tt (add_sleep seconds w)
  | Float.Infinity => OutOfFuel
  end.

(** [fullpath.is_file()] and reading the file if it is there. *)
Definition read_file (p : Path.t) : M (option string) := fun w =>
  Return (files w !! Path.to_string p) w.

(** [async with aiofiles.open(p, "w") as f: await f.write(content)];
    directories are implicit, so the [mkdir] before it changes nothing. *)
Definition write_file (p : Path.t) (content : string) : M unit := fun w =>
  Return tt (add_file (Path.to_string p) content w).

Definition get_DEBUG : M bool := fun w => Return (DEBUG w) w.
Definition get_environ_DEBUG : M bool := fun w => Return (environ_DEBUG w) w.

(** [DEBUG = True] *)
Definition set_DEBUG : M unit := fun w => Return tt (enable_DEBUG w).

(** [os.environ["DEBUG"] = "1"] *)
Definition set_environ_DEBUG : M unit := fun w =>
  Return tt (enable_environ_DEBUG w).

Definition when (b : bool) (m : M unit) : M unit := if b then m else ret tt.

(** The order in which [aiometer.amap] hands back the results: some
    rearrangement of the order in which the operations were started. *)
Record Scheduler : Type := MkScheduler {
  completion : forall A : Type, list A -> list A;
  completion_perm : forall (A : Type) (l : list A), completion A l ≡ₚ l
}.

Definition in_order : Scheduler :=
  MkScheduler (fun _ l => l) (fun _ l => reflexivity l).

(** [async with aiometer.amap(f, items, max_per_second=8, max_at_once=9)
    as tasks: [x async for x in tasks]] *)
Definition amap {A B} (sched : Scheduler) (f : A -> M B) (items : list A)
  : M (list B) :=
  results <- mapM f items ;; ret (completion sched B results).

(** [await aiometer.run_all([partial(f, x) for x in items],
    max_at_once=100)]: the results in the order of the items. *)
Definition run_all {A B} (f : A -> M B) (items : list A) : M (list B) :=
  mapM f items.

(** ** [helpers/utils.py] *)

(** The [while response.status_code == 403] loop. *)
Fixpoint retry_loop (fuel : nat) (path : string) (response : Response)
  (sleep_seconds : Float.t) : M Response :=
  if (status_code response =? 403)%Z then
    match fuel with
    | O => fun _ => OutOfFuel
    | S fuel' =>
        dbg <- get_environ_DEBUG ;;
        when dbg (print (MsgWaiting sleep_seconds)) ;;
        sleep sleep_seconds ;;
        response <- client_get path ;;
        retry_loop fuel' path response
          (Float.mul sleep_seconds (Float.Finite 2))
    end
  else ret response.

Definition fetch_with_retry (fuel : nat) (path : string) : M Response :=
  response <- client_get path ;;
  r <- random ;;
  let sleep_seconds :=
    Float.add (Float.Finite 4) (Float.mul (Float.Finite r) (Float.Finite 2)) in
  retry_loop fuel path response sleep_seconds.

(** ** Sorting and sets of Python *)

Section Sorting.
Context {A K : Type} (key : A -> K) (leb : K -> K -> bool).

Fixpoint insert_sorted (x : A) (l : list A) : list A :=
  match l with
  | [] => [x]
  | y :: l' =>
      if leb (key x) (key y) then x :: y :: l' else y :: insert_sorted x l'
  end.

(** [sorted(l, key=key)]: a stable sort, so an element stays in front of
    the later elements with an equal key. *)
Definition sorted_by (l : list A) : list A := foldr insert_sorted [] l.

(** The order that [sorted_by key leb] establishes. *)
Definition key_le (x y : A) : Prop := leb (key x) (key y) = true.
End Sorting.

(** The order of [str], of tuples of two [str] and of lists of [str]. *)
Definition str_leb : string -> string -> bool := String.leb.

Definition pair_leb (x y : string * string) : bool :=
  match String.compare x.1 y.1 with
  | Lt => true
  | Eq => str_leb x.2 y.2
  | Gt => false
  end.

Fixpoint row_leb (x y : list string) : bool :=
  match x, y with
  | [], _ => true
  | _ :: _, [] => false
  | a :: x', b :: y' =>
      match String.compare a b with
      | Lt => true
      | Eq => row_leb x' y'
      | Gt => false
      end
  end.

(** [sorted(list(set(l)))] for strings and for pairs of strings: whatever
    order the set is listed in, sorting fixes the result. *)
Definition sorted_set (l : list string) : list string :=
  sorted_by (fun x => x) str_leb (elements (list_to_set l : gset string)).

Definition sorted_pair_set (l : list (string * string)) : list (string * string) :=
  sorted_by (fun x => x) pair_leb (elements (list_to_set l : gset (string * string))).

(** A value or a raised exception, for the pure functions that raise. *)
Definition lift {A} (r : Exn + A) : M A :=
  match r with
  | inl e => raise e
  | inr a => ret a
  end.

(** [m.groups()] on the result of a search: [None] has no such attribute. *)
Definition groups_of (m : option Match) : Exn + (string * string) :=
  match m with
  | None => inl AttributeError
  | Some m => inr (groups2 m)
  end.

(** ** [get_sequences.py] *)

Module GetSequences.

(** A row of the output; [x[i]] is [col i x]. *)
Definition Row : Type := list string.
Definition col (i : nat) (x : Row) : string := nth i x "".

Record Sequence : Type := MkSequence { organism : string; id : string }.

(** The body of the [for line in ...] loop of [parse_genes], over the
    remaining lines. *)
Fixpoint parse_gene_lines (ec_number : string) (lines : list string)
  (genes : list Row) : Exn + list Row :=
  match lines with
  | [] => inr genes
  | line :: lines' =>
      match groups_of (search regex_gene_row line) with
      | inl e => inl e
      | inr (organism, gene_list) =>
          let gene_list := delete regex_parentheses gene_list in
          parse_gene_lines ec_number lines'
            (genes ++ map (fun g => [ec_number; Str.lower organism; g])
                        (Str.split " " gene_list))
      end
  end.

Definition parse_genes (ec_number text : string) : Exn + list Row :=
  match search REGEX_GENES_SECTION text with
  | None => inr []
  | Some genes_section =>
      parse_gene_lines ec_number (Str.split "010" (group0 genes_section)) []
  end.

(** The test of [fetch_enzyme] on a response. *)
Definition expected_response (ec_number : string) (response : Response) : bool :=
  (status_code response =? 200)%Z
  && Str.startswith "ENTRY" (text response)
  && bool_decide (is_Some (search regex_terminator (text response)))
  && Str.contains ec_number (text response).

(** [for _ in range(n)] of [fetch_enzyme]: the response on which the
    loop breaks, or [None] when it runs to its [else]. *)
Fixpoint fetch_enzyme_attempts (fuel n : nat) (ec_number : string)
  : M (option Response) :=
  match n with
  | O => ret None
  | S n' =>
      response <- fetch_with_retry fuel ("/get/ec:" +:+ ec_number) ;;
      if expected_response ec_number response then ret (Some response)
      else fetch_enzyme_attempts fuel n' ec_number
  end.

Definition fetch_enzyme (fuel : nat) (cache_path : option Path.t)
  (ec_number : string) : M (option (list Row)) :=
  found <- fetch_enzyme_attempts fuel 3 ec_number ;;
  match found with
  | None => print (MsgErrorFetching ec_number) ;; ret None
  | Some response =>
      match cache_path with
      | Some cache_path =>
          let ec_split := Str.split "." ec_number in
          let save_fullpath :=
            Path.joinpath cache_path (removelast ec_split) in
          write_file (save_fullpath /: (ec_number +:+ ".txt")) (text response)
      | None => ret tt
      end ;;
      genes <- lift (parse_genes ec_number (text response)) ;;
      dbg <- get_DEBUG ;;
      when dbg (print (MsgGenes ec_number (length genes))) ;;
      ret (Some genes)
  end.

(** [for _ in range(n)] of [fetch_sequence]: the response and the two
    groups on which the loop breaks, or [None]. *)
Fixpoint fetch_sequence_attempts (fuel n : nat) (api_path : string)
  : M (option (Response * string * string)) :=
  match n with
  | O => ret None
  | S n' =>
      response <- fetch_with_retry fuel api_path ;;
      match groups_of (search REGEX_FASTA (text response)) with
      | inr (seq_id, seq) =>
          if bool_decide (seq_id <> "") && bool_decide (seq <> "")
          then ret (Some (response, seq_id, seq))
          else fetch_sequence_attempts fuel n' api_path
      | inl AttributeError => fetch_sequence_attempts fuel n' api_path
      | inl e => raise e
      end
  end.

Definition fetch_sequence (fuel : nat) (cache_path : option Path.t)
  (sequence : Sequence) : M (option (Sequence * string * string)) :=
  let api_path :=
    "/get/" +:+ organism sequence +:+ ":" +:+ id sequence +:+ "/aaseq" in
  found <- fetch_sequence_attempts fuel 3 api_path ;;
  match found with
  | None => print (MsgNoSequence (organism sequence) (id sequence)) ;; ret None
  | Some (response, seq_id, seq) =>
      match cache_path with
      | Some cache_path =>
          let save_fullpath := cache_path /: organism sequence in
          write_file (save_fullpath /: (id sequence +:+ ".txt")) (text response)
      | None => ret tt
      end ;;
      dbg <- get_DEBUG ;;
      when dbg (print (MsgGotSequence (organism sequence) (id sequence))) ;;
      let seq := delete regex_not_upper seq in
      ret (Some (sequence, seq_id, seq))
  end.

Definition fetch_cache {E R} (elements : list E) (cache_path : Path.t)
  (get_function : Path.t -> E -> M (option R)) (title : option string)
  : M (list E * list R) :=
  cache_results <- run_all (get_function cache_path) elements ;;
  let cached_elements := omap (fun x => x) cache_results in
  let uncached_elements :=
    omap (fun er => match er.2 with None => Some er.1 | Some _ => None end)
      (zip elements cache_results) in
  let title := default "elements" title in
  dbg <- get_DEBUG ;;
  when dbg (print (MsgInCache (length cached_elements) (length elements) title)) ;;
  ret (uncached_elements, cached_elements).

Definition _get_enzyme_from_cache (cache_path : Path.t) (ec_number : string)
  : M (option (list Row)) :=
  let ec_split := Str.split "." ec_number in
  let fullpath :=
    Path.joinpath cache_path (removelast ec_split) /: (ec_number +:+ ".txt") in
  content <- read_file fullpath ;;
  match content with
  | None => ret None
  | Some text => genes <- lift (parse_genes ec_number text) ;; ret (Some genes)
  end.

Definition _get_sequence_from_cache (cache_path : Path.t) (sequence : Sequence)
  : M (option (Sequence * string * string)) :=
  let fullpath := cache_path /: organism sequence /: (id sequence +:+ ".txt") in
  content <- read_file fullpath ;;
  match content with
  | None => ret None
  | Some text =>
      found <- lift (groups_of (search REGEX_FASTA text)) ;;
      let '(seq_id, seq) := found in
      ret (Some (sequence, seq_id, seq))
  end.

Record Args : Type := MkArgs {
  input : string;               (* the content of the file args.input *)
  output : string;
  output_exists : bool;         (* Path(args.output).exists() *)
  cache_dir : option string;
  debug : bool;
  force : bool
}.

(** [Path(args.cache_dir) if args.cache_dir else None] *)
Definition cache_path_of (args : Args) : option Path.t :=
  match cache_dir args with
  | Some d => if decide (d = "") then None else Some (Path.of_string d)
  | None => None
  end.

(** [cache_path / name] where [cache_path] may be [None]. *)
Definition div_optional (cache_path : option Path.t) (name : string) : M Path.t :=
  match cache_path with
  | Some p => ret (p /: name)
  | None => raise TypeError
  end.

(** [{(s[0].organism, s[0].id): s[1:] for s in l}.get(k)]: the last
    entry for the key wins. *)
Fixpoint sequence_dict_get (l : list (Sequence * string * string))
  (k : string * string) : option (string * string) :=
  match l with
  | [] => None
  | (s, seq_id, seq) :: l' =>
      match sequence_dict_get l' k with
      | Some v => Some v
      | None =>
          if decide ((organism s, id s) = k) then Some (seq_id, seq) else None
      end
  end.

(** The [for gene in genes_plain] loop that appends the sequence columns. *)
Fixpoint merge_sequences (dict : list (Sequence * string * string))
  (genes_plain : list Row) : M (list Row) :=
  match genes_plain with
  | [] => ret []
  | gene :: rest =>
      gene' <-
        match sequence_dict_get dict (col 1 gene, col 2 gene) with
        | Some (seq_id, seq) => ret (gene ++ [seq_id; seq])
        | None => print (MsgNotFound (col 1 gene) (col 2 gene)) ;; ret gene
        end ;;
      rest' <- merge_sequences dict rest ;;
      ret (gene' :: rest')
  end.

(** The genes of all the enzymes: lines 52 to 69 of [main]. *)
Definition gather_genes (fuel : nat) (sched : Scheduler)
  (cache_path : option Path.t) (ec_numbers : list string) : M (list Row) :=
  split <-
    match cache_path with
    | Some p =>
        fetch_cache ec_numbers (p /: "enzyme") _get_enzyme_from_cache
          (Some "enzymes")
    | None => ret (ec_numbers, [])
    end ;;
  let '(ec_numbers, cached_genes) := split in
  enzyme_path <- div_optional cache_path "enzyme" ;;
  results <- amap sched (fetch_enzyme fuel (Some enzyme_path)) ec_numbers ;;
  let genes := omap (fun x => x) results in
  ret (concat (cached_genes ++ genes)).

(** The sequences of the genes: lines 71 to 92 of [main]. *)
Definition gather_sequences (fuel : nat) (sched : Scheduler)
  (cache_path : option Path.t) (genes_plain : list Row)
  : M (list (Sequence * string * string)) :=
  let unique_sequences :=
    sorted_pair_set (map (fun g => (col 1 g, col 2 g)) genes_plain) in
  let sequences_to_fetch := map (fun s => MkSequence s.1 s.2) unique_sequences in
  split <-
    match cache_path with
    | Some p =>
        fetch_cache sequences_to_fetch (p /: "aaseq") _get_sequence_from_cache
          (Some "sequences")
    | None => ret (sequences_to_fetch, [])
    end ;;
  let '(sequences_to_fetch, cached_sequences) := split in
  aaseq_path <- div_optional cache_path "aaseq" ;;
  results <-
    amap sched (fetch_sequence fuel (Some aaseq_path)) sequences_to_fetch ;;
  let sequences := omap (fun x => x) results in
  ret (sequences ++ cached_sequences).

(** [main]: the rows handed to the CSV writer after the header, or
    [None] when the output is already there. *)
Definition main (fuel : nat) (sched : Scheduler) (args : Args)
  : M (option (list Row)) :=
  if output_exists args && negb (force args) then
    print (MsgExists (output args)) ;; ret None
  else
    when (debug args) (set_DEBUG ;; set_environ_DEBUG) ;;
    let ec_numbers := Str.splitlines (input args) in
    let cache_path := cache_path_of args in
    genes_plain <- gather_genes fuel sched cache_path ec_numbers ;;
    all_sequences <- gather_sequences fuel sched cache_path genes_plain ;;
    rows <- merge_sequences all_sequences genes_plain ;;
    ret (Some rows).

End GetSequences.

(** ** [get_enzymes.py] *)

Module GetEnzymes.

Definition Row : Type := list string.

Record Pathway : Type := MkPathway { id : string; organism : string }.

(** [sorted(list(set(REGEX_EC_NUMBERS.findall(text))))] *)
Definition ec_numbers_of (text : string) : list string :=
  sorted_set (findall REGEX_EC_NUMBERS text).

Definition fetch_pathway (fuel : nat) (cache_path : option Path.t)
  (pathway : Pathway) : M (list Row) :=
  response <- fetch_with_retry fuel ("/get/" +:+ id pathway) ;;
  match cache_path with
  | Some cache_path =>
      let save_fullpath := cache_path /: organism pathway in
      write_file (save_fullpath /: (id pathway +:+ ".txt")) (text response)
  | None => ret tt
  end ;;
  let ec_numbers := ec_numbers_of (text response) in
  dbg <- get_DEBUG ;;
  when dbg
    (print (MsgECNumbers (organism pathway) (id pathway) (length ec_numbers))) ;;
  ret (map (fun n => [organism pathway; id pathway; n]) ec_numbers).

Definition _get_pathway_from_cache (cache_path : Path.t) (pathway : Pathway)
  : M (option (list Row)) :=
  let fullpath := cache_path /: organism pathway /: (id pathway +:+ ".txt") in
  content <- read_file fullpath ;;
  match content with
  | None => ret None
  | Some text =>
      let ec_numbers := ec_numbers_of text in
      ret (Some (map (fun n => [organism pathway; id pathway; n]) ec_numbers))
  end.

Definition fetch_cache (pathways : list Pathway) (cache_path : Path.t)
  : M (list Pathway * list (list Row)) :=
  cache_results <- run_all (_get_pathway_from_cache cache_path) pathways ;;
  let cached_enzymes := omap (fun x => x) cache_results in
  let filtered_pathways :=
    omap (fun pr => match pr.2 with None => Some pr.1 | Some _ => None end)
      (zip pathways cache_results) in
  dbg <- get_DEBUG ;;
  when dbg
    (print (MsgInCache (length cached_enzymes) (length pathways) "pathways")) ;;
  ret (filtered_pathways, cached_enzymes).

Record Args : Type := MkArgs {
  input : list Pathway;         (* the rows of the file args.input *)
  output : string;
  output_exists : bool;
  cache_dir : option string;
  debug : bool;
  force : bool
}.

(** [Path(args.cache_dir) / "pathway" if args.cache_dir else None] *)
Definition cache_path_of (args : Args) : option Path.t :=
  match cache_dir args with
  | Some d =>
      if decide (d = "") then None else Some (Path.of_string d /: "pathway")
  | None => None
  end.

(** [sorted(list(itertools.chain.from_iterable(cached_enzymes + enzymes)))] *)
Definition enzymes_plain (cached_enzymes enzymes : list (list Row)) : list Row :=
  sorted_by (fun x => x) row_leb (concat (cached_enzymes ++ enzymes)).

Definition main (fuel : nat) (sched : Scheduler) (args : Args)
  : M (option (list Row)) :=
  if output_exists args && negb (force args) then
    print (MsgExists (output args)) ;; ret None
  else
    when (debug args) set_DEBUG ;;
    let pathways := input args in
    let cache_path := cache_path_of args in
    split <-
      match cache_path with
      | Some p => fetch_cache pathways p
      | None => ret (pathways, [])
      end ;;
    let '(pathways, cached_enzymes) := split in
    enzymes <- amap sched (fetch_pathway fuel cache_path) pathways ;;
    ret (Some (enzymes_plain cached_enzymes enzymes)).

End GetEnzymes.

(** ** [get_pathways.py] *)

Module GetPathways.

Definition Row : Type := list string.
Definition col (i : nat) (x : Row) : string := nth i x "".

(** [line.replace("path:", "")] *)
Definition strip_prefix_tag (line : string) : string :=
  delete (Lit "path:") line.

Definition fetch_pathways (fuel : nat) (organism_code : string) : M (list Row) :=
  let api_path := "/list/pathway/" +:+ organism_code in
  response <- fetch_with_retry fuel api_path ;;
  let pathways :=
    map (fun line => organism_code :: split regex_tab (strip_prefix_tag line))
      (Str.splitlines (text response)) in
  dbg <- get_DEBUG ;;
  when dbg (print (MsgPathways organism_code (length pathways))) ;;
  ret pathways.

(** [sorted(list(itertools.chain.from_iterable(pathways)),
    key=lambda x: (x[0], x[1]))] *)
Definition pathways_plain (pathways : list (list Row)) : list Row :=
  sorted_by (fun x => (col 0 x, col 1 x)) pair_leb (concat pathways).

Record Args : Type := MkArgs {
  input : list string;          (* the column "code" of the file args.input *)
  output : string;
  output_exists : bool;
  debug : bool;
  force : bool
}.

Definition main (fuel : nat) (sched : Scheduler) (args : Args)
  : M (option (list Row)) :=
  if output_exists args && negb (force args) then
    print (MsgExists (output args)) ;; ret None
  else
    when (debug args) set_DEBUG ;;
    let organisms := input args in
    pathways <- amap sched (fetch_pathways fuel) organisms ;;
    ret (Some (pathways_plain pathways)).

End GetPathways.

(** ** [get_organisms.py] *)

Module GetOrganisms.

Definition Row : Type := list string.
Definition col (i : nat) (x : Row) : string := nth i x "".

(** [sorted([re.split(r"\s*\t\s*", line) for line in text.splitlines()],
    key=lambda x: x[0])] *)
Definition organisms_of (text : string) : list Row :=
  sorted_by (col 0) str_leb (map (split regex_tab) (Str.splitlines text)).

Record Args : Type := MkArgs {
  output : string;
  output_exists : bool;
  force : bool
}.

Definition main (args : Args) : M (option (list Row)) :=
  if output_exists args && negb (force args) then
    print (MsgExists (output args)) ;; ret None
  else
    response <- client_get "https://rest.kegg.jp/list/organism" ;;
    ret (Some (organisms_of (text response))).

End GetOrganisms.

(** * Notions used in the statements *)

(** The durations slept when [k] rejections follow one another, oldest
    first: each is the double of the one before. *)
Fixpoint backoff (sleep_seconds : Float.t) (k : nat) : list Float.t :=
  match k with
  | O => []
  | S k' =>
      sleep_seconds :: backoff (Float.mul sleep_seconds (Float.Finite 2)) k'
  end.

(** The world after one round of the 403 loop: the line printed when
    debugging, the sleep and the request. *)
Definition after_round (sleep_seconds : Float.t) (path : string) (w : World)
  : World :=
  add_request path
    (add_sleep sleep_seconds
       (if environ_DEBUG w then add_line (MsgWaiting sleep_seconds) w else w)).

(** The first duration of a call: [4 + random() * 2]. *)
Definition first_sleep (w : World) : Float.t :=
  Float.add (Float.Finite 4)
    (Float.mul (Float.Finite (random_source w (draws w))) (Float.Finite 2)).

(** What stays as it is while requests are sent and answered: the cache,
    the flags, the server and the source of random numbers. *)
Definition untouched (w w' : World) : Prop :=
  files w' = files w /\ DEBUG w' = DEBUG w /\ environ_DEBUG w' = environ_DEBUG w
  /\ api w' = api w /\ random_source w' = random_source w.

(** The cache file of an EC number under the enzyme cache root, as both
    [fetch_enzyme] and [_get_enzyme_from_cache] compute it. *)
Definition enzyme_cache_file (cache_path : Path.t) (ec_number : string) : string :=
  Path.to_string
    (Path.joinpath cache_path (removelast (Str.split "." ec_number))
     /: (ec_number +:+ ".txt")).

(** The content test of [fetch_sequence]: a header and a body are found
    and neither is empty. *)
Definition located (content : string) : bool :=
  match groups_of (search REGEX_FASTA content) with
  | inr (seq_id, seq) => bool_decide (seq_id <> "") && bool_decide (seq <> "")
  | inl _ => false
  end.

(** The world after one request that was answered at once. *)
Definition answered (path : string) (w : World) : World :=
  add_draw (add_request path w).

(** The cache file of a sequence under the sequence cache root, as both
    [fetch_sequence] and [_get_sequence_from_cache] compute it. *)
Definition sequence_cache_file (cache_path : Path.t)
  (sequence : GetSequences.Sequence) : string :=
  Path.to_string
    (cache_path /: GetSequences.organism sequence
     /: (GetSequences.id sequence +:+ ".txt")).

Fixpoint all_chars (p : ascii -> bool) (s : string) : bool :=
  match s with
  | "" => true
  | String a s' => p a && all_chars p s'
  end.

(** A text without carriage return: what a file opened in text mode gives
    back as it was written. *)
Definition no_carriage_return (s : string) : bool :=
  all_chars (fun a => negb (Str.code a =? 13)%N) s.

(** A line after the first one starts with a capital letter: the header
    of a section. *)
Fixpoint has_header (s : string) : bool :=
  match s with
  | "" => false
  | String a s' =>
      match s' with
      | String b _ => (bool_decide (a = "010"%char) && upper b) || has_header s'
      | "" => false
      end
  end.

(** [s] is what is left of [t] after some of its characters. *)
Definition rest_of (s t : string) : Prop := exists u : string, t = u +:+ s.

(** ** Texts with bracketed EC annotations *)

(** A code: one or more digits, spaces, dots and dashes. *)
Definition is_code (code : string) : bool :=
  bool_decide (code <> "") && all_chars ec_char code.

(** [code] stands in a bracketed annotation of [text]: it is a code, and
    [[EC:], the code and a closing bracket follow one another somewhere in
    the text. *)
Definition annotated_with (text code : string) : Prop :=
  is_code code = true
  /\ exists pre post : string, text = pre +:+ "[EC:" +:+ code +:+ "]" +:+ post.

(** ** The cache key of an EC number *)

(** A segment of an EC number: not empty, and neither a dot nor a slash
    in it. *)
Definition plain_segment (seg : string) : bool :=
  bool_decide (seg <> "")
  && all_chars (fun a => negb (bool_decide (a = "."%char))
                         && negb (bool_decide (a = "/"%char))) seg.

(** The cache key of an EC number in the words of the specification: under
    the cache root, the segments but the last as nested directories, then
    the whole EC number and ".txt". *)
Definition nested_cache_file (root : Path.t) (segments : list string) : string :=
  Path.to_string
    (Path.Mk (Path.anchor root)
       (Path.parts root ++ removelast segments
        ++ [Str.join "." segments +:+ ".txt"])).

(** * Example inputs *)

Definition nl : string := Str.of_char "010".
Definition tab : string := Str.of_char "009".

(** A server that rejects the first two requests of the run. *)
Definition rejecting_twice (n : nat) (path : string) : Response :=
  if n <? 2 then MkResponse 403 "" else MkResponse 200 "ok".

Definition world_rejecting_twice : World :=
  MkWorld rejecting_twice [] (fun _ => 1 # 2) 0 [] ∅ [] false false.

(** The gene section of the specification's example: one line and a
    newline, with no section header after it. *)
Definition genes_example : string :=
  "GENES       HSA: 124(ADH1A) 125(ADH1B)" +:+ nl.

(** The same line followed by the header of the next section. *)
Definition genes_example_with_header : string :=
  genes_example +:+ "DBLINKS     ExplorEnz - The Enzyme Database: 1.1.1.1" +:+ nl.

(** A FASTA answer of the [aaseq] endpoint with two sequence lines. *)
Definition fasta_example : string :=
  ">hsa:124 K13951 alcohol dehydrogenase" +:+ nl
  +:+ "MSTAGKVIKC" +:+ nl +:+ "KAAVLWE" +:+ nl.

(** A world whose cache and whose server both hold [fasta_example]. *)
Definition world_with_sequence : World :=
  MkWorld (fun _ _ => MkResponse 200 fasta_example) [] (fun _ => 0%Q) 0 []
    {[ "/cache/aaseq/hsa/124.txt" := fasta_example ]} [] false false.

(** An enzyme entry with two organisms, and a server that answers every
    request with it. *)
Definition enzyme_example : string :=
  "ENTRY       EC 1.1.1.1                  Enzyme" +:+ nl
  +:+ "GENES       HSA: 124(ADH1A)" +:+ nl
  +:+ "            ECO: b1241(adhE)" +:+ nl
  +:+ "DBLINKS     ExplorEnz - The Enzyme Database: 1.1.1.1" +:+ nl
  +:+ "///" +:+ nl.

Definition world_with_enzyme : World :=
  MkWorld (fun _ _ => MkResponse 200 enzyme_example) [] (fun _ => 0%Q) 0 []
    ∅ [] false false.

(** A server that knows the enzyme 1.1.1.1 and nothing else. *)
Definition only_one_enzyme (n : nat) (path : string) : Response :=
  if decide (path = "/get/ec:1.1.1.1") then MkResponse 200 enzyme_example
  else MkResponse 404 "".

Definition world_one_enzyme : World :=
  MkWorld only_one_enzyme [] (fun _ => 0%Q) 0 [] ∅ [] false false.

(** A server that knows the sequence hsa:124 and nothing else. *)
Definition only_one_sequence (n : nat) (path : string) : Response :=
  if decide (path = "/get/hsa:124/aaseq") then MkResponse 200 fasta_example
  else MkResponse 404 "".

Definition world_one_sequence : World :=
  MkWorld only_one_sequence [] (fun _ => 0%Q) 0 [] ∅ [] false false.

(** The worlds after three requests that were all answered at once. *)
Definition enzyme_given_up : World :=
  answered "/get/ec:9.9.9.9"
    (answered "/get/ec:9.9.9.9" (answered "/get/ec:9.9.9.9" world_one_enzyme)).

Definition sequence_given_up : World :=
  answered "/get/eco:b1241/aaseq"
    (answered "/get/eco:b1241/aaseq"
       (answered "/get/eco:b1241/aaseq" world_one_sequence)).






(** A cache that holds the entry of 1.1.1.1 and, for hsa:124, a page that
    is no FASTA text; the server answers every request with that page. *)
Definition not_fasta : string := "<html>Service unavailable</html>" +:+ nl.

Definition world_bad_sequence : World :=
  MkWorld (fun _ _ => MkResponse 200 not_fasta) [] (fun _ => 0%Q) 0 []
    {[ "/cache/enzyme/1/1/1/1.1.1.1.txt" := enzyme_example;
       "/cache/aaseq/hsa/124.txt" := not_fasta ]} [] false false.

Definition one_enzyme_args : GetSequences.Args :=
  GetSequences.MkArgs ("1.1.1.1" +:+ nl) "sequences.csv"
    false (Some "/cache") false false.

(** A world for a run of the sequence job that succeeds: the entry of
    1.1.1.1 is in the cache, and the server answers every request with
    [fasta_example]. *)
Definition world_all_well : World :=
  MkWorld (fun _ _ => MkResponse 200 fasta_example) [] (fun _ => 0%Q) 0 []
    {[ "/cache/enzyme/1/1/1/1.1.1.1.txt" := enzyme_example ]} [] false false.

(** Inputs for the three other jobs. *)
Definition pathway_example : string :=
  "ENTRY       hsa00010                    Pathway" +:+ nl
  +:+ "GENE        3101  HK3; hexokinase 3 [KO:K00844] [EC:2.7.1.1]" +:+ nl
  +:+ "            2821  GPI; glucose-6-phosphate isomerase [KO:K01810] [EC:5.3.1.9]" +:+ nl
  +:+ "            3098  HK1; hexokinase 1 [KO:K00844] [EC:2.7.1.1]" +:+ nl
  +:+ "///" +:+ nl.

Definition world_pathway : World :=
  MkWorld (fun _ _ => MkResponse 200 pathway_example) [] (fun _ => 0%Q) 0 []
    ∅ [] false false.

Definition enzymes_args : GetEnzymes.Args :=
  GetEnzymes.MkArgs [GetEnzymes.MkPathway "hsa00010" "hsa"] "enzymes.csv"
    false None false false.

Definition pathway_list_example : string :=
  "path:hsa00020" +:+ tab +:+ "Citrate cycle (TCA cycle)" +:+ nl
  +:+ "path:hsa00010" +:+ tab +:+ "Glycolysis / Gluconeogenesis" +:+ nl.

Definition world_pathway_list : World :=
  MkWorld (fun _ _ => MkResponse 200 pathway_list_example) [] (fun _ => 0%Q) 0 []
    ∅ [] false false.

Definition pathways_args : GetPathways.Args :=
  GetPathways.MkArgs ["hsa"] "pathways.csv" false false false.

Definition organism_list_example : string :=
  "T01001" +:+ tab +:+ "hsa" +:+ tab +:+ "Homo sapiens (human)" +:+ nl
  +:+ "T00005" +:+ tab +:+ "eco" +:+ tab +:+ "Escherichia coli K-12" +:+ nl.

Definition world_organism_list : World :=
  MkWorld (fun _ _ => MkResponse 200 organism_list_example) [] (fun _ => 0%Q) 0 []
    ∅ [] false false.

Definition organisms_args : GetOrganisms.Args :=
  GetOrganisms.MkArgs "organisms.csv" false false.

(** The annotations of [pathway_example] in another order, one of them
    twice, and a text whose only bracket with [EC:] is not closed. *)
Definition pathway_shuffled : string :=
  "[EC:5.3.1.9] [EC:2.7.1.1]" +:+ nl +:+ "[EC:5.3.1.9] [KO:K00844]".

Definition pathway_unclosed : string :=
  "GENE        3101  HK3; hexokinase 3 [KO:K00844] [EC:2.7.1.1" +:+ nl.

(** The largest binary64 number below 1, and a world in which [random()]
    returns it and the server rejects the first two requests. *)
Definition below_one : Q := (2 ^ 53 - 1) # 2 ^ 53.

Definition world_largest_random : World :=
  MkWorld rejecting_twice [] (fun _ => below_one) 0 [] ∅ [] false false.

(** A server that rejects every request. *)
Definition world_always_rejecting : World :=
  MkWorld (fun _ _ => MkResponse 403 "") [] (fun _ => 0%Q) 0 [] ∅ [] false false.

(** The matcher has gone from [c] to [c'] over the text [s]. *)
Definition consumed (c c' : cursor) (s : string) : Prop :=
  ahead c = s +:+ ahead c' /\ behind c' = String.rev_app s (behind c).

(** The characters of [s] that satisfy [p], in their order. *)
Fixpoint keep (p : ascii -> bool) (s : string) : string :=
  match s with
  | "" => ""
  | String a s' => if p a then String a (keep p s') else keep p s'
  end.

(** The cache file of a pathway under the pathway cache root, as both
    [fetch_pathway] and [_get_pathway_from_cache] compute it. *)
Definition pathway_cache_file (cache_path : Path.t)
  (pathway : GetEnzymes.Pathway) : string :=
  Path.to_string
    (cache_path /: GetEnzymes.organism pathway
     /: (GetEnzymes.id pathway +:+ ".txt")).

(** [fetch_enzyme] has written to the cache a response that passed its
    test, and nothing else. *)
Definition stored_validated (cache_path : Path.t) (ec_number : string)
  (w w' : World) (parsed : Exn + list GetSequences.Row) : Prop :=
  exists response : Response,
    GetSequences.expected_response ec_number response = true
    /\ files w'
       = <[enzyme_cache_file cache_path ec_number := text response]> (files w)
    /\ GetSequences.parse_genes ec_number (text response) = parsed.

(** The world after a sequence was fetched at the first attempt and
    written to the cache at /cache/aaseq. *)
Definition world_sequence_fetched : World :=
  add_file "/cache/aaseq/hsa/124.txt" fasta_example
    (answered "/get/hsa:124/aaseq" world_one_sequence).

(** A server that has no page for any path. *)
Definition world_not_found : World :=
  MkWorld (fun _ _ => MkResponse 404 "Not Found") [] (fun _ => 0%Q) 0 []
    ∅ [] false false.

(** A run of the sequence job over an EC number that the server does not
    know and one that it knows. *)
Definition skipping_args : GetSequences.Args :=
  GetSequences.MkArgs ("9.9.9.9" +:+ nl +:+ "1.1.1.1" +:+ nl) "sequences.csv"
    false (Some "/cache") false false.

(** A run of the sequence job without cache directory. *)
Definition no_cache_args : GetSequences.Args :=
  GetSequences.MkArgs ("1.1.1.1" +:+ nl) "sequences.csv" false None false false.

(** The rows of [enzyme_example]. *)
Definition enzyme_example_genes : list GetSequences.Row :=
  [["1.1.1.1"; "hsa"; "124"]; ["1.1.1.1"; "eco"; "b1241"]].

(** In [fetch_cache]: the elements whose result is [None]. *)
Definition misses {E R} (elements : list E) (cache_results : list (option R))
  : list E :=
  omap (fun er => match er.2 with None => Some er.1 | Some _ => None end)
    (zip elements cache_results).

(** A row of the enzyme job: the organism and the id of a pathway of the
    input, and a code. *)
Definition enzyme_row_of (pathways : list GetEnzymes.Pathway)
  (row : GetEnzymes.Row) : Prop :=
  exists (p : GetEnzymes.Pathway) (n : string),
    p ∈ pathways
    /\ row = [GetEnzymes.organism p; GetEnzymes.id p; n]
    /\ is_code n = true.

(** [a-z] *)
Definition lower_letter (a : ascii) : bool := Str.between "a" "z" a.

(** A row of [parse_genes]: the EC number, an organism code in lower-case
    letters, and a gene. *)
Definition gene_row_of (ec_number : string) (g : GetSequences.Row) : Prop :=
  exists organism gene : string,
    g = [ec_number; organism; gene]
    /\ organism <> "" /\ all_chars lower_letter organism = true.

(** A path of the list of the pathways of one of the organisms. *)
Definition pathway_list_request (organisms : list string) (path : string) : Prop :=
  exists code : string, code ∈ organisms /\ path = "/list/pathway/" +:+ code.

(** * Properties *)

(** ** The orders and the sort *)

Lemma str_compare_refl (a : string) : String.compare a a = Eq.
Proof.
  induction a as [|c a IH]; simpl; [done|].
  unfold Ascii.compare. by rewrite N.compare_refl.
Qed.

Lemma str_compare_gt_lt (a b : string) :
  String.compare a b = Gt -> String.compare b a = Lt.
Proof. intros H. rewrite String.compare_antisym, H. done. Qed.

Lemma str_compare_lt_gt (a b : string) :
  String.compare a b = Lt -> String.compare b a = Gt.
Proof. intros H. rewrite String.compare_antisym, H. done. Qed.

Lemma str_leb_total (a b : string) : str_leb a b = true \/ str_leb b a = true.
Proof. apply String.leb_total. Qed.

Lemma str_leb_trans (a b c : string) :
  str_leb a b = true -> str_leb b c = true -> str_leb a c = true.
Proof.
  intros H1 H2. apply Is_true_true.
  change (String.le a c). transitivity b; apply Is_true_true; assumption.
Qed.

Lemma str_leb_of_lt (a b : string) : String.compare a b = Lt -> str_leb a b = true.
Proof. unfold str_leb, String.leb. by intros ->. Qed.

Lemma str_compare_lt_trans (a b c : string) :
  String.compare a b = Lt -> String.compare b c = Lt -> String.compare a c = Lt.
Proof.
  intros H1 H2.
  pose proof (str_leb_trans a b c (str_leb_of_lt _ _ H1) (str_leb_of_lt _ _ H2)) as H.
  unfold str_leb, String.leb in H.
  destruct (String.compare a c) eqn:E; [|done|done].
  apply String.compare_eq_iff in E as ->.
  rewrite (str_compare_lt_gt _ _ H2) in H1. done.
Qed.

Lemma pair_leb_total (x y : string * string) :
  pair_leb x y = true \/ pair_leb y x = true.
Proof.
  unfold pair_leb. destruct (String.compare x.1 y.1) eqn:E.
  - apply String.compare_eq_iff in E. rewrite E, str_compare_refl.
    apply str_leb_total.
  - by left.
  - right. by rewrite (str_compare_gt_lt _ _ E).
Qed.

Lemma pair_leb_trans (x y z : string * string) :
  pair_leb x y = true -> pair_leb y z = true -> pair_leb x z = true.
Proof.
  unfold pair_leb.
  destruct (String.compare x.1 y.1) eqn:E1; [|..|done];
    destruct (String.compare y.1 z.1) eqn:E2; try done.
  - apply String.compare_eq_iff in E1. apply String.compare_eq_iff in E2.
    rewrite E1, E2, str_compare_refl. apply str_leb_trans.
  - apply String.compare_eq_iff in E1. rewrite E1, E2. done.
  - apply String.compare_eq_iff in E2. rewrite <- E2, E1. done.
  - rewrite (str_compare_lt_trans _ _ _ E1 E2). done.
Qed.

Lemma row_leb_total (x y : list string) : row_leb x y = true \/ row_leb y x = true.
Proof.
  revert y. induction x as [|a x IH]; intros [|b y]; simpl; auto.
  destruct (String.compare a b) eqn:E.
  - apply String.compare_eq_iff in E. subst. rewrite str_compare_refl. apply IH.
  - by left.
  - right. by rewrite (str_compare_gt_lt _ _ E).
Qed.

Lemma row_leb_trans (x y z : list string) :
  row_leb x y = true -> row_leb y z = true -> row_leb x z = true.
Proof.
  revert y z. induction x as [|a x IH]; intros [|b y] [|c z]; simpl; try done.
  destruct (String.compare a b) eqn:E1; [|..|done];
    destruct (String.compare b c) eqn:E2; try done.
  - apply String.compare_eq_iff in E1. apply String.compare_eq_iff in E2.
    subst. rewrite str_compare_refl. apply IH.
  - apply String.compare_eq_iff in E1. subst. rewrite E2. done.
  - apply String.compare_eq_iff in E2. subst. rewrite E1. done.
  - rewrite (str_compare_lt_trans _ _ _ E1 E2). done.
Qed.

Section SortingFacts.
Context {A K : Type} (key : A -> K) (leb : K -> K -> bool).
Hypothesis leb_total : forall a b, leb a b = true \/ leb b a = true.
Hypothesis leb_trans :
  forall a b c, leb a b = true -> leb b c = true -> leb a c = true.

Lemma insert_sorted_perm (x : A) (l : list A) :
  insert_sorted key leb x l ≡ₚ x :: l.
Proof.
  induction l as [|y l IH]; simpl; [done|].
  destruct (leb (key x) (key y)); [done|].
  rewrite IH. apply Permutation_swap.
Qed.

Lemma sorted_by_perm (l : list A) : sorted_by key leb l ≡ₚ l.
Proof.
  induction l as [|x l IH]; simpl; [done|].
  rewrite insert_sorted_perm. by f_equiv.
Qed.

Lemma insert_sorted_strongly (x : A) (l : list A) :
  StronglySorted (key_le key leb) l -> StronglySorted (key_le key leb) (insert_sorted key leb x l).
Proof.
  induction 1 as [|y l Hl IH Hy]; simpl.
  - repeat constructor.
  - destruct (leb (key x) (key y)) eqn:E.
    + constructor; [by constructor|].
      constructor; [exact E|].
      eapply Forall_impl; [exact Hy|]. intros z Hz. unfold key_le in *. eauto.
    + constructor; [exact IH|].
      rewrite insert_sorted_perm. constructor; [|exact Hy].
      unfold key_le. destruct (leb_total (key x) (key y)); congruence.
Qed.

Lemma sorted_by_strongly (l : list A) : StronglySorted (key_le key leb) (sorted_by key leb l).
Proof.
  induction l as [|x l IH]; simpl; [constructor|].
  by apply insert_sorted_strongly.
Qed.
End SortingFacts.

(** ** Running computations *)

Lemma bind_return {A B} (m : M A) (k : A -> M B) (w w' : World) (a : A) :
  m w = Return a w' -> bind m k w = k a w'.
Proof. unfold bind. by intros ->. Qed.

Lemma bind_raise {A B} (m : M A) (k : A -> M B) (w w' : World) (e : Exn) :
  m w = Raise e w' -> bind m k w = Raise e w'.
Proof. unfold bind. by intros ->. Qed.

Lemma bind_inv {A B} (m : M A) (k : A -> M B) (w w' : World) (b : B) :
  bind m k w = Return b w' ->
  exists a w1, m w = Return a w1 /\ k a w1 = Return b w'.
Proof. unfold bind. destruct (m w) as [a w1| |]; [eauto|done..]. Qed.

Lemma mapM_app {A B} (f : A -> M B) (l1 l2 : list A) (w : World) :
  mapM f (l1 ++ l2) w =
  (rs1 <- mapM f l1 ;; rs2 <- mapM f l2 ;; ret (rs1 ++ rs2)) w.
Proof.
  revert w. induction l1 as [|x l1 IH]; intros w; simpl.
  - unfold bind, ret. by destruct (mapM f l2 w).
  - unfold bind, ret in *. destruct (f x w) as [y w1| |]; [|done..].
    rewrite IH. destruct (mapM f l1 w1) as [rs1 w2| |]; [|done..].
    by destruct (mapM f l2 w2).
Qed.

(** Operations that only look at the world: if each of them returns or
    raises [e], and one of them raises, the whole pass raises [e]. *)
Lemma mapM_raise {A B} (f : A -> M B) (e : Exn) (l : list A) (w : World) :
  (forall x, x ∈ l -> (exists y, f x w = Return y w) \/ f x w = Raise e w) ->
  (exists x, x ∈ l /\ f x w = Raise e w) ->
  mapM f l w = Raise e w.
Proof.
  induction l as [|x l IH]; intros Hall [x0 [Hin Hx0]].
  - by apply elem_of_nil in Hin.
  - simpl. destruct (Hall x) as [[y Hy]|Hx]; [left| |].
    + rewrite (bind_return _ _ _ _ _ Hy).
      assert (mapM f l w = Raise e w) as Hl.
      { apply IH.
        - intros z Hz. apply Hall. by right.
        - apply elem_of_cons in Hin as [->|Hin]; [congruence|eauto]. }
      by rewrite (bind_raise _ _ _ _ _ Hl).
    + by rewrite (bind_raise _ _ _ _ _ Hx).
Qed.

(** Read-only operations that all return leave the world as it is. *)
Lemma mapM_pure {A B} (f : A -> M B) (g : A -> B) (l : list A) (w : World) :
  (forall x, x ∈ l -> f x w = Return (g x) w) ->
  mapM f l w = Return (map g l) w.
Proof.
  induction l as [|x l IH]; intros Hall; simpl; [done|].
  rewrite (bind_return _ _ _ _ _ (Hall x ltac:(left))).
  rewrite (bind_return _ _ _ _ _ (IH (fun z Hz => Hall z ltac:(by right)))).
  done.
Qed.

Lemma mapM_elem {A B} (f : A -> M B) (l : list A) :
  forall (w w' : World) (ys : list B),
    mapM f l w = Return ys w' ->
    forall y : B, y ∈ ys ->
      exists (x : A) (w1 w2 : World), x ∈ l /\ f x w1 = Return y w2.
Proof.
  induction l as [|x l IH]; intros w w' ys H y Hy; cbn [mapM] in H.
  - injection H as <- <-. by apply elem_of_nil in Hy.
  - apply bind_inv in H as (y0 & w1 & Hy0 & H).
    apply bind_inv in H as (ys' & w2 & Hys & H). injection H as <- <-.
    apply elem_of_cons in Hy as [->|Hy].
    + exists x, w, w1. split; [left|done].
    + destruct (IH _ _ _ Hys y Hy) as (x' & wa & wb & ? & ?).
      exists x', wa, wb. split; [by right|done].
Qed.

Lemma mapM_length {A B} (f : A -> M B) (l : list A) :
  forall (w w' : World) (ys : list B),
    mapM f l w = Return ys w' -> length ys = length l.
Proof.
  induction l as [|x l IH]; intros w w' ys H; cbn [mapM] in H.
  - by injection H as <- <-.
  - apply bind_inv in H as (y0 & w1 & Hy0 & H).
    apply bind_inv in H as (ys' & w2 & Hys & H). injection H as <- <-.
    cbn [length]. f_equal. by eapply IH.
Qed.

Lemma mapM_preserves {A B} (f : A -> M B) (P : World -> World -> Prop)
  (l : list A) :
  (forall w, P w w) ->
  (forall w1 w2 w3, P w1 w2 -> P w2 w3 -> P w1 w3) ->
  (forall x w y w', x ∈ l -> f x w = Return y w' -> P w w') ->
  forall (w w' : World) (ys : list B), mapM f l w = Return ys w' -> P w w'.
Proof.
  intros Hrefl Htrans. induction l as [|x l IH]; intros Hf w w' ys H;
    cbn [mapM] in H.
  - injection H as <- <-. apply Hrefl.
  - apply bind_inv in H as (y0 & w1 & Hy0 & H).
    apply bind_inv in H as (ys' & w2 & Hys & H). injection H as <- <-.
    eapply Htrans; [eapply Hf; [left|done]|].
    eapply IH; [|done]. intros. eapply Hf; [by right|done].
Qed.

(** ** Binary64 arithmetic *)

Lemma round_half_even_le (q : Q) (n : Z) :
  (q <= inject_Z n)%Q -> (Float.round_half_even q <= n)%Z.
Proof.
  intros H. unfold Float.round_half_even.
  pose proof (Qfloor_le q) as Hf.
  assert (Qfloor q <= n)%Z as Hfn.
  { rewrite <- (Qfloor_Z n). by apply Qfloor_resp_le. }
  destruct (Z.eq_dec (Qfloor q) n) as [E|E].
  - assert (q == inject_Z (Qfloor q))%Q as Hq.
    { apply Qle_antisym; [by rewrite E|done]. }
    assert ((q - inject_Z (Qfloor q) ?= 1 # 2)%Q = Lt) as ->; [|lia].
    apply (proj1 (Qlt_alt _ _)). lra.
  - destruct (q - inject_Z (Qfloor q) ?= 1 # 2)%Q; [destruct (Z.even _)|..]; lia.
Qed.

Lemma round_half_even_ge (q : Q) (n : Z) :
  (inject_Z n <= q)%Q -> (n <= Float.round_half_even q)%Z.
Proof.
  intros H. unfold Float.round_half_even.
  assert (n <= Qfloor q)%Z as Hfn.
  { rewrite <- (Qfloor_Z n). by apply Qfloor_resp_le. }
  destruct (q - inject_Z (Qfloor q) ?= 1 # 2)%Q; [destruct (Z.even _)|..]; lia.
Qed.

Lemma round_half_even_integer (q : Q) (n : Z) :
  (q == inject_Z n)%Q -> Float.round_half_even q = n.
Proof.
  intros H. apply Z.le_antisymm.
  - apply round_half_even_le. rewrite H. apply Qle_refl.
  - apply round_half_even_ge. rewrite H. apply Qle_refl.
Qed.

(** The multiple of [1 # p] that is nearest to [q] lies between any two
    multiples that [q] lies between. *)
Lemma round_half_even_scaled (p : positive) (q : Q) (lo hi : Z) :
  (lo # p <= q)%Q -> (q <= hi # p)%Q ->
  (lo # p <= inject_Z (Float.round_half_even (q / (1 # p))) * (1 # p))%Q
  /\ (inject_Z (Float.round_half_even (q / (1 # p))) * (1 # p) <= hi # p)%Q.
Proof.
  intros Hlo Hhi.
  assert (q / (1 # p) == q * inject_Z (Zpos p))%Q as Hq by reflexivity.
  assert (forall n : Z, (inject_Z n * (1 # p) == n # p)%Q) as Hn.
  { intros n. unfold Qeq, inject_Z, Qmult. simpl. lia. }
  assert (forall n : Z, (inject_Z n == (n # p) * inject_Z (Zpos p))%Q) as Hm.
  { intros n. unfold Qeq, inject_Z, Qmult. simpl. lia. }
  assert (0 < inject_Z (Zpos p))%Q as Hp by (unfold Qlt; simpl; lia).
  rewrite !Hn. split.
  - assert (lo <= Float.round_half_even (q / (1 # p)))%Z as H.
    { apply round_half_even_ge. rewrite Hq, (Hm lo).
      by apply Qmult_le_compat_r; [|apply Qlt_le_weak]. }
    unfold Qle. simpl. nia.
  - assert (Float.round_half_even (q / (1 # p)) <= hi)%Z as H.
    { apply round_half_even_le. rewrite Hq, (Hm hi).
      by apply Qmult_le_compat_r; [|apply Qlt_le_weak]. }
    unfold Qle. simpl. nia.
Qed.

Lemma Qle_bool_false (x y : Q) : (y < x)%Q -> Qle_bool x y = false.
Proof.
  intros H. destruct (Qle_bool x y) eqn:E; [|done].
  apply Qle_bool_iff in E. lra.
Qed.

Lemma pow2_negative (u : Z) :
  (u < 0)%Z -> Float.pow2 u = 1 # Z.to_pos (2 ^ (- u)).
Proof. intros H. unfold Float.pow2. by destruct (Z.leb_spec 0 u); [lia|]. Qed.

(** A number below 2 is rounded to a number that is at most 2. *)
Lemma round_below_2 (q : Q) :
  (0 <= q)%Q -> (q < 2)%Q ->
  exists x : Q, Float.round q = Float.Finite x /\ (0 <= x)%Q /\ (x <= 2)%Q.
Proof.
  intros H0 H2. unfold Float.round.
  destruct (Qle_bool q 0) eqn:E0; [exists 0%Q; repeat split; lra|].
  assert (Float.exponent q <= 0)%Z as He.
  { unfold Float.exponent. destruct (Qle_bool 1 q) eqn:E1.
    - apply Qle_bool_iff in E1.
      assert (Qfloor q < 2)%Z.
      { rewrite Zlt_Qlt. eapply Qle_lt_trans; [apply Qfloor_le|exact H2]. }
      assert (1 <= Qfloor q)%Z.
      { rewrite <- (Qfloor_Z 1). by apply Qfloor_resp_le. }
      by replace (Qfloor q) with 1%Z by lia.
    - pose proof (Z.log2_up_nonneg (Qceiling (/ q))). lia. }
  set (u := (Z.max (Float.exponent q) (-1022) - 52)%Z).
  assert (u < 0)%Z as Hu by lia.
  rewrite (pow2_negative u Hu). set (p := Z.to_pos (2 ^ (- u))).
  destruct (round_half_even_scaled p q 0 (2 * Zpos p)) as [Hlo Hhi].
  - unfold Qle in *. simpl in *. lia.
  - unfold Qle, Qlt in *. simpl in *. nia.
  - set (r := (inject_Z (Float.round_half_even (q / (1 # p))) * (1 # p))%Q) in *.
    assert (0 <= r)%Q as Hr0 by (unfold Qle in *; simpl in *; lia).
    assert (r <= 2)%Q as Hr2.
    { eapply Qle_trans; [exact Hhi|]. unfold Qle. simpl. lia. }
    rewrite Qle_bool_false.
    + exists (Qred r). split; [done|]. split; by rewrite Qred_correct.
    + eapply Qle_lt_trans; [exact Hr2|]. by vm_compute.
Qed.

(** Between [2^e] and [2^(e+1)] the binary64 numbers are the multiples of
    [2^(e-52)]. *)
Lemma round_binade (e : Z) (q : Q) :
  (0 <= e < 52)%Z ->
  (inject_Z (2 ^ e) <= q)%Q -> (q < inject_Z (2 ^ (e + 1)))%Q ->
  let p := Z.to_pos (2 ^ (52 - e)) in
  Float.round q
  = Float.Finite
      (Qred (inject_Z (Float.round_half_even (q / (1 # p))) * (1 # p))).
Proof.
  intros He Hlo Hhi p. unfold Float.round.
  assert (0 < 2 ^ e)%Z as Hpos by (apply Z.pow_pos_nonneg; lia).
  assert (0 < inject_Z (2 ^ e))%Q as Hpos' by (by rewrite <- (Zlt_Qlt 0)).
  rewrite Qle_bool_false by lra.
  assert (Float.exponent q = e) as ->.
  { unfold Float.exponent.
    assert (1 <= q)%Q as H1.
    { eapply Qle_trans; [|exact Hlo]. rewrite <- (Zle_Qle 1). lia. }
    apply Qle_bool_iff in H1. rewrite H1.
    apply Z.log2_unique; [lia|]. split.
    - rewrite <- (Qfloor_Z (2 ^ e)). by apply Qfloor_resp_le.
    - unfold Z.succ. rewrite Zlt_Qlt.
      eapply Qle_lt_trans; [apply Qfloor_le|exact Hhi]. }
  replace (Z.max e (-1022) - 52)%Z with (e - 52)%Z by lia.
  rewrite (pow2_negative (e - 52)) by lia.
  replace (- (e - 52))%Z with (52 - e)%Z by lia. fold p.
  assert (0 < 2 ^ (52 - e))%Z as Hp by (apply Z.pow_pos_nonneg; lia).
  assert (Zpos p = 2 ^ (52 - e))%Z as Hpp by (unfold p; by rewrite Z2Pos.id).
  destruct (round_half_even_scaled p q 0 (2 ^ (e + 1) * Zpos p)) as [_ Hr].
  - unfold Qle in *. simpl in *. nia.
  - unfold Qle, Qlt in *. simpl in *. nia.
  - rewrite Qle_bool_false; [done|].
    eapply Qle_lt_trans; [exact Hr|].
    assert (2 ^ (e + 1) * Zpos p # p == inject_Z (2 ^ (e + 1)))%Q as ->.
    { unfold Qeq. simpl. lia. }
    change (Float.pow2 1024) with (inject_Z (2 ^ 1024)). rewrite <- Zlt_Qlt.
    apply Z.pow_lt_mono_r; lia.
Qed.

(** The sum of 4 and of a number that is at most 2 is a multiple of
    [2^-50] between 4 and 6. *)
Lemma add_4 (x : Q) :
  (0 <= x)%Q -> (x <= 2)%Q ->
  exists n : Z,
    Float.add (Float.Finite 4) (Float.Finite x)
    = Float.Finite (Qred (n # 2 ^ 50))
    /\ (4 * 2 ^ 50 <= n <= 6 * 2 ^ 50)%Z.
Proof.
  intros H0 H2. unfold Float.add.
  assert (inject_Z (2 ^ 2) <= 4 + x)%Q as Hlo.
  { change (inject_Z (2 ^ 2)) with 4%Q. lra. }
  assert (4 + x < inject_Z (2 ^ (2 + 1)))%Q as Hhi.
  { change (inject_Z (2 ^ (2 + 1))) with 8%Q. lra. }
  rewrite (round_binade 2 (4 + x) ltac:(lia) Hlo Hhi).
  change (Z.to_pos (2 ^ (52 - 2))) with (2 ^ 50)%positive.
  destruct (round_half_even_scaled (2 ^ 50) (4 + x) (4 * 2 ^ 50) (6 * 2 ^ 50))
    as [Hl Hh].
  { assert (4 * 2 ^ 50 # 2 ^ 50 == 4)%Q as -> by reflexivity. lra. }
  { assert (6 * 2 ^ 50 # 2 ^ 50 == 6)%Q as -> by reflexivity. lra. }
  exists (Float.round_half_even ((4 + x) / (1 # 2 ^ 50))). split.
  - f_equal. apply Qred_complete. unfold Qeq, Qmult, inject_Z. simpl. lia.
  - revert Hl Hh. generalize (Float.round_half_even ((4 + x) / (1 # 2 ^ 50))).
    intros n. unfold Qle, Qmult, inject_Z. simpl. lia.
Qed.

(** The double of such a sum is exact. *)
Lemma mul_2_exact (n : Z) :
  (4 * 2 ^ 50 <= n <= 6 * 2 ^ 50)%Z ->
  Float.mul (Float.Finite (Qred (n # 2 ^ 50))) (Float.Finite 2)
  = Float.Finite (Qred (n # 2 ^ 49)).
Proof.
  intros Hn. unfold Float.mul.
  assert (Qred (n # 2 ^ 50) * 2 == n # 2 ^ 49)%Q as Hq.
  { rewrite Qred_correct. unfold Qeq, Qmult. simpl. lia. }
  assert (inject_Z (2 ^ 3) <= Qred (n # 2 ^ 50) * 2)%Q as Hlo.
  { rewrite Hq. unfold Qle. simpl. lia. }
  assert (Qred (n # 2 ^ 50) * 2 < inject_Z (2 ^ (3 + 1)))%Q as Hhi.
  { rewrite Hq. unfold Qlt. simpl. lia. }
  rewrite (round_binade 3 _ ltac:(lia) Hlo Hhi).
  change (Z.to_pos (2 ^ (52 - 3))) with (2 ^ 49)%positive.
  f_equal. apply Qred_complete.
  rewrite (round_half_even_integer _ n).
  - unfold Qeq, Qmult, inject_Z. simpl. lia.
  - change (?a / (1 # 2 ^ 49))%Q with (a * inject_Z (Zpos (2 ^ 49)))%Q.
    rewrite Hq. unfold Qeq, Qmult, inject_Z. simpl. lia.
Qed.

(** The first two durations of a call: the first lies between 4 and 6,
    both included, and the second is its double. *)
Lemma first_sleeps (w : World) :
  (0 <= random_source w (draws w))%Q ->
  (random_source w (draws w) < 1)%Q ->
  exists first second : Q,
    first_sleep w = Float.Finite first
    /\ Float.mul (Float.Finite first) (Float.Finite 2) = Float.Finite second
    /\ (4 <= first)%Q /\ (first <= 6)%Q /\ (second == 2 * first)%Q.
Proof.
  intros Hlo Hhi. unfold first_sleep.
  destruct (round_below_2 (random_source w (draws w) * 2)) as (x & Hx & H0 & H2);
    [lra..|].
  change (Float.mul (Float.Finite (random_source w (draws w))) (Float.Finite 2))
    with (Float.round (random_source w (draws w) * 2)).
  rewrite Hx. destruct (add_4 x H0 H2) as (n & -> & Hn).
  exists (Qred (n # 2 ^ 50)), (Qred (n # 2 ^ 49)).
  split; [done|]. split; [by apply mul_2_exact|].
  rewrite !Qred_correct. unfold Qle, Qeq, Qmult. simpl. lia.
Qed.

(** ** [fetch_with_retry] *)

Lemma retry_loop_done (fuel : nat) (path : string) (r : Response)
  (s : Float.t) (w : World) :
  status_code r <> 403%Z -> retry_loop fuel path r s w = Return r w.
Proof.
  intros H. destruct fuel; simpl;
    (destruct (Z.eqb_spec (status_code r) 403); [done|reflexivity]).
Qed.

(** One round of the loop on a rejected response. *)
Lemma retry_loop_step (fuel : nat) (path : string) (r : Response) (q : Q)
  (w : World) :
  status_code r = 403%Z ->
  retry_loop (S fuel) path r (Float.Finite q) w
  = retry_loop fuel path (api w (length (requests w)) path)
      (Float.mul (Float.Finite q) (Float.Finite 2))
      (after_round (Float.Finite q) path w).
Proof.
  intros H. simpl. rewrite H. simpl.
  unfold bind, get_environ_DEBUG, when, sleep, client_get, print, ret,
    after_round.
  by destruct (environ_DEBUG w).
Qed.

(** A sleep without end: the call does not come back. *)
Lemma retry_loop_hangs (fuel : nat) (path : string) (r : Response) (w : World) :
  status_code r = 403%Z -> retry_loop fuel path r Float.Infinity w = OutOfFuel.
Proof.
  intros H. destruct fuel; simpl; rewrite H; simpl; [done|].
  unfold bind, get_environ_DEBUG, when, sleep, print, ret.
  by destruct (environ_DEBUG w).
Qed.

Lemma retry_loop_not_403 (fuel : nat) (path : string) (r r' : Response)
  (s : Float.t) (w w' : World) :
  retry_loop fuel path r s w = Return r' w' -> status_code r' <> 403%Z.
Proof.
  revert r s w. induction fuel as [|fuel IH]; intros r s w;
    destruct (Z.eq_dec (status_code r) 403%Z) as [E|E];
    try (rewrite retry_loop_done by done; by intros [= <- _]).
  - simpl. by rewrite E.
  - destruct s as [q|]; [|by rewrite retry_loop_hangs].
    rewrite retry_loop_step by done. apply IH.
Qed.

Lemma untouched_refl (w : World) : untouched w w.
Proof. by repeat split. Qed.

Lemma untouched_trans (w1 w2 w3 : World) :
  untouched w1 w2 -> untouched w2 w3 -> untouched w1 w3.
Proof.
  unfold untouched. intros (?&?&?&?&?) (?&?&?&?&?). repeat split; congruence.
Qed.

Lemma after_round_untouched (s : Float.t) (path : string) (w : World) :
  untouched w (after_round s path w).
Proof. unfold after_round. by destruct (environ_DEBUG w). Qed.

Lemma retry_loop_untouched (fuel : nat) (path : string) (r : Response)
  (s : Float.t) (w : World) :
  match retry_loop fuel path r s w with
  | Return _ w' => untouched w w'
  | Raise _ _ => False
  | OutOfFuel => True
  end.
Proof.
  revert r s w. induction fuel as [|fuel IH]; intros r s w;
    destruct (Z.eq_dec (status_code r) 403%Z) as [E|E];
    try (rewrite retry_loop_done by done; apply untouched_refl).
  - simpl. by rewrite E.
  - destruct s as [q|]; [|by rewrite retry_loop_hangs].
    rewrite retry_loop_step by done.
    match goal with
    | |- context [retry_loop fuel path ?r' ?s' ?w'] =>
        specialize (IH r' s' w'); destruct (retry_loop fuel path r' s' w');
        [|done..]
    end.
    eapply untouched_trans; [apply after_round_untouched|exact IH].
Qed.

Lemma fetch_with_retry_untouched (fuel : nat) (path : string) (w : World) :
  match fetch_with_retry fuel path w with
  | Return _ w' => untouched w w'
  | Raise _ _ => False
  | OutOfFuel => True
  end.
Proof.
  unfold fetch_with_retry, bind, client_get, random.
  match goal with
  | |- context [retry_loop fuel path ?r' ?s' ?w'] =>
      pose proof (retry_loop_untouched fuel path r' s' w') as H;
      destruct (retry_loop fuel path r' s' w'); [|done..]
  end.
  (eapply untouched_trans; [|exact H]); by repeat split.
Qed.

Lemma fetch_with_retry_not_403 (fuel : nat) (path : string) (r : Response)
  (w w' : World) :
  fetch_with_retry fuel path w = Return r w' -> status_code r <> 403%Z.
Proof.
  unfold fetch_with_retry, bind, client_get, random. apply retry_loop_not_403.
Qed.

(** A first answer that is not a rejection is returned at once. *)
Lemma fetch_with_retry_first (fuel : nat) (path : string) (w : World) :
  status_code (api w (length (requests w)) path) <> 403%Z ->
  fetch_with_retry fuel path w =
  Return (api w (length (requests w)) path) (add_draw (add_request path w)).
Proof.
  intros H. unfold fetch_with_retry, bind, client_get, random.
  by rewrite retry_loop_done.
Qed.

Lemma repeat_snoc_app {A} (x : A) (n : nat) (l : list A) :
  repeat x n ++ x :: l = repeat x (S n) ++ l.
Proof. induction n as [|n IH]; simpl in *; congruence. Qed.

(** A rejected response followed by [k] more rejections and then another
    answer: [k + 1] sleeps, each the double of the one before, and [k + 1]
    further requests, as long as the durations are finite. *)
Lemma retry_loop_backoff (path : string) (k : nat) :
  forall (fuel : nat) (r : Response) (s : Float.t) (w : World),
    status_code r = 403%Z ->
    k < fuel ->
    (forall i, i < k ->
       status_code (api w (length (requests w) + i) path) = 403%Z) ->
    status_code (api w (length (requests w) + k) path) <> 403%Z ->
    Forall Float.finite (backoff s (S k)) ->
    exists w',
      retry_loop fuel path r s w
      = Return (api w (length (requests w) + k) path) w'
      /\ slept w' = rev (backoff s (S k)) ++ slept w
      /\ requests w' = repeat path (S k) ++ requests w
      /\ draws w' = draws w
      /\ untouched w w'.
Proof.
  induction k as [|k IH]; intros fuel r s w Hr Hfuel H403 Hlast Hfin;
    (destruct fuel as [|fuel]; [lia|]);
    apply Forall_cons in Hfin as [[q ->] Hfin];
    rewrite retry_loop_step by done.
  - rewrite Nat.add_0_r in Hlast |- *. rewrite retry_loop_done by exact Hlast.
    eexists. split; [reflexivity|].
    unfold after_round. by destruct (environ_DEBUG w).
  - assert (status_code (api w (length (requests w)) path) = 403%Z) as H0.
    { specialize (H403 0). rewrite Nat.add_0_r in H403. apply H403. lia. }
    assert (api (after_round (Float.Finite q) path w) = api w
            /\ requests (after_round (Float.Finite q) path w) = path :: requests w
            /\ slept (after_round (Float.Finite q) path w)
               = Float.Finite q :: slept w
            /\ draws (after_round (Float.Finite q) path w) = draws w)
      as (Ha & Hq & Hs & Hd)
      by (unfold after_round; by destruct (environ_DEBUG w)).
    destruct (IH fuel (api w (length (requests w)) path)
                (Float.mul (Float.Finite q) (Float.Finite 2))
                (after_round (Float.Finite q) path w))
      as (w' & Hrun & Hs' & Hq' & Hd' & Hu); [exact H0|lia| | |exact Hfin|].
    + intros i Hi. rewrite Ha, Hq. simpl. rewrite <- Nat.add_succ_r.
      apply H403. lia.
    + rewrite Ha, Hq. simpl. rewrite <- Nat.add_succ_r. exact Hlast.
    + rewrite Ha, Hq in Hrun. simpl in Hrun.
      rewrite <- Nat.add_succ_r in Hrun.
      exists w'. split; [exact Hrun|]. rewrite Hs', Hq', Hd', Hs, Hq, Hd.
      split; [by simpl; rewrite <- !app_assoc|].
      split; [by rewrite repeat_snoc_app|]. split; [done|].
      eapply untouched_trans; [apply after_round_untouched|exact Hu].
Qed.

(** [k] rejections and then another answer: that answer is returned after
    [k] sleeps that start at [4 + random() * 2] and double each time, as
    long as the durations are finite. *)
Lemma fetch_with_retry_backoff (path : string) (k fuel : nat) (w : World) :
  k <= fuel ->
  (forall i, i < k ->
     status_code (api w (length (requests w) + i) path) = 403%Z) ->
  status_code (api w (length (requests w) + k) path) <> 403%Z ->
  Forall Float.finite (backoff (first_sleep w) k) ->
  exists w',
    fetch_with_retry fuel path w
    = Return (api w (length (requests w) + k) path) w'
    /\ slept w' = rev (backoff (first_sleep w) k) ++ slept w
    /\ requests w' = repeat path (S k) ++ requests w
    /\ draws w' = S (draws w)
    /\ untouched w w'.
Proof.
  intros Hfuel H403 Hlast Hfin. destruct k as [|k].
  - rewrite Nat.add_0_r in Hlast |- *.
    rewrite fetch_with_retry_first by exact Hlast.
    eexists. split; [reflexivity|]. by repeat split.
  - unfold fetch_with_retry, bind, client_get, random.
    fold (first_sleep w).
    match goal with
    | |- context [retry_loop fuel path ?r1 ?s1 ?w1] =>
        destruct (retry_loop_backoff path k fuel r1 s1 w1)
          as (w' & Hrun & Hs & Hq & Hd & Hu)
    end.
    + specialize (H403 0). rewrite Nat.add_0_r in H403. apply H403. lia.
    + lia.
    + intros i Hi. simpl. rewrite <- Nat.add_succ_r. apply H403. lia.
    + simpl. rewrite <- Nat.add_succ_r. exact Hlast.
    + exact Hfin.
    + simpl in Hrun. rewrite <- Nat.add_succ_r in Hrun.
      exists w'. split; [exact Hrun|]. rewrite Hs, Hq, Hd. simpl.
      split; [done|]. split; [by rewrite repeat_snoc_app|]. split; [done|].
      (eapply untouched_trans; [|exact Hu]). by repeat split.
Qed.

(** C5, as stated, fails: when [random()] returns the largest binary64
    number below 1, which is at least 0 and less than 1, the sum
    [4 + random() * 2] is rounded to 6, so the first sleep is not less
    than 6 seconds. *)
Lemma fetch_with_retry_two_rejections_counterexample :
  Float.round below_one = Float.Finite below_one
  /\ (0 <= random_source world_largest_random (draws world_largest_random))%Q
  /\ (random_source world_largest_random (draws world_largest_random) < 1)%Q
  /\ exists (first second : Q) (w' : World),
       fetch_with_retry 2 "/get/hsa00010" world_largest_random
       = Return (MkResponse 200 "ok") w'
       /\ slept w' = [Float.Finite second; Float.Finite first]
       /\ ~ (first < 6)%Q.
Proof.
  split; [by vm_compute|]. split; [by vm_compute|]. split; [by vm_compute|].
  exists 6%Q, 12%Q. eexists. split; [vm_compute; reflexivity|].
  split; [reflexivity|]. by vm_compute.
Qed.

(** C5, amended.  The retrying fetcher never hands a response with status
    403 to its caller.  When the server answers 403, 403 and then 200, the
    200 response is returned after exactly two sleeps and three requests;
    the first sleep is the binary64 sum [4 + random() * 2], which lies
    between 4 and 6 seconds, both included, because [random()] lies in
    [0, 1), and the second is the double of the first. *)
Theorem fetch_with_retry_two_rejections :
  (forall (fuel : nat) (path : string) (w w' : World) (r : Response),
     fetch_with_retry fuel path w = Return r w' -> status_code r <> 403%Z)
  /\
  (forall (fuel : nat) (path : string) (w : World),
     (0 <= random_source w (draws w))%Q ->
     (random_source w (draws w) < 1)%Q ->
     status_code (api w (length (requests w)) path) = 403%Z ->
     status_code (api w (length (requests w) + 1) path) = 403%Z ->
     status_code (api w (length (requests w) + 2) path) = 200%Z ->
     2 <= fuel ->
     exists (first second : Q) (w' : World),
       fetch_with_retry fuel path w
       = Return (api w (length (requests w) + 2) path) w'
       /\ slept w' = Float.Finite second :: Float.Finite first :: slept w
       /\ requests w' = [path; path; path] ++ requests w
       /\ first_sleep w = Float.Finite first
       /\ (4 <= first)%Q /\ (first <= 6)%Q
       /\ (second == 2 * first)%Q /\ (2 * first <= second)%Q).
Proof.
  split.
  - intros fuel path w w' r. apply fetch_with_retry_not_403.
  - intros fuel path w Hlo Hhi H0 H1 H2 Hfuel.
    destruct (first_sleeps w Hlo Hhi)
      as (first & second & Hfirst & Hsecond & H4 & H6 & Hdouble).
    destruct (fetch_with_retry_backoff path 2 fuel w)
      as (w' & Hrun & Hs & Hq & _); [lia| |congruence| |].
    { intros [|[|i]] Hi; [by rewrite Nat.add_0_r|done|lia]. }
    { simpl. rewrite Hfirst. repeat constructor; by eexists. }
    exists first, second, w'. split; [exact Hrun|].
    split; [by rewrite Hs; simpl; rewrite Hfirst, Hsecond|].
    split; [exact Hq|]. split; [exact Hfirst|]. repeat split; lra.
Qed.

Lemma fetch_with_retry_two_rejections_witness :
  status_code (MkResponse 200 "ok") <> 403%Z
  /\ exists (first second : Q) (w' : World),
       fetch_with_retry 2 "/get/hsa00010" world_rejecting_twice
       = Return (MkResponse 200 "ok") w'
       /\ slept w' = [Float.Finite second; Float.Finite first]
       /\ requests w' = ["/get/hsa00010"; "/get/hsa00010"; "/get/hsa00010"]
       /\ first_sleep world_rejecting_twice = Float.Finite first
       /\ (4 <= first)%Q /\ (first <= 6)%Q
       /\ (second == 2 * first)%Q /\ (2 * first <= second)%Q.
Proof.
  assert (exists w' : World,
            fetch_with_retry 2 "/get/hsa00010" world_rejecting_twice
            = Return (MkResponse 200 "ok") w') as (w' & Hrun)
    by (vm_compute; eexists; reflexivity).
  split.
  - exact (proj1 fetch_with_retry_two_rejections _ _ _ _ _ Hrun).
  - apply (proj2 fetch_with_retry_two_rejections 2 "/get/hsa00010"
             world_rejecting_twice);
      first [by vm_compute | lia].
Defined.

(** ** The enzyme cache *)

Lemma fetch_enzyme_attempts_untouched (fuel n : nat) (ec_number : string)
  (w : World) :
  match GetSequences.fetch_enzyme_attempts fuel n ec_number w with
  | Return _ w' => untouched w w'
  | Raise _ _ => False
  | OutOfFuel => True
  end.
Proof.
  revert w. induction n as [|n IH]; intros w; simpl.
  - apply untouched_refl.
  - unfold bind.
    pose proof (fetch_with_retry_untouched fuel ("/get/ec:" +:+ ec_number) w) as H.
    destruct (fetch_with_retry fuel ("/get/ec:" +:+ ec_number) w)
      as [r w1| |]; [|done..].
    destruct (GetSequences.expected_response ec_number r); [exact H|].
    specialize (IH w1).
    destruct (GetSequences.fetch_enzyme_attempts fuel n ec_number w1);
      [|done..].
    by eapply untouched_trans.
Qed.

Lemma get_enzyme_from_cache_run (cache_path : Path.t) (ec_number : string)
  (w : World) :
  GetSequences._get_enzyme_from_cache cache_path ec_number w
  = match files w !! enzyme_cache_file cache_path ec_number with
    | None => Return None w
    | Some content =>
        match GetSequences.parse_genes ec_number content with
        | inr genes => Return (Some genes) w
        | inl e => Raise e w
        end
    end.
Proof.
  unfold GetSequences._get_enzyme_from_cache, bind, read_file.
  fold (enzyme_cache_file cache_path ec_number).
  destruct (files w !! enzyme_cache_file cache_path ec_number) as [content|];
    [|done].
  by destruct (GetSequences.parse_genes ec_number content).
Qed.

Lemma fetch_enzyme_stores (fuel : nat) (cache_path : Path.t)
  (ec_number : string) (w w' : World) (genes : list GetSequences.Row) :
  GetSequences.fetch_enzyme fuel (Some cache_path) ec_number w
  = Return (Some genes) w' ->
  exists content : string,
    files w' = <[enzyme_cache_file cache_path ec_number := content]> (files w)
    /\ GetSequences.parse_genes ec_number content = inr genes.
Proof.
  unfold GetSequences.fetch_enzyme. intros H.
  apply bind_inv in H as ([response|] & w1 & Hloop & H).
  - pose proof (fetch_enzyme_attempts_untouched fuel 3 ec_number w) as Hu.
    rewrite Hloop in Hu. destruct Hu as (Hfiles & _).
    fold (enzyme_cache_file cache_path ec_number) in H.
    exists (text response).
    unfold bind, write_file, lift, get_DEBUG, when, print, ret, raise in H.
    destruct (GetSequences.parse_genes ec_number (text response))
      as [e|genes']; [done|].
    simpl in H. rewrite <- Hfiles.
    destruct (DEBUG w1); injection H as <- <-; done.
  - unfold bind, print, ret in H. done.
Qed.

(** ** Giving up after three attempts *)

Lemma concat_perm {A} (l l' : list (list A)) : l ≡ₚ l' -> concat l ≡ₚ concat l'.
Proof.
  induction 1 as [|x l l' _ IH|x y l|l1 l2 l3 _ IH1 _ IH2]; simpl.
  - done.
  - by f_equiv.
  - rewrite !app_assoc. f_equiv. apply Permutation_app_comm.
  - by etransitivity.
Qed.

Lemma fetch_enzyme_gives_up (fuel : nat) (cache_path : option Path.t)
  (ec_number : string) (w w1 w2 w3 : World) (r1 r2 r3 : Response) :
  fetch_with_retry fuel ("/get/ec:" +:+ ec_number) w = Return r1 w1 ->
  GetSequences.expected_response ec_number r1 = false ->
  fetch_with_retry fuel ("/get/ec:" +:+ ec_number) w1 = Return r2 w2 ->
  GetSequences.expected_response ec_number r2 = false ->
  fetch_with_retry fuel ("/get/ec:" +:+ ec_number) w2 = Return r3 w3 ->
  GetSequences.expected_response ec_number r3 = false ->
  GetSequences.fetch_enzyme fuel cache_path ec_number w
  = Return None (add_line (MsgErrorFetching ec_number) w3).
Proof.
  intros H1 E1 H2 E2 H3 E3. unfold GetSequences.fetch_enzyme.
  assert (GetSequences.fetch_enzyme_attempts fuel 3 ec_number w = Return None w3)
    as Hloop.
  { simpl.
    rewrite (bind_return _ _ _ _ _ H1), E1.
    rewrite (bind_return _ _ _ _ _ H2), E2.
    rewrite (bind_return _ _ _ _ _ H3), E3. done. }
  by rewrite (bind_return _ _ _ _ _ Hloop).
Qed.

Lemma fetch_sequence_attempt_fails (fuel n : nat) (api_path : string)
  (w w1 : World) (r : Response) :
  fetch_with_retry fuel api_path w = Return r w1 ->
  located (text r) = false ->
  GetSequences.fetch_sequence_attempts fuel (S n) api_path w
  = GetSequences.fetch_sequence_attempts fuel n api_path w1.
Proof.
  intros H E. simpl. rewrite (bind_return _ _ _ _ _ H).
  unfold located in E. unfold groups_of in *.
  destruct (search REGEX_FASTA (text r)) as [m|]; [|done].
  destruct (groups2 m) as [seq_id seq]. by rewrite E.
Qed.

Lemma fetch_sequence_gives_up (fuel : nat) (cache_path : option Path.t)
  (sequence : GetSequences.Sequence) (w w1 w2 w3 : World)
  (r1 r2 r3 : Response) :
  let api_path :=
    "/get/" +:+ GetSequences.organism sequence +:+ ":"
    +:+ GetSequences.id sequence +:+ "/aaseq" in
  fetch_with_retry fuel api_path w = Return r1 w1 ->
  located (text r1) = false ->
  fetch_with_retry fuel api_path w1 = Return r2 w2 ->
  located (text r2) = false ->
  fetch_with_retry fuel api_path w2 = Return r3 w3 ->
  located (text r3) = false ->
  GetSequences.fetch_sequence fuel cache_path sequence w
  = Return None
      (add_line
         (MsgNoSequence (GetSequences.organism sequence)
            (GetSequences.id sequence)) w3).
Proof.
  intros api_path H1 E1 H2 E2 H3 E3. unfold GetSequences.fetch_sequence.
  fold api_path.
  assert (GetSequences.fetch_sequence_attempts fuel 3 api_path w = Return None w3)
    as Hloop.
  { rewrite (fetch_sequence_attempt_fails _ _ _ _ _ _ H1 E1).
    rewrite (fetch_sequence_attempt_fails _ _ _ _ _ _ H2 E2).
    by rewrite (fetch_sequence_attempt_fails _ _ _ _ _ _ H3 E3). }
  by rewrite (bind_return _ _ _ _ _ Hloop).
Qed.

(** An operation that yields [None] for one item leaves the results of
    the other items as they are: all of them are still run, and the list
    that [[x async for x in tasks if x is not None]] builds is, up to the
    completion order, the one built without that item. *)
Lemma amap_skips {A B} (sched : Scheduler) (f : A -> M (option B))
  (before after : list A) (x : A) (w0 w1 w2 w3 : World)
  (rs1 rs2 : list (option B)) :
  mapM f before w0 = Return rs1 w1 ->
  f x w1 = Return None w2 ->
  mapM f after w2 = Return rs2 w3 ->
  exists results : list (option B),
    amap sched f (before ++ x :: after) w0 = Return results w3
    /\ omap (fun r => r) results ≡ₚ omap (fun r => r) (rs1 ++ rs2).
Proof.
  intros H1 Hx H2. exists (completion sched _ (rs1 ++ None :: rs2)). split.
  - unfold amap. erewrite bind_return; [reflexivity|].
    rewrite mapM_app. rewrite (bind_return _ _ _ _ _ H1). simpl.
    unfold bind, ret. by rewrite Hx, H2.
  - rewrite (completion_perm sched). by rewrite !omap_app.
Qed.

Lemma merge_sequences_returns
  (dict : list (GetSequences.Sequence * string * string))
  (genes_plain : list GetSequences.Row) (w : World) :
  exists (rows : list GetSequences.Row) (w' : World),
    GetSequences.merge_sequences dict genes_plain w = Return rows w'
    /\ Forall2
         (fun gene row =>
            row = gene \/ exists seq_id seq : string, row = gene ++ [seq_id; seq])
         genes_plain rows.
Proof.
  revert w. induction genes_plain as [|gene rest IH]; intros w;
    cbn [GetSequences.merge_sequences].
  - exists [], w. split; [done|constructor].
  - destruct (GetSequences.sequence_dict_get dict _) as [[seq_id seq]|].
    + destruct (IH w) as (rows & w' & Hrun & Hrows).
      exists ((gene ++ [seq_id; seq]) :: rows), w'. split.
      * unfold bind, ret in *. by rewrite Hrun.
      * constructor; [right; by exists seq_id, seq|done].
    + destruct (IH (add_line (MsgNotFound (GetSequences.col 1 gene)
                                (GetSequences.col 2 gene)) w))
        as (rows & w' & Hrun & Hrows).
      exists (gene :: rows), w'. split.
      * unfold bind, ret, print in *. by rewrite Hrun.
      * constructor; [by left|done].
Qed.

(** C4.  When the content check fails on each of three successive
    answers, [fetch_enzyme] and [fetch_sequence] have called
    [fetch_with_retry] exactly three times, report the item and return
    [None], leaving the cache as it was.  In [main] such an item adds no
    row and the run goes on: the genes gathered are those of the cache and
    of the other EC numbers, the sequences gathered are those of the
    other sequences and of the cache, and once both are gathered [main]
    hands one row for every gene to the writer. *)
Theorem content_check_gives_up_after_three :
  (forall (fuel : nat) (cache_path : option Path.t) (ec_number : string)
          (w w1 w2 w3 : World) (r1 r2 r3 : Response),
     fetch_with_retry fuel ("/get/ec:" +:+ ec_number) w = Return r1 w1 ->
     GetSequences.expected_response ec_number r1 = false ->
     fetch_with_retry fuel ("/get/ec:" +:+ ec_number) w1 = Return r2 w2 ->
     GetSequences.expected_response ec_number r2 = false ->
     fetch_with_retry fuel ("/get/ec:" +:+ ec_number) w2 = Return r3 w3 ->
     GetSequences.expected_response ec_number r3 = false ->
     GetSequences.fetch_enzyme fuel cache_path ec_number w
     = Return None (add_line (MsgErrorFetching ec_number) w3)
     /\ files w3 = files w)
  /\
  (forall (fuel : nat) (cache_path : option Path.t)
          (sequence : GetSequences.Sequence) (w w1 w2 w3 : World)
          (r1 r2 r3 : Response),
     let api_path :=
       "/get/" +:+ GetSequences.organism sequence +:+ ":"
       +:+ GetSequences.id sequence +:+ "/aaseq" in
     fetch_with_retry fuel api_path w = Return r1 w1 ->
     located (text r1) = false ->
     fetch_with_retry fuel api_path w1 = Return r2 w2 ->
     located (text r2) = false ->
     fetch_with_retry fuel api_path w2 = Return r3 w3 ->
     located (text r3) = false ->
     GetSequences.fetch_sequence fuel cache_path sequence w
     = Return None
         (add_line
            (MsgNoSequence (GetSequences.organism sequence)
               (GetSequences.id sequence)) w3)
     /\ files w3 = files w)
  /\
  (forall (fuel : nat) (sched : Scheduler) (cache_path : Path.t)
          (ec_numbers before after : list string) (ec_number : string)
          (cached : list (list GetSequences.Row)) (w w0 w1 w2 w3 : World)
          (rs1 rs2 : list (option (list GetSequences.Row))),
     GetSequences.fetch_cache ec_numbers (cache_path /: "enzyme")
       GetSequences._get_enzyme_from_cache (Some "enzymes") w
     = Return (before ++ ec_number :: after, cached) w0 ->
     mapM (GetSequences.fetch_enzyme fuel (Some (cache_path /: "enzyme")))
       before w0
     = Return rs1 w1 ->
     GetSequences.fetch_enzyme fuel (Some (cache_path /: "enzyme")) ec_number w1
     = Return None w2 ->
     mapM (GetSequences.fetch_enzyme fuel (Some (cache_path /: "enzyme")))
       after w2
     = Return rs2 w3 ->
     exists (genes_plain : list GetSequences.Row) (w' : World),
       GetSequences.gather_genes fuel sched (Some cache_path) ec_numbers w
       = Return genes_plain w'
       /\ genes_plain ≡ₚ concat (cached ++ omap (fun r => r) (rs1 ++ rs2)))
  /\
  (forall (fuel : nat) (sched : Scheduler) (cache_path : Path.t)
          (genes_plain : list GetSequences.Row)
          (before after : list GetSequences.Sequence)
          (sequence : GetSequences.Sequence)
          (cached : list (GetSequences.Sequence * string * string))
          (w w0 w1 w2 w3 : World)
          (rs1 rs2 : list (option (GetSequences.Sequence * string * string))),
     GetSequences.fetch_cache
       (map (fun s => GetSequences.MkSequence s.1 s.2)
          (sorted_pair_set
             (map (fun g => (GetSequences.col 1 g, GetSequences.col 2 g))
                genes_plain)))
       (cache_path /: "aaseq") GetSequences._get_sequence_from_cache
       (Some "sequences") w
     = Return (before ++ sequence :: after, cached) w0 ->
     mapM (GetSequences.fetch_sequence fuel (Some (cache_path /: "aaseq")))
       before w0
     = Return rs1 w1 ->
     GetSequences.fetch_sequence fuel (Some (cache_path /: "aaseq")) sequence w1
     = Return None w2 ->
     mapM (GetSequences.fetch_sequence fuel (Some (cache_path /: "aaseq")))
       after w2
     = Return rs2 w3 ->
     exists (all_sequences : list (GetSequences.Sequence * string * string))
            (w' : World),
       GetSequences.gather_sequences fuel sched (Some cache_path) genes_plain w
       = Return all_sequences w'
       /\ all_sequences ≡ₚ omap (fun r => r) (rs1 ++ rs2) ++ cached)
  /\
  (forall (fuel : nat) (sched : Scheduler) (args : GetSequences.Args)
          (cache_path : Path.t) (w w0 w1 w2 : World)
          (genes_plain : list GetSequences.Row)
          (all_sequences : list (GetSequences.Sequence * string * string)),
     GetSequences.output_exists args && negb (GetSequences.force args) = false ->
     GetSequences.cache_path_of args = Some cache_path ->
     when (GetSequences.debug args) (set_DEBUG ;; set_environ_DEBUG) w
     = Return tt w0 ->
     GetSequences.gather_genes fuel sched (Some cache_path)
       (Str.splitlines (GetSequences.input args)) w0
     = Return genes_plain w1 ->
     GetSequences.gather_sequences fuel sched (Some cache_path) genes_plain w1
     = Return all_sequences w2 ->
     exists (rows : list GetSequences.Row) (w' : World),
       GetSequences.main fuel sched args w = Return (Some rows) w'
       /\ Forall2
            (fun gene row =>
               row = gene
               \/ exists seq_id seq : string, row = gene ++ [seq_id; seq])
            genes_plain rows).
Proof.
  split; [|split; [|split; [|split]]].
  - intros fuel cache_path ec_number w w1 w2 w3 r1 r2 r3 H1 E1 H2 E2 H3 E3.
    split; [by eapply fetch_enzyme_gives_up|].
    pose proof (fetch_with_retry_untouched fuel ("/get/ec:" +:+ ec_number) w) as U1.
    pose proof (fetch_with_retry_untouched fuel ("/get/ec:" +:+ ec_number) w1) as U2.
    pose proof (fetch_with_retry_untouched fuel ("/get/ec:" +:+ ec_number) w2) as U3.
    rewrite H1 in U1. rewrite H2 in U2. rewrite H3 in U3.
    destruct U1 as [F1 _], U2 as [F2 _], U3 as [F3 _]. congruence.
  - intros fuel cache_path sequence w w1 w2 w3 r1 r2 r3 api_path
      H1 E1 H2 E2 H3 E3.
    split; [by eapply fetch_sequence_gives_up|].
    pose proof (fetch_with_retry_untouched fuel api_path w) as U1.
    pose proof (fetch_with_retry_untouched fuel api_path w1) as U2.
    pose proof (fetch_with_retry_untouched fuel api_path w2) as U3.
    rewrite H1 in U1. rewrite H2 in U2. rewrite H3 in U3.
    destruct U1 as [F1 _], U2 as [F2 _], U3 as [F3 _]. congruence.
  - intros fuel sched cache_path ec_numbers before after ec_number cached
      w w0 w1 w2 w3 rs1 rs2 Hcache H1 Hx H2.
    destruct (amap_skips sched _ _ _ _ _ _ _ _ _ _ H1 Hx H2)
      as (results & Hrun & Hperm).
    exists (concat (cached ++ omap (fun r => r) results)), w3. split.
    + unfold GetSequences.gather_genes.
      rewrite (bind_return _ _ _ _ _ Hcache).
      unfold bind at 1, GetSequences.div_optional, ret at 1.
      by rewrite (bind_return _ _ _ _ _ Hrun).
    + apply concat_perm. by f_equiv.
  - intros fuel sched cache_path genes_plain before after sequence cached
      w w0 w1 w2 w3 rs1 rs2 Hcache H1 Hx H2.
    destruct (amap_skips sched _ _ _ _ _ _ _ _ _ _ H1 Hx H2)
      as (results & Hrun & Hperm).
    exists (omap (fun r => r) results ++ cached), w3. split.
    + unfold GetSequences.gather_sequences.
      rewrite (bind_return _ _ _ _ _ Hcache).
      unfold bind at 1, GetSequences.div_optional, ret at 1.
      by rewrite (bind_return _ _ _ _ _ Hrun).
    + by f_equiv.
  - intros fuel sched args cache_path w w0 w1 w2 genes_plain all_sequences
      Hrun Hcache Hflags Hgenes Hsequences.
    destruct (merge_sequences_returns all_sequences genes_plain w2)
      as (rows & w' & Hmerge & Hrows).
    exists rows, w'. split; [|exact Hrows].
    unfold GetSequences.main. rewrite Hrun, Hcache.
    rewrite (bind_return _ _ _ _ _ Hflags), (bind_return _ _ _ _ _ Hgenes).
    rewrite (bind_return _ _ _ _ _ Hsequences).
    by rewrite (bind_return _ _ _ _ _ Hmerge).
Qed.

Lemma content_check_gives_up_after_three_witness :
  (GetSequences.fetch_enzyme 0 None "9.9.9.9" world_one_enzyme
   = Return None (add_line (MsgErrorFetching "9.9.9.9") enzyme_given_up)
   /\ files enzyme_given_up = files world_one_enzyme)
  /\
  (GetSequences.fetch_sequence 0 None (GetSequences.MkSequence "eco" "b1241")
     world_one_sequence
   = Return None (add_line (MsgNoSequence "eco" "b1241") sequence_given_up)
   /\ files sequence_given_up = files world_one_sequence)
  /\
  (exists (genes_plain : list GetSequences.Row) (w' : World),
     GetSequences.gather_genes 0 in_order (Some (Path.of_string "/cache"))
       ["9.9.9.9"; "1.1.1.1"] world_one_enzyme
     = Return genes_plain w'
     /\ genes_plain
        ≡ₚ concat ([] ++ omap (fun r => r) ([] ++ [Some enzyme_example_genes])))
  /\
  (exists (all_sequences : list (GetSequences.Sequence * string * string))
          (w' : World),
     GetSequences.gather_sequences 0 in_order (Some (Path.of_string "/cache"))
       enzyme_example_genes world_one_sequence
     = Return all_sequences w'
     /\ all_sequences
        ≡ₚ omap (fun r => r)
             ([] ++ [Some (GetSequences.MkSequence "hsa" "124",
                           "hsa:124 K13951 alcohol dehydrogenase",
                           "MSTAGKVIKCKAAVLWE")]) ++ [])
  /\
  (exists (rows : list GetSequences.Row) (w' : World),
     GetSequences.main 0 in_order skipping_args world_one_enzyme
     = Return (Some rows) w'
     /\ Forall2
          (fun gene row =>
             row = gene \/ exists seq_id seq : string, row = gene ++ [seq_id; seq])
          enzyme_example_genes rows).
Proof.
  destruct content_check_gives_up_after_three as (He & Hs & Hge & Hgs & Hmain).
  split; [|split; [|split; [|split]]].
  - apply (He 0 None "9.9.9.9" world_one_enzyme
             (answered "/get/ec:9.9.9.9" world_one_enzyme)
             (answered "/get/ec:9.9.9.9"
                (answered "/get/ec:9.9.9.9" world_one_enzyme))
             enzyme_given_up
             (MkResponse 404 "") (MkResponse 404 "") (MkResponse 404 ""));
      vm_compute; reflexivity.
  - apply (Hs 0 None (GetSequences.MkSequence "eco" "b1241") world_one_sequence
             (answered "/get/eco:b1241/aaseq" world_one_sequence)
             (answered "/get/eco:b1241/aaseq"
                (answered "/get/eco:b1241/aaseq" world_one_sequence))
             sequence_given_up
             (MkResponse 404 "") (MkResponse 404 "") (MkResponse 404 ""));
      vm_compute; reflexivity.
  - apply (Hge 0 in_order (Path.of_string "/cache") ["9.9.9.9"; "1.1.1.1"]
             [] ["1.1.1.1"] "9.9.9.9" [] world_one_enzyme world_one_enzyme
             world_one_enzyme
             (add_line (MsgErrorFetching "9.9.9.9") enzyme_given_up)
             (add_file "/cache/enzyme/1/1/1/1.1.1.1.txt" enzyme_example
                (answered "/get/ec:1.1.1.1"
                   (add_line (MsgErrorFetching "9.9.9.9") enzyme_given_up))));
      vm_compute; reflexivity.
  - apply (Hgs 0 in_order (Path.of_string "/cache") enzyme_example_genes
             [] [GetSequences.MkSequence "hsa" "124"]
             (GetSequences.MkSequence "eco" "b1241") []
             world_one_sequence world_one_sequence world_one_sequence
             (add_line (MsgNoSequence "eco" "b1241") sequence_given_up)
             (add_file "/cache/aaseq/hsa/124.txt" fasta_example
                (answered "/get/hsa:124/aaseq"
                   (add_line (MsgNoSequence "eco" "b1241") sequence_given_up))));
      vm_compute; reflexivity.
  - assert (exists (all_sequences :
                      list (GetSequences.Sequence * string * string))
                   (w1 w2 : World),
              GetSequences.gather_genes 0 in_order
                (Some (Path.of_string "/cache"))
                (Str.splitlines (GetSequences.input skipping_args))
                world_one_enzyme
              = Return enzyme_example_genes w1
              /\ GetSequences.gather_sequences 0 in_order
                   (Some (Path.of_string "/cache")) enzyme_example_genes w1
                 = Return all_sequences w2)
      as (all_sequences & w1 & w2 & Hgenes & Hsequences)
      by (vm_compute; eexists _, _, _; split; reflexivity).
    apply (Hmain 0 in_order skipping_args (Path.of_string "/cache")
             world_one_enzyme world_one_enzyme w1 w2 enzyme_example_genes
             all_sequences);
      [reflexivity | reflexivity | reflexivity | exact Hgenes | exact Hsequences].
Defined.

(** ** A gene line that is not of the shape CODE: list *)

Lemma groups_of_error (m : option Match) (e : Exn) :
  groups_of m = inl e -> e = AttributeError.
Proof. destruct m; simpl; congruence. Qed.

Lemma parse_gene_lines_error (ec_number : string) (lines : list string)
  (genes : list GetSequences.Row) (e : Exn) :
  GetSequences.parse_gene_lines ec_number lines genes = inl e ->
  e = AttributeError.
Proof.
  revert genes. induction lines as [|line lines IH]; intros genes; simpl; [done|].
  destruct (groups_of (search regex_gene_row line)) as [e'|[organism gene_list]]
    eqn:E.
  - intros [= <-]. by eapply groups_of_error.
  - apply IH.
Qed.

Lemma parse_genes_error (ec_number content : string) (e : Exn) :
  GetSequences.parse_genes ec_number content = inl e -> e = AttributeError.
Proof.
  unfold GetSequences.parse_genes.
  destruct (search REGEX_GENES_SECTION content); [|done].
  apply parse_gene_lines_error.
Qed.













(** ** A cached sequence file that is no FASTA text *)

Lemma get_sequence_from_cache_run (cache_path : Path.t)
  (sequence : GetSequences.Sequence) (w : World) :
  GetSequences._get_sequence_from_cache cache_path sequence w
  = match files w !! sequence_cache_file cache_path sequence with
    | None => Return None w
    | Some content =>
        match groups_of (search REGEX_FASTA content) with
        | inr (seq_id, seq) => Return (Some (sequence, seq_id, seq)) w
        | inl e => Raise e w
        end
    end.
Proof.
  unfold GetSequences._get_sequence_from_cache, bind, read_file.
  fold (sequence_cache_file cache_path sequence).
  destruct (files w !! sequence_cache_file cache_path sequence) as [content|];
    [|done].
  by destruct (groups_of (search REGEX_FASTA content)) as [e|[seq_id seq]].
Qed.

Lemma sequence_cache_pass_raises (cache_path : Path.t)
  (sequences : list GetSequences.Sequence) (sequence : GetSequences.Sequence)
  (content : string) (w : World) :
  sequence ∈ sequences ->
  files w !! sequence_cache_file cache_path sequence = Some content ->
  search REGEX_FASTA content = None ->
  run_all (GetSequences._get_sequence_from_cache cache_path) sequences w
  = Raise AttributeError w.
Proof.
  intros Hin Hfile Hsearch. apply mapM_raise.
  - intros x _. rewrite get_sequence_from_cache_run.
    destruct (files w !! sequence_cache_file cache_path x) as [c|]; [|eauto].
    destruct (groups_of (search REGEX_FASTA c)) as [e|[seq_id seq]] eqn:E;
      [|eauto].
    right. by rewrite (groups_of_error _ _ E).
  - exists sequence. split; [done|].
    by rewrite get_sequence_from_cache_run, Hfile, Hsearch.
Qed.

Lemma elem_of_sorted_pair_set (x : string * string) (l : list (string * string)) :
  x ∈ sorted_pair_set l <-> x ∈ l.
Proof.
  unfold sorted_pair_set. rewrite sorted_by_perm.
  rewrite elem_of_elements. apply elem_of_list_to_set.
Qed.

Lemma main_aborts_on_cached_sequence (fuel : nat) (sched : Scheduler)
  (args : GetSequences.Args) (cache_path : Path.t) (w w0 w1 : World)
  (genes_plain : list GetSequences.Row) (gene : GetSequences.Row)
  (content : string) :
  GetSequences.output_exists args && negb (GetSequences.force args) = false ->
  GetSequences.cache_path_of args = Some cache_path ->
  when (GetSequences.debug args) (set_DEBUG ;; set_environ_DEBUG) w
  = Return tt w0 ->
  GetSequences.gather_genes fuel sched (Some cache_path)
    (Str.splitlines (GetSequences.input args)) w0
  = Return genes_plain w1 ->
  gene ∈ genes_plain ->
  files w1
  !! sequence_cache_file (cache_path /: "aaseq")
       (GetSequences.MkSequence (GetSequences.col 1 gene) (GetSequences.col 2 gene))
  = Some content ->
  search REGEX_FASTA content = None ->
  GetSequences.main fuel sched args w = Raise AttributeError w1.
Proof.
  intros Hrun Hcache Hflags Hgenes Hin Hfile Hsearch. unfold GetSequences.main.
  rewrite Hrun, Hcache.
  rewrite (bind_return _ _ _ _ _ Hflags), (bind_return _ _ _ _ _ Hgenes).
  apply bind_raise. unfold GetSequences.gather_sequences. apply bind_raise.
  unfold GetSequences.fetch_cache. apply bind_raise.
  eapply sequence_cache_pass_raises; [|exact Hfile|exact Hsearch].
  apply (list_elem_of_fmap_2
           (fun s : string * string => GetSequences.MkSequence s.1 s.2)
           _ (GetSequences.col 1 gene, GetSequences.col 2 gene)).
  apply elem_of_sorted_pair_set.
  by apply (list_elem_of_fmap_2
              (fun g => (GetSequences.col 1 g, GetSequences.col 2 g))).
Qed.

(** C10.  For a text on which the FASTA pattern finds nothing: the cache
    lookup of a sequence whose file holds that text raises
    [AttributeError], neither a miss nor an empty record; the live fetch
    that gets the same text three times catches the error each time and
    returns [None]; and a run that reaches the cache pass of the
    sequences with such a file for one of its genes ends with the
    exception. *)
Theorem malformed_cached_sequence_aborts :
  forall content : string,
    search REGEX_FASTA content = None ->
    (forall (cache_path : Path.t) (sequence : GetSequences.Sequence) (w : World),
       files w !! sequence_cache_file cache_path sequence = Some content ->
       GetSequences._get_sequence_from_cache cache_path sequence w
       = Raise AttributeError w)
    /\ (forall (fuel : nat) (cache_path : option Path.t)
               (sequence : GetSequences.Sequence) (w w1 w2 w3 : World)
               (r1 r2 r3 : Response),
          let api_path :=
            "/get/" +:+ GetSequences.organism sequence +:+ ":"
            +:+ GetSequences.id sequence +:+ "/aaseq" in
          fetch_with_retry fuel api_path w = Return r1 w1 -> text r1 = content ->
          fetch_with_retry fuel api_path w1 = Return r2 w2 -> text r2 = content ->
          fetch_with_retry fuel api_path w2 = Return r3 w3 -> text r3 = content ->
          GetSequences.fetch_sequence fuel cache_path sequence w
          = Return None
              (add_line
                 (MsgNoSequence (GetSequences.organism sequence)
                    (GetSequences.id sequence)) w3))
    /\ (forall (fuel : nat) (sched : Scheduler) (args : GetSequences.Args)
               (cache_path : Path.t) (w w0 w1 : World)
               (genes_plain : list GetSequences.Row) (gene : GetSequences.Row),
          GetSequences.output_exists args && negb (GetSequences.force args)
          = false ->
          GetSequences.cache_path_of args = Some cache_path ->
          when (GetSequences.debug args) (set_DEBUG ;; set_environ_DEBUG) w
          = Return tt w0 ->
          GetSequences.gather_genes fuel sched (Some cache_path)
            (Str.splitlines (GetSequences.input args)) w0
          = Return genes_plain w1 ->
          gene ∈ genes_plain ->
          files w1
          !! sequence_cache_file (cache_path /: "aaseq")
               (GetSequences.MkSequence (GetSequences.col 1 gene)
                  (GetSequences.col 2 gene))
          = Some content ->
          GetSequences.main fuel sched args w = Raise AttributeError w1).
Proof.
  intros content Hsearch. split; [|split].
  - intros cache_path sequence w Hfile.
    by rewrite get_sequence_from_cache_run, Hfile, Hsearch.
  - intros fuel cache_path sequence w w1 w2 w3 r1 r2 r3 api_path
      H1 E1 H2 E2 H3 E3.
    assert (located content = false) as Hno.
    { unfold located. by rewrite Hsearch. }
    eapply fetch_sequence_gives_up; eauto; congruence.
  - intros fuel sched args cache_path w w0 w1 genes_plain gene
      Hrun Hcache Hflags Hgenes Hin Hfile.
    by eapply main_aborts_on_cached_sequence.
Qed.

Lemma malformed_cached_sequence_aborts_witness :
  search REGEX_FASTA not_fasta = None
  /\ GetSequences._get_sequence_from_cache (Path.of_string "/cache/aaseq")
       (GetSequences.MkSequence "hsa" "124") world_bad_sequence
     = Raise AttributeError world_bad_sequence
  /\ GetSequences.fetch_sequence 0 None (GetSequences.MkSequence "hsa" "124")
       world_bad_sequence
     = Return None
         (add_line (MsgNoSequence "hsa" "124")
            (answered "/get/hsa:124/aaseq"
               (answered "/get/hsa:124/aaseq"
                  (answered "/get/hsa:124/aaseq" world_bad_sequence))))
  /\ GetSequences.main 0 in_order one_enzyme_args world_bad_sequence
     = Raise AttributeError world_bad_sequence.
Proof.
  assert (search REGEX_FASTA not_fasta = None) as Hsearch
    by (vm_compute; reflexivity).
  destruct (malformed_cached_sequence_aborts not_fasta Hsearch)
    as (Hlookup & Hlive & Hmain).
  split; [exact Hsearch|]. split; [|split].
  - apply Hlookup. vm_compute. reflexivity.
  - apply (Hlive 0 None (GetSequences.MkSequence "hsa" "124") world_bad_sequence
             (answered "/get/hsa:124/aaseq" world_bad_sequence)
             (answered "/get/hsa:124/aaseq"
                (answered "/get/hsa:124/aaseq" world_bad_sequence))
             (answered "/get/hsa:124/aaseq"
                (answered "/get/hsa:124/aaseq"
                   (answered "/get/hsa:124/aaseq" world_bad_sequence)))
             (MkResponse 200 not_fasta) (MkResponse 200 not_fasta)
             (MkResponse 200 not_fasta));
      vm_compute; reflexivity.
  - apply (Hmain 0 in_order one_enzyme_args (Path.of_string "/cache")
             world_bad_sequence world_bad_sequence world_bad_sequence
             [["1.1.1.1"; "hsa"; "124"]; ["1.1.1.1"; "eco"; "b1241"]]
             ["1.1.1.1"; "hsa"; "124"]);
      [reflexivity | reflexivity | reflexivity | vm_compute; reflexivity
      | apply (list_elem_of_lookup_2 _ 0); reflexivity
      | vm_compute; reflexivity].
Defined.

(** ** Cache and live paths of the sequence job *)

(** On one and the same text in which a header and a body are found, the
    two paths return the same header; the sequence of the live path is
    that of the cache path with everything but capital letters deleted. *)
Lemma cache_and_live_sequence_relation (fuel : nat) (cache_path : Path.t)
  (sequence : GetSequences.Sequence) (w : World) (content : string)
  (status : Z) :
  let api_path :=
    "/get/" +:+ GetSequences.organism sequence +:+ ":"
    +:+ GetSequences.id sequence +:+ "/aaseq" in
  files w !! sequence_cache_file cache_path sequence = Some content ->
  api w (length (requests w)) api_path = MkResponse status content ->
  status <> 403%Z ->
  located content = true ->
  exists (seq_id seq : string) (w' : World),
    GetSequences._get_sequence_from_cache cache_path sequence w
    = Return (Some (sequence, seq_id, seq)) w
    /\ GetSequences.fetch_sequence fuel (Some cache_path) sequence w
       = Return (Some (sequence, seq_id, delete regex_not_upper seq)) w'.
Proof.
  intros api_path Hfile Hlive Hstatus Hloc. unfold located in Hloc.
  destruct (groups_of (search REGEX_FASTA content)) as [e|[seq_id seq]] eqn:E;
    [done|].
  exists seq_id, seq.
  assert (GetSequences.fetch_sequence_attempts fuel 3 api_path w
          = Return (Some (MkResponse status content, seq_id, seq))
              (answered api_path w)) as Hloop.
  { cbn [GetSequences.fetch_sequence_attempts].
    erewrite bind_return; [|apply fetch_with_retry_first; by rewrite Hlive].
    rewrite Hlive. cbn [text]. by rewrite E, Hloc. }
  unfold GetSequences.fetch_sequence. fold api_path.
  rewrite (bind_return _ _ _ _ _ Hloop).
  unfold bind, write_file, get_DEBUG, when, print, ret. simpl.
  destruct (DEBUG w); eexists;
    (split; [by rewrite get_sequence_from_cache_run, Hfile, E|reflexivity]).
Qed.

Lemma fasta_example_groups :
  groups_of (search REGEX_FASTA fasta_example)
  = inr ("hsa:124 K13951 alcohol dehydrogenase",
         "MSTAGKVIKC" +:+ nl +:+ "KAAVLWE" +:+ nl).
Proof. reflexivity. Qed.

(** C1, the divergence.  For the work item (hsa, 124), when the cache file
    and the first live response both hold the text [fasta_example], the
    cache lookup returns the second group of the pattern as it is, with its
    newlines, while the live fetch deletes everything that is not a
    capital letter: the two records differ in the sequence string. *)
Theorem cache_and_live_sequence_differ :
  forall (fuel : nat) (cache_path : Path.t) (w : World),
    files w !! Path.to_string (cache_path /: "hsa" /: "124.txt")
    = Some fasta_example ->
    api w (length (requests w)) "/get/hsa:124/aaseq"
    = MkResponse 200 fasta_example ->
    let sequence := GetSequences.MkSequence "hsa" "124" in
    GetSequences._get_sequence_from_cache cache_path sequence w
    = Return
        (Some (sequence, "hsa:124 K13951 alcohol dehydrogenase",
               "MSTAGKVIKC" +:+ nl +:+ "KAAVLWE" +:+ nl)) w
    /\ exists w' : World,
         GetSequences.fetch_sequence fuel (Some cache_path) sequence w
         = Return
             (Some (sequence, "hsa:124 K13951 alcohol dehydrogenase",
                    "MSTAGKVIKCKAAVLWE")) w'.
Proof.
  intros fuel cache_path w Hfile Hlive sequence. split.
  - unfold GetSequences._get_sequence_from_cache, bind, read_file.
    change (GetSequences.organism sequence) with "hsa".
    change (GetSequences.id sequence +:+ ".txt") with "124.txt".
    rewrite Hfile, fasta_example_groups. reflexivity.
  - unfold GetSequences.fetch_sequence.
    change ("/get/" +:+ GetSequences.organism sequence +:+ ":"
            +:+ GetSequences.id sequence +:+ "/aaseq")
      with "/get/hsa:124/aaseq".
    assert (GetSequences.fetch_sequence_attempts fuel 3 "/get/hsa:124/aaseq" w
            = Return
                (Some (MkResponse 200 fasta_example,
                       "hsa:124 K13951 alcohol dehydrogenase",
                       "MSTAGKVIKC" +:+ nl +:+ "KAAVLWE" +:+ nl))
                (add_draw (add_request "/get/hsa:124/aaseq" w))) as Hloop.
    { simpl GetSequences.fetch_sequence_attempts.
      erewrite bind_return; [|apply fetch_with_retry_first; by rewrite Hlive].
      rewrite Hlive. cbn [text].
      rewrite fasta_example_groups. reflexivity. }
    rewrite (bind_return _ _ _ _ _ Hloop).
    unfold bind, write_file, get_DEBUG, when, print, ret. simpl.
    destruct (DEBUG w); eexists; reflexivity.
Qed.

Lemma cache_and_live_sequence_differ_witness :
  let sequence := GetSequences.MkSequence "hsa" "124" in
  GetSequences._get_sequence_from_cache (Path.of_string "/cache/aaseq")
    sequence world_with_sequence
  = Return
      (Some (sequence, "hsa:124 K13951 alcohol dehydrogenase",
             "MSTAGKVIKC" +:+ nl +:+ "KAAVLWE" +:+ nl)) world_with_sequence
  /\ exists w' : World,
       GetSequences.fetch_sequence 0 (Some (Path.of_string "/cache/aaseq"))
         sequence world_with_sequence
       = Return
           (Some (sequence, "hsa:124 K13951 alcohol dehydrogenase",
                  "MSTAGKVIKCKAAVLWE")) w'.
Proof.
  apply (cache_and_live_sequence_differ 0 (Path.of_string "/cache/aaseq")
           world_with_sequence); reflexivity.
Defined.

(** ** The order of the rows handed to the writer *)

Lemma enzymes_main_sorted (fuel : nat) (sched : Scheduler)
  (args : GetEnzymes.Args) (w w' : World) (rows : list GetEnzymes.Row) :
  GetEnzymes.main fuel sched args w = Return (Some rows) w' ->
  StronglySorted (key_le (fun x => x) row_leb) rows.
Proof.
  unfold GetEnzymes.main. intros H.
  destruct (GetEnzymes.output_exists args && negb (GetEnzymes.force args));
    [unfold bind, print, ret in H; discriminate H|].
  apply bind_inv in H as (? & ? & _ & H).
  apply bind_inv in H as ([pathways cached_enzymes] & ? & _ & H).
  apply bind_inv in H as (enzymes & ? & _ & H).
  unfold ret in H. injection H as <- _.
  apply sorted_by_strongly; [apply row_leb_total|apply row_leb_trans].
Qed.

Lemma pathways_main_sorted (fuel : nat) (sched : Scheduler)
  (args : GetPathways.Args) (w w' : World) (rows : list GetPathways.Row) :
  GetPathways.main fuel sched args w = Return (Some rows) w' ->
  StronglySorted
    (key_le (fun x => (GetPathways.col 0 x, GetPathways.col 1 x)) pair_leb) rows.
Proof.
  unfold GetPathways.main. intros H.
  destruct (GetPathways.output_exists args && negb (GetPathways.force args));
    [unfold bind, print, ret in H; discriminate H|].
  apply bind_inv in H as (? & ? & _ & H).
  apply bind_inv in H as (pathways & ? & _ & H).
  unfold ret in H. injection H as <- _.
  apply sorted_by_strongly; [apply pair_leb_total|apply pair_leb_trans].
Qed.

Lemma organisms_main_sorted (args : GetOrganisms.Args) (w w' : World)
  (rows : list GetOrganisms.Row) :
  GetOrganisms.main args w = Return (Some rows) w' ->
  StronglySorted (key_le (GetOrganisms.col 0) str_leb) rows.
Proof.
  unfold GetOrganisms.main. intros H.
  destruct (GetOrganisms.output_exists args && negb (GetOrganisms.force args));
    [unfold bind, print, ret in H; discriminate H|].
  apply bind_inv in H as (response & ? & _ & H).
  unfold ret in H. injection H as <- _.
  apply sorted_by_strongly; [apply str_leb_total|apply str_leb_trans].
Qed.

(** C7, as stated, fails for the sequence job: its rows are written in
    the order in which the genes were gathered.  With the entry of
    1.1.1.1 in the cache the row of hsa comes before the row of eco, which
    is sorted neither as a record nor by (organism, id). *)
Lemma sequences_rows_counterexample :
  exists (rows : list GetSequences.Row) (w' : World),
    GetSequences.main 0 in_order one_enzyme_args world_all_well
    = Return (Some rows) w'
    /\ rows
       = [["1.1.1.1"; "hsa"; "124"; "hsa:124 K13951 alcohol dehydrogenase";
           "MSTAGKVIKCKAAVLWE"];
          ["1.1.1.1"; "eco"; "b1241"; "hsa:124 K13951 alcohol dehydrogenase";
           "MSTAGKVIKCKAAVLWE"]]
    /\ ~ Sorted (key_le (fun x => x) row_leb) rows
    /\ ~ Sorted
           (key_le (fun x => (GetSequences.col 1 x, GetSequences.col 2 x))
              pair_leb) rows.
Proof.
  eexists _, _. split; [vm_compute; reflexivity|]. split; [reflexivity|].
  split; intros H; inversion H as [|? ? _ Hhd]; subst;
    inversion Hhd as [|? ? Hle]; subst; vm_compute in Hle; discriminate Hle.
Qed.

(** C7, amended.  The rows that the enzyme job, the pathway job and the
    organism job hand to the writer are sorted: those of the enzyme job as
    records, those of the pathway job by their first two columns, and
    those of the organism job by their first column.  (The sequence job
    does not sort its rows; it sorts only the list of sequences to
    fetch.) *)
Theorem aggregates_sorted :
  (forall (fuel : nat) (sched : Scheduler) (args : GetEnzymes.Args)
          (w w' : World) (rows : list GetEnzymes.Row),
     GetEnzymes.main fuel sched args w = Return (Some rows) w' ->
     StronglySorted (key_le (fun x => x) row_leb) rows)
  /\
  (forall (fuel : nat) (sched : Scheduler) (args : GetPathways.Args)
          (w w' : World) (rows : list GetPathways.Row),
     GetPathways.main fuel sched args w = Return (Some rows) w' ->
     StronglySorted
       (key_le (fun x => (GetPathways.col 0 x, GetPathways.col 1 x)) pair_leb)
       rows)
  /\
  (forall (args : GetOrganisms.Args) (w w' : World)
          (rows : list GetOrganisms.Row),
     GetOrganisms.main args w = Return (Some rows) w' ->
     StronglySorted (key_le (GetOrganisms.col 0) str_leb) rows)
  /\
  (forall genes_plain : list GetSequences.Row,
     StronglySorted (key_le (fun x => x) pair_leb)
       (sorted_pair_set
          (map (fun g => (GetSequences.col 1 g, GetSequences.col 2 g))
             genes_plain))).
Proof.
  split; [|split; [|split]].
  - apply enzymes_main_sorted.
  - apply pathways_main_sorted.
  - apply organisms_main_sorted.
  - intros genes_plain.
    apply sorted_by_strongly; [apply pair_leb_total|apply pair_leb_trans].
Qed.

Lemma aggregates_sorted_witness :
  (exists w' : World,
     GetEnzymes.main 0 in_order enzymes_args world_pathway
     = Return (Some [["hsa"; "hsa00010"; "2.7.1.1"];
                     ["hsa"; "hsa00010"; "5.3.1.9"]]) w'
     /\ StronglySorted (key_le (fun x => x) row_leb)
          [["hsa"; "hsa00010"; "2.7.1.1"]; ["hsa"; "hsa00010"; "5.3.1.9"]])
  /\
  (exists w' : World,
     GetPathways.main 0 in_order pathways_args world_pathway_list
     = Return (Some [["hsa"; "hsa00010"; "Glycolysis / Gluconeogenesis"];
                     ["hsa"; "hsa00020"; "Citrate cycle (TCA cycle)"]]) w'
     /\ StronglySorted
          (key_le (fun x => (GetPathways.col 0 x, GetPathways.col 1 x)) pair_leb)
          [["hsa"; "hsa00010"; "Glycolysis / Gluconeogenesis"];
           ["hsa"; "hsa00020"; "Citrate cycle (TCA cycle)"]])
  /\
  (exists w' : World,
     GetOrganisms.main organisms_args world_organism_list
     = Return (Some [["T00005"; "eco"; "Escherichia coli K-12"];
                     ["T01001"; "hsa"; "Homo sapiens (human)"]]) w'
     /\ StronglySorted (key_le (GetOrganisms.col 0) str_leb)
          [["T00005"; "eco"; "Escherichia coli K-12"];
           ["T01001"; "hsa"; "Homo sapiens (human)"]]).
Proof.
  destruct aggregates_sorted as (He & Hp & Ho & _).
  split; [|split].
  - assert (exists w' : World,
              GetEnzymes.main 0 in_order enzymes_args world_pathway
              = Return (Some [["hsa"; "hsa00010"; "2.7.1.1"];
                              ["hsa"; "hsa00010"; "5.3.1.9"]]) w')
      as (w' & H) by (vm_compute; eexists; reflexivity).
    exists w'. split; [exact H|exact (He _ _ _ _ _ _ H)].
  - assert (exists w' : World,
              GetPathways.main 0 in_order pathways_args world_pathway_list
              = Return (Some [["hsa"; "hsa00010"; "Glycolysis / Gluconeogenesis"];
                              ["hsa"; "hsa00020"; "Citrate cycle (TCA cycle)"]])
                  w')
      as (w' & H) by (vm_compute; eexists; reflexivity).
    exists w'. split; [exact H|exact (Hp _ _ _ _ _ _ H)].
  - assert (exists w' : World,
              GetOrganisms.main organisms_args world_organism_list
              = Return (Some [["T00005"; "eco"; "Escherichia coli K-12"];
                              ["T01001"; "hsa"; "Homo sapiens (human)"]]) w')
      as (w' & H) by (vm_compute; eexists; reflexivity).
    exists w'. split; [exact H|exact (Ho _ _ _ _ H)].
Defined.

(** ** Facts about strings *)

#[local] Arguments String.append !_ _ / : simpl nomatch.

Lemma app_nil_r_str (s : string) : s +:+ "" = s.
Proof. induction s as [|a s IH]; simpl; congruence. Qed.

Lemma app_assoc_str (s1 s2 s3 : string) : (s1 +:+ s2) +:+ s3 = s1 +:+ s2 +:+ s3.
Proof. induction s1 as [|a s1 IH]; simpl; congruence. Qed.

Lemma length_app_str (s1 s2 : string) :
  String.length (s1 +:+ s2) = String.length s1 + String.length s2.
Proof. induction s1 as [|a s1 IH]; simpl; congruence. Qed.

Lemma rev_app_spec (s1 s2 : string) :
  String.rev_app s1 s2 = String.rev s1 +:+ s2.
Proof.
  unfold String.rev. revert s2.
  induction s1 as [|a s1 IH]; intros s2; simpl; [done|].
  rewrite (IH (String a s2)), (IH (String a "")), app_assoc_str. done.
Qed.

Lemma rev_app_app (s1 s2 s3 : string) :
  String.rev_app (s1 +:+ s2) s3 = String.rev_app s2 (String.rev_app s1 s3).
Proof. revert s3. induction s1 as [|a s1 IH]; intros s3; simpl; [done|apply IH]. Qed.

Lemma rev_app_distr (s1 s2 : string) :
  String.rev (s1 +:+ s2) = String.rev s2 +:+ String.rev s1.
Proof. unfold String.rev at 1. by rewrite rev_app_app, rev_app_spec. Qed.

Lemma rev_involutive_str (s : string) : String.rev (String.rev s) = s.
Proof.
  induction s as [|a s IH]; [done|].
  change (String a s) with (String a "" +:+ s) at 1.
  rewrite rev_app_distr, rev_app_distr, IH. done.
Qed.

Lemma length_rev_app (s1 s2 : string) :
  String.length (String.rev_app s1 s2) = String.length s1 + String.length s2.
Proof.
  revert s2. induction s1 as [|a s1 IH]; intros s2; simpl; [done|].
  rewrite IH. simpl. lia.
Qed.

Lemma take_app_length (s1 s2 : string) :
  Str.take (String.length s1) (s1 +:+ s2) = s1.
Proof. induction s1 as [|a s1 IH]; simpl; [by destruct s2|congruence]. Qed.

Lemma startswith_app (n s : string) : Str.startswith n (n +:+ s) = true.
Proof.
  induction n as [|a n IH]; simpl; [done|].
  by destruct (decide (a = a)).
Qed.

Lemma startswith_inv (n s : string) :
  Str.startswith n s = true -> exists v, s = n +:+ v.
Proof.
  revert s. induction n as [|a n IH]; intros s; simpl; [by exists s|].
  destruct s as [|b s]; [done|].
  destruct (decide (a = b)) as [->|]; [|done].
  intros H. destruct (IH _ H) as [v ->]. by exists v.
Qed.

(** ** The pattern for EC numbers *)

Lemma flat_map_snoc {A B} (f : A -> list B) (l : list A) (x : A) :
  flat_map f (l ++ [x]) = flat_map f l ++ f x.
Proof. rewrite flat_map_app. simpl. by rewrite app_nil_r. Qed.

Lemma flat_map_map {A B C} (f : B -> list C) (g : A -> B) (l : list A) :
  flat_map f (map g l) = flat_map (fun x => f (g x)) l.
Proof. induction l as [|x l IH]; simpl; congruence. Qed.

Lemma plus_loop_step (body : cursor -> groups -> list (cursor * groups))
  (fuel : nat) (c : cursor) (g : groups) :
  plus_loop body (S fuel) c g
  = flat_map
      (fun cg =>
         (if Nat.ltb (String.length (ahead cg.1)) (String.length (ahead c))
          then plus_loop body fuel cg.1 cg.2 else [])
         ++ [cg])
      (body c g).
Proof. reflexivity. Qed.

Lemma matches_class_cons (p : ascii -> bool) (bh : string) (a : ascii)
  (s : string) (g : groups) :
  matches (Class p) (Cursor bh (String a s)) g
  = if p a then [(Cursor (String a bh) s, g)] else [].
Proof. reflexivity. Qed.

Lemma plus_loop_class_stop (p : ascii -> bool) (fuel : nat) (bh rest : string)
  (g : groups) :
  match rest with "" => True | String x _ => p x = false end ->
  plus_loop (matches (Class p)) fuel (Cursor bh rest) g = [].
Proof.
  intros Hrest. destruct fuel as [|fuel]; [done|]. rewrite plus_loop_step.
  destruct rest as [|x rest]; [done|]. by rewrite matches_class_cons, Hrest.
Qed.

(** A greedy run over the characters of a class: when the continuation
    [K] fails after every shorter run, the outcome is that of [K] after
    the whole run. *)
Lemma plus_loop_class_last {X} (p : ascii -> bool)
  (K : cursor * groups -> list X) (rest : string) (g : groups) (code : string) :
  forall (fuel : nat) (bh : string),
    all_chars p code = true ->
    code <> "" ->
    match rest with "" => True | String x _ => p x = false end ->
    String.length (code +:+ rest) < fuel ->
    (forall (code1 code2 : string) (a : ascii),
       code = code1 +:+ String a code2 -> code1 <> "" ->
       K (Cursor (String.rev_app code1 bh) (String a code2 +:+ rest), g) = []) ->
    flat_map K (plus_loop (matches (Class p)) fuel (Cursor bh (code +:+ rest)) g)
    = K (Cursor (String.rev_app code bh) rest, g).
Proof.
  induction code as [|a code IH]; intros fuel bh Hall Hne Hrest Hfuel Hinner;
    [done|].
  destruct fuel as [|fuel]; [lia|].
  simpl in Hall. apply andb_true_iff in Hall as [Ha Hall].
  change (String a code +:+ rest) with (String a (code +:+ rest)) in *.
  rewrite plus_loop_step, matches_class_cons, Ha.
  cbn [flat_map fst snd ahead String.length].
  assert ((String.length (code +:+ rest) <? S (String.length (code +:+ rest)))
          = true) as -> by (apply Nat.ltb_lt; lia).
  rewrite app_nil_r, flat_map_snoc.
  destruct code as [|b code].
  - change ("" +:+ rest) with rest.
    rewrite plus_loop_class_stop by done. done.
  - rewrite (IH fuel (String a bh)); [|done|done|done|simpl in *; lia|].
    + assert (K (Cursor (String a bh) (String b code +:+ rest), g) = []) as ->
        by exact (Hinner (String a "") code b eq_refl ltac:(done)).
      by rewrite app_nil_r.
    + intros code1 code2 c E Hne1.
      apply (Hinner (String a code1) code2 c); [|done]. simpl. by rewrite E.
Qed.

Lemma ec_char_not_bracket (a : ascii) : ec_char a = true -> a <> "]"%char.
Proof. intros H ->. vm_compute in H. discriminate H. Qed.

Lemma ec_match_at_annotation (bh code rest : string) :
  is_code code = true ->
  Str.startswith ":CE[" bh = true ->
  match_here REGEX_EC_NUMBERS (Cursor bh (code +:+ "]" +:+ rest))
  = Some (MkMatch code [(1, code)]
            (Cursor (String.rev_app code bh) ("]" +:+ rest))).
Proof.
  intros [Hne Hall]%andb_true_iff Hbehind. apply bool_decide_eq_true in Hne.
  unfold match_here, REGEX_EC_NUMBERS. cbn [matches].
  change (String.rev "[EC:") with ":CE[". cbn [behind]. rewrite Hbehind.
  cbn [flat_map fst snd]. rewrite app_nil_r, flat_map_map.
  rewrite (plus_loop_class_last ec_char
             (fun cg =>
                matches (Ahead (Lit "]"))
                  (cg.1, set_group 1
                           (span (Cursor bh (code +:+ "]" +:+ rest)) cg.1) cg.2).1
                  (cg.1, set_group 1
                           (span (Cursor bh (code +:+ "]" +:+ rest)) cg.1) cg.2).2)
             ("]" +:+ rest) [] code); [|done|done|done|cbn [ahead]; lia|].
  - cbn. destruct (decide ("]"%char = "]"%char)); [|done].
    unfold span, pos. cbn [behind ahead fst snd].
    rewrite length_rev_app, Nat.add_sub, take_app_length. done.
  - intros code1 code2 a E _. cbn.
    assert (ec_char a = true) as Ha.
    { rewrite E in Hall. clear -Hall.
      induction code1 as [|c code1 IH]; simpl in Hall;
        apply andb_true_iff in Hall as [? ?]; auto. }
    destruct (decide ("]"%char = a)) as [<-|]; [|done].
    by apply ec_char_not_bracket in Ha.
Qed.

Lemma ec_no_match (bh ah : string) :
  Str.startswith ":CE[" bh = false ->
  match_here REGEX_EC_NUMBERS (Cursor bh ah) = None.
Proof.
  intros H. unfold match_here, REGEX_EC_NUMBERS. cbn [matches].
  change (String.rev "[EC:") with ":CE[". cbn [behind]. by rewrite H.
Qed.

(** ** The sorted list of a set *)

Lemma elem_of_sorted_set (x : string) (l : list string) :
  x ∈ sorted_set l <-> x ∈ l.
Proof.
  unfold sorted_set. rewrite sorted_by_perm.
  rewrite elem_of_elements. apply elem_of_list_to_set.
Qed.

Lemma NoDup_sorted_set (l : list string) : NoDup (sorted_set l).
Proof. unfold sorted_set. rewrite sorted_by_perm. apply NoDup_elements. Qed.

Lemma sorted_set_sorted (l : list string) :
  StronglySorted (key_le (fun x => x) str_leb) (sorted_set l).
Proof. apply sorted_by_strongly; [apply str_leb_total|apply str_leb_trans]. Qed.

(** The result depends on the set of the strings found only: neither on
    their order nor on how often each one occurs. *)
Lemma sorted_set_ext (l l' : list string) :
  (forall x, x ∈ l <-> x ∈ l') -> sorted_set l = sorted_set l'.
Proof.
  intros H. unfold sorted_set.
  assert ((list_to_set l : gset string) = list_to_set l') as ->; [|done].
  apply set_eq. intros x. rewrite !elem_of_list_to_set. apply H.
Qed.

(** ** Where the pattern for EC numbers matches *)

(** The longest run of characters of a class at the start of a text. *)
Lemma run_split (p : ascii -> bool) (s : string) :
  exists run rest : string,
    s = run +:+ rest /\ all_chars p run = true
    /\ match rest with "" => True | String x _ => p x = false end.
Proof.
  induction s as [|a s (run & rest & -> & Hall & Hrest)].
  - by exists "", "".
  - destruct (p a) eqn:Ha.
    + exists (String a run), rest. simpl. by rewrite Ha.
    + by exists "", (String a (run +:+ rest)).
Qed.

(** After [[EC:] the pattern needs one character of its class at least
    and a closing bracket right after the last one. *)
Lemma ec_no_match_run (bh run rest : string) :
  all_chars ec_char run = true ->
  match rest with "" => True | String x _ => ec_char x = false end ->
  run = "" \/ Str.startswith "]" rest = false ->
  match_here REGEX_EC_NUMBERS (Cursor bh (run +:+ rest)) = None.
Proof.
  intros Hall Hrest Hcase.
  unfold match_here, REGEX_EC_NUMBERS. cbn [matches].
  change (String.rev "[EC:") with ":CE[". cbn [behind].
  destruct (Str.startswith ":CE[" bh); [|done].
  cbn [flat_map fst snd]. rewrite app_nil_r, flat_map_map.
  destruct run as [|a run].
  - change ("" +:+ rest) with rest.
    pose proof (plus_loop_class_stop ec_char (S (String.length rest)) bh rest []
                  Hrest) as Hstop.
    cbn [matches ahead] in Hstop. cbn [ahead]. by rewrite Hstop.
  - destruct Hcase as [?|Hcase]; [done|].
    rewrite (plus_loop_class_last ec_char
               (fun cg =>
                  matches (Ahead (Lit "]"))
                    (cg.1, set_group 1
                             (span (Cursor bh (String a run +:+ rest)) cg.1) cg.2).1
                    (cg.1, set_group 1
                             (span (Cursor bh (String a run +:+ rest)) cg.1) cg.2).2)
               rest [] (String a run)); [|done|done|done|cbn [ahead]; lia|].
    + destruct rest as [|x rest]; [done|]. cbn. simpl in Hcase.
      by destruct (decide ("]"%char = x)).
    + intros code1 code2 c E _. cbn.
      assert (ec_char c = true) as Hc.
      { rewrite E in Hall. clear -Hall.
        induction code1 as [|d code1 IH]; simpl in Hall;
          apply andb_true_iff in Hall as [? ?]; auto. }
      destruct (decide ("]"%char = c)) as [<-|]; [|done].
      by apply ec_char_not_bracket in Hc.
Qed.

(** Where the pattern matches: right after [[EC:], on a code that a
    closing bracket follows; the match and its group are the code. *)
Lemma ec_match_inv (bh ah : string) (m : Match) :
  match_here REGEX_EC_NUMBERS (Cursor bh ah) = Some m ->
  Str.startswith ":CE[" bh = true
  /\ exists code rest : string,
       ah = code +:+ "]" +:+ rest /\ is_code code = true
       /\ m = MkMatch code [(1, code)]
                (Cursor (String.rev_app code bh) ("]" +:+ rest)).
Proof.
  intros H.
  destruct (Str.startswith ":CE[" bh) eqn:Hb; [|by rewrite ec_no_match in H].
  split; [done|].
  destruct (run_split ec_char ah) as (run & rest & -> & Hall & Hrest).
  destruct run as [|a run].
  { rewrite ec_no_match_run in H; [done|done|done|by left]. }
  destruct rest as [|x rest].
  { rewrite ec_no_match_run in H; [done|done|done|by right]. }
  destruct (decide (x = "]"%char)) as [->|Hx].
  - exists (String a run), rest.
    assert (is_code (String a run) = true) as Hcode
      by (unfold is_code; by rewrite Hall).
    change (String "]" rest) with ("]" +:+ rest) in H.
    rewrite (ec_match_at_annotation bh _ rest Hcode Hb) in H.
    by injection H as <-.
  - rewrite ec_no_match_run in H; [done|done|done|]. right. simpl.
    by destruct (decide ("]"%char = x)) as [<-|].
Qed.

(** ** Scanning a text for matches *)

(** Every match of the scan is a match at a position of the text. *)
Lemma finditer_from_found_at (r : regex) (ah : string) :
  forall (bh : string) (skip : nat) (m : Match),
    m ∈ finditer_from r bh ah skip ->
    exists s ah' : string,
      ah = s +:+ ah'
      /\ match_here r (Cursor (String.rev_app s bh) ah') = Some m.
Proof.
  induction ah as [|a rest IH]; intros bh skip m H; cbn [finditer_from] in H.
  - rewrite app_nil_r in H. destruct skip; [|by apply elem_of_nil in H].
    destruct (match_here r (Cursor bh "")) eqn:E; [|by apply elem_of_nil in H].
    apply list_elem_of_singleton in H as ->. by exists "", "".
  - apply elem_of_app in H as [H|H].
    + destruct skip; [|by apply elem_of_nil in H].
      destruct (match_here r (Cursor bh (String a rest))) eqn:E;
        [|by apply elem_of_nil in H].
      apply list_elem_of_singleton in H as ->. by exists "", (String a rest).
    + apply IH in H as (s & ah' & -> & H). by exists (String a s), ah'.
Qed.

(** A match at a position of the text is a match of the scan, when no
    earlier match reaches over that position. *)
Lemma finditer_from_reached (r : regex) (ah' : string) (m : Match) (s : string) :
  forall (bh : string) (skip : nat),
    skip <= String.length s ->
    (forall (s1 s2 : string) (m' : Match),
       s = s1 +:+ s2 -> s2 <> "" ->
       match_here r (Cursor (String.rev_app s1 bh) (s2 +:+ ah')) = Some m' ->
       String.length (group0 m') <= String.length s2) ->
    match_here r (Cursor (String.rev_app s bh) ah') = Some m ->
    m ∈ finditer_from r bh (s +:+ ah') skip.
Proof.
  induction s as [|a s IH]; intros bh skip Hskip Hbetween Hm.
  - change ("" +:+ ah') with ah'. simpl in Hm, Hskip.
    assert (skip = 0) as -> by lia.
    destruct ah'; cbn [finditer_from]; rewrite Hm; left.
  - change (String a s +:+ ah') with (String a (s +:+ ah')). cbn [finditer_from].
    apply elem_of_app. right. apply IH.
    + destruct skip as [|k]; [|simpl in *; lia].
      destruct (match_here r (Cursor bh (String a (s +:+ ah')))) as [m'|] eqn:E;
        [|simpl; lia].
      pose proof (Hbetween "" (String a s) m' eq_refl ltac:(done) E) as Hlen.
      simpl in *. lia.
    + intros s1 s2 m' E Hne. apply (Hbetween (String a s1) s2 m'); [|done].
      simpl. by rewrite E.
    + exact Hm.
Qed.

(** A run of characters of a class ends before the first character that
    is not of the class. *)
Lemma all_chars_before (p : ascii -> bool) (run : string) :
  forall (x t y : string) (a : ascii),
    run +:+ x = t +:+ String a y -> all_chars p run = true -> p a = false ->
    String.length run <= String.length t.
Proof.
  induction run as [|b run IH]; intros x t y a E Hall Ha; [simpl; lia|].
  simpl in Hall. apply andb_true_iff in Hall as [Hb Hall].
  destruct t as [|c t]; simpl in E.
  - injection E as -> _. congruence.
  - injection E as _ E. pose proof (IH _ _ _ _ E Hall Ha). simpl. lia.
Qed.

Lemma rev_eq_nil (s : string) : String.rev s = "" -> s = "".
Proof. intros H. apply (f_equal String.rev) in H. by rewrite rev_involutive_str in H. Qed.

(** What is left of a text that ends with [a] ends with [a]. *)
Lemma rest_ends (u s1 s2 : string) (a : ascii) :
  u +:+ String a "" = s1 +:+ s2 -> s2 <> "" ->
  exists t : string, s2 = t +:+ String a "".
Proof.
  intros E Hne. apply (f_equal String.rev) in E. rewrite !rev_app_distr in E.
  destruct (String.rev s2) as [|b z] eqn:Hrev; [by apply rev_eq_nil in Hrev|].
  change (String.rev (String a "")) with (String a "") in E.
  simpl in E. injection E as <- _.
  exists (String.rev z). apply (f_equal String.rev) in Hrev.
  rewrite rev_involutive_str in Hrev. rewrite Hrev.
  change (String a z) with (String a "" +:+ z). by rewrite rev_app_distr.
Qed.

(** ** The EC numbers of a text *)

(** What [findall] finds with the pattern for EC numbers: the codes of the
    bracketed annotations of the text. *)
Lemma elem_of_findall_ec (text code : string) :
  code ∈ findall REGEX_EC_NUMBERS text <-> annotated_with text code.
Proof.
  unfold findall, finditer, annotated_with. split.
  - intros H. apply list_elem_of_fmap in H as (m & -> & Hm).
    apply finditer_from_found_at in Hm as (s & ah' & -> & Hm).
    apply ec_match_inv in Hm as (Hb & code & rest & -> & Hcode & ->).
    split; [done|].
    rewrite rev_app_spec, app_nil_r_str in Hb. apply startswith_inv in Hb as [v Hv].
    apply (f_equal String.rev) in Hv.
    rewrite rev_involutive_str, rev_app_distr in Hv.
    change (String.rev ":CE[") with "[EC:" in Hv.
    exists (String.rev v), rest. rewrite Hv.
    change (group 1 (MkMatch code [(1, code)]
                       (Cursor (String.rev_app code
                                  (String.rev_app (String.rev v +:+ "[EC:") ""))
                          ("]" +:+ rest))))
      with code.
    by rewrite !app_assoc_str.
  - intros (Hcode & pre & post & ->).
    apply list_elem_of_fmap.
    exists (MkMatch code [(1, code)]
              (Cursor (String.rev_app code (String.rev_app (pre +:+ "[EC:") ""))
                 ("]" +:+ post))).
    split; [done|].
    replace (pre +:+ "[EC:" +:+ code +:+ "]" +:+ post)
      with ((pre +:+ "[EC:") +:+ code +:+ "]" +:+ post)
      by (by rewrite !app_assoc_str).
    apply finditer_from_reached; [lia| |].
    + intros s1 s2 m' E Hne Hm'.
      apply ec_match_inv in Hm' as (_ & code' & rest' & E' & Hcode' & ->).
      cbn [group0].
      destruct (rest_ends (pre +:+ "[EC") s1 s2 ":") as [t ->]; [|done|].
      { rewrite <- E. by rewrite !app_assoc_str. }
      rewrite app_assoc_str in E'. symmetry in E'.
      apply andb_true_iff in Hcode' as [_ Hall].
      pose proof (all_chars_before ec_char code' _ t _ ":" E' Hall eq_refl).
      rewrite length_app_str. lia.
    + apply ec_match_at_annotation; [done|]. by rewrite rev_app_app.
Qed.

Lemma elem_of_ec_numbers_of (text code : string) :
  code ∈ GetEnzymes.ec_numbers_of text <-> annotated_with text code.
Proof.
  unfold GetEnzymes.ec_numbers_of.
  rewrite elem_of_sorted_set. apply elem_of_findall_ec.
Qed.

(** C3.  Whatever the text, the EC extraction returns the codes of its
    bracketed annotations and nothing else: a string is in the result
    exactly when it is one or more digits, spaces, dots and dashes that
    stand between [[EC:] and a closing bracket somewhere in the text.
    Each code is listed once, and the list is in lexicographic order.  A
    text without such an annotation gives the empty list, and two texts
    with the same codes, in whatever order and however often repeated,
    give the same list. *)
Theorem ec_numbers_of_every_text :
  forall text : string,
    (forall code : string,
       code ∈ GetEnzymes.ec_numbers_of text
       <-> is_code code = true
           /\ exists pre post : string,
                text = pre +:+ "[EC:" +:+ code +:+ "]" +:+ post)
    /\ NoDup (GetEnzymes.ec_numbers_of text)
    /\ StronglySorted (key_le (fun x => x) str_leb)
         (GetEnzymes.ec_numbers_of text)
    /\ ((forall code : string, ~ annotated_with text code) ->
        GetEnzymes.ec_numbers_of text = [])
    /\ (forall text' : string,
          (forall code : string,
             annotated_with text' code <-> annotated_with text code) ->
          GetEnzymes.ec_numbers_of text' = GetEnzymes.ec_numbers_of text).
Proof.
  intros text. split; [|split; [|split; [|split]]].
  - intros code. apply elem_of_ec_numbers_of.
  - apply NoDup_sorted_set.
  - apply sorted_set_sorted.
  - intros Hnone.
    destruct (GetEnzymes.ec_numbers_of text) as [|code l] eqn:E; [done|].
    destruct (Hnone code). apply elem_of_ec_numbers_of. rewrite E. left.
  - intros text' Hsame. unfold GetEnzymes.ec_numbers_of.
    apply sorted_set_ext. intros code. rewrite !elem_of_findall_ec. apply Hsame.
Qed.

Lemma ec_numbers_of_every_text_witness :
  GetEnzymes.ec_numbers_of pathway_example = ["2.7.1.1"; "5.3.1.9"]
  /\ (is_code "5.3.1.9" = true
      /\ exists pre post : string,
           pathway_example = pre +:+ "[EC:" +:+ "5.3.1.9" +:+ "]" +:+ post)
  /\ GetEnzymes.ec_numbers_of pathway_unclosed = []
  /\ GetEnzymes.ec_numbers_of pathway_shuffled
     = GetEnzymes.ec_numbers_of pathway_example.
Proof.
  assert (GetEnzymes.ec_numbers_of pathway_example = ["2.7.1.1"; "5.3.1.9"])
    as Hexample by (vm_compute; reflexivity).
  assert (GetEnzymes.ec_numbers_of pathway_shuffled = ["2.7.1.1"; "5.3.1.9"])
    as Hshuffled by (vm_compute; reflexivity).
  assert (GetEnzymes.ec_numbers_of pathway_unclosed = []) as Hunclosed
    by (vm_compute; reflexivity).
  destruct (ec_numbers_of_every_text pathway_example)
    as (Hcodes & _ & _ & _ & Hsame).
  destruct (ec_numbers_of_every_text pathway_shuffled) as (Hcodes' & _).
  destruct (ec_numbers_of_every_text pathway_unclosed)
    as (Hcodes'' & _ & _ & Hnone & _).
  split; [exact Hexample|].
  split.
  { apply (proj1 (Hcodes "5.3.1.9")). rewrite Hexample.
    apply list_elem_of_further, list_elem_of_here. }
  split.
  - apply Hnone. intros code Hcode.
    apply (proj2 (Hcodes'' code)) in Hcode. rewrite Hunclosed in Hcode.
    by apply elem_of_nil in Hcode.
  - apply Hsame. intros code. unfold annotated_with.
    rewrite <- (Hcodes code), <- (Hcodes' code), Hexample, Hshuffled. done.
Defined.

(** ** A GENES section needs the header of a next section *)

Lemma rest_of_refl (s : string) : rest_of s s.
Proof. by exists "". Qed.

Lemma rest_of_trans (s t u : string) : rest_of s t -> rest_of t u -> rest_of s u.
Proof. intros [x ->] [y ->]. exists (y +:+ x). by rewrite app_assoc_str. Qed.

Lemma rest_of_tail (a : ascii) (s : string) : rest_of s (String a s).
Proof. by exists (String a ""). Qed.

Lemma eat_rest (s : string) :
  forall c c' : cursor, eat s c = Some c' -> rest_of (ahead c') (ahead c).
Proof.
  induction s as [|a s IH]; intros c c'; simpl.
  - intros [= ->]. apply rest_of_refl.
  - destruct (ahead c) as [|b rest] eqn:E; [done|].
    destruct (decide (a = b)); [|done].
    intros H. apply IH in H. simpl in H.
    eapply rest_of_trans; [exact H|apply rest_of_tail].
Qed.

Lemma plus_loop_rest (body : cursor -> groups -> list (cursor * groups)) :
  (forall c g cg, cg ∈ body c g -> rest_of (ahead cg.1) (ahead c)) ->
  forall (fuel : nat) (c : cursor) (g : groups) (cg : cursor * groups),
    cg ∈ plus_loop body fuel c g -> rest_of (ahead cg.1) (ahead c).
Proof.
  intros Hbody. induction fuel as [|fuel IH]; intros c g cg H.
  - by apply elem_of_nil in H.
  - rewrite plus_loop_step in H.
    apply list_elem_of_In, in_flat_map in H as (mid & Hmid & H).
    apply list_elem_of_In in Hmid, H. apply Hbody in Hmid.
    apply elem_of_app in H as [H|H].
    + destruct (_ <? _); [|by apply elem_of_nil in H].
      apply IH in H. by eapply rest_of_trans.
    + by apply list_elem_of_singleton in H as ->.
Qed.

(** A match ends in what is left of the text at its start. *)
Lemma matches_rest (r : regex) :
  forall (c : cursor) (g : groups) (cg : cursor * groups),
    cg ∈ matches r c g -> rest_of (ahead cg.1) (ahead c).
Proof.
  induction r as [|s|p|r1 IH1 r2 IH2|r1 IH1 r2 IH2|r IH|n r IH|s|r IH|];
    intros c g cg H; cbn [matches] in H.
  - apply list_elem_of_singleton in H as ->. apply rest_of_refl.
  - destruct (eat s c) as [c'|] eqn:E; [|by apply elem_of_nil in H].
    apply list_elem_of_singleton in H as ->. by apply eat_rest in E.
  - destruct (ahead c) as [|a rest] eqn:E; [by apply elem_of_nil in H|].
    destruct (p a); [|by apply elem_of_nil in H].
    apply list_elem_of_singleton in H as ->. apply rest_of_tail.
  - apply list_elem_of_In, in_flat_map in H as (mid & Hmid & H).
    apply list_elem_of_In in Hmid, H.
    eapply rest_of_trans; [by eapply IH2|by eapply IH1].
  - apply elem_of_app in H as [H|H]; eauto.
  - by eapply plus_loop_rest.
  - apply list_elem_of_fmap in H as (mid & -> & H). cbn [fst]. by eapply IH.
  - destruct (Str.startswith _ _); [|by apply elem_of_nil in H].
    apply list_elem_of_singleton in H as ->. apply rest_of_refl.
  - destruct (matches r c g); [by apply elem_of_nil in H|].
    apply list_elem_of_singleton in H as ->. apply rest_of_refl.
  - assert (cg = (c, g)) as ->; [|apply rest_of_refl].
    destruct (ahead c) as [|a [|b rest]].
    + by apply list_elem_of_singleton in H.
    + destruct a as [[] [] [] [] [] [] [] []];
        first [by apply elem_of_nil in H | by apply list_elem_of_singleton in H].
    + destruct a as [[] [] [] [] [] [] [] []]; by apply elem_of_nil in H.
Qed.

Lemma has_header_rest (s t : string) :
  rest_of s t -> has_header s = true -> has_header t = true.
Proof.
  intros [u ->] H. induction u as [|a u IH]; [done|].
  change (String a u +:+ s) with (String a (u +:+ s)). cbn [has_header].
  destruct (u +:+ s) as [|b rest]; [done|].
  rewrite IH. apply orb_true_r.
Qed.

(** The lookahead of the section pattern wants a header right where it
    stands. *)
Lemma section_end_header (c : cursor) (g : groups) :
  matches (Ahead (Cat (Lit (Str.of_char "010")) (Plus (Class upper)))) c g <> [] ->
  has_header (ahead c) = true.
Proof.
  cbn [matches]. unfold Str.of_char. cbn [eat].
  destruct (ahead c) as [|a rest] eqn:E; [done|].
  destruct (decide ("010"%char = a)) as [<-|]; [|done].
  cbn [flat_map fst snd ahead]. rewrite app_nil_r, plus_loop_step. cbn [ahead].
  destruct rest as [|b rest]; [done|]. cbn [has_header].
  destruct (upper b); [done|]. cbn [flat_map]. done.
Qed.

Lemma matches_cat (r1 r2 : regex) (c : cursor) (g : groups) :
  matches (Cat r1 r2) c g
  = flat_map (fun cg => matches r2 cg.1 cg.2) (matches r1 c g).
Proof. reflexivity. Qed.

Lemma section_needs_header (section : string) (c : cursor) :
  has_header (ahead c) = false ->
  match_here (get_kegg_section_regex section) c = None.
Proof.
  intros Hno. unfold match_here.
  destruct (matches (get_kegg_section_regex section) c []) as [|cg l] eqn:E;
    [done|exfalso].
  assert (cg ∈ matches (get_kegg_section_regex section) c []) as H
    by (rewrite E; left).
  clear E. unfold get_kegg_section_regex in H.
  rewrite matches_cat in H.
  apply list_elem_of_In, in_flat_map in H as (c1 & H1 & H).
  rewrite matches_cat in H. apply in_flat_map in H as (c2 & H2 & H).
  apply list_elem_of_In in H1, H2.
  apply matches_rest in H1, H2.
  assert (has_header (ahead c2.1) = true) as Hheader.
  { apply (section_end_header _ c2.2). intros Hnil. by rewrite Hnil in H. }
  rewrite (has_header_rest _ _ (rest_of_trans _ _ _ H2 H1) Hheader) in Hno.
  done.
Qed.

Lemma search_from_none (r : regex) (ah : string) :
  forall bh : string,
    (forall bh' ah' : string,
       rest_of ah' ah -> match_here r (Cursor bh' ah') = None) ->
    search_from r bh ah = None.
Proof.
  induction ah as [|a ah IH]; intros bh H; cbn [search_from];
    rewrite (H bh _ (rest_of_refl _)); [done|].
  apply IH. intros bh' ah' Hrest. apply H.
  eapply rest_of_trans; [exact Hrest|apply rest_of_tail].
Qed.

(** Without the header of a next section no GENES section is found and
    [parse_genes] returns the empty list. *)
Lemma parse_genes_no_header (ec_number content : string) :
  has_header content = false ->
  GetSequences.parse_genes ec_number content = inr [].
Proof.
  intros Hno. unfold GetSequences.parse_genes, search, REGEX_GENES_SECTION.
  rewrite search_from_none; [done|].
  intros bh' ah' Hrest. apply section_needs_header. cbn [ahead].
  destruct (has_header ah') eqn:E; [|done].
  by rewrite (has_header_rest _ _ Hrest E) in Hno.
Qed.

(** ** [parse_genes] on the example of the specification *)

(** C2.  On the example line in front of the header of a next section
    [parse_genes] returns one record, ("hsa", "124"), where two are
    expected: the greedy [\(.+\)] deletes the gene list from its first
    opening to its last closing parenthesis, and the gene 125 goes with
    the annotations.  On the example line followed by a newline and
    nothing else no GENES section is recognised, and there is no record
    at all. *)
Theorem parse_genes_example :
  (forall ec_number : string,
     GetSequences.parse_genes ec_number genes_example_with_header
     = inr [[ec_number; "hsa"; "124"]])
  /\ delete regex_parentheses "124(ADH1A) 125(ADH1B)" = "124"
  /\ (forall ec_number : string,
        GetSequences.parse_genes ec_number genes_example = inr []).
Proof.
  split; [|split].
  - intros ec_number. reflexivity.
  - reflexivity.
  - intros ec_number. apply parse_genes_no_header. vm_compute. reflexivity.
Qed.

(** ** The cache key of an EC number *)

Lemma split_go_plain (sep : ascii) (s : string) :
  forall cur : string,
    all_chars (fun a => negb (bool_decide (a = sep))) s = true ->
    Str.split_go sep cur s = [String.rev_app cur s].
Proof.
  induction s as [|a s IH]; intros cur H; [done|].
  simpl in H. apply andb_true_iff in H as [Ha H].
  apply negb_true_iff, bool_decide_eq_false in Ha.
  cbn [Str.split_go]. destruct (decide (a = sep)); [done|]. by rewrite IH.
Qed.

Lemma split_go_sep (sep : ascii) (s t : string) :
  forall cur : string,
    all_chars (fun a => negb (bool_decide (a = sep))) s = true ->
    Str.split_go sep cur (s +:+ String sep t)
    = String.rev_app cur s :: Str.split_go sep "" t.
Proof.
  induction s as [|a s IH]; intros cur H.
  - change ("" +:+ String sep t) with (String sep t). cbn [Str.split_go].
    by destruct (decide (sep = sep)).
  - simpl in H. apply andb_true_iff in H as [Ha H].
    apply negb_true_iff, bool_decide_eq_false in Ha.
    change (String a s +:+ String sep t) with (String a (s +:+ String sep t)).
    cbn [Str.split_go]. destruct (decide (a = sep)); [done|]. by rewrite IH.
Qed.

Lemma join_cons (sep p q : string) (ps : list string) :
  Str.join sep (p :: q :: ps) = p +:+ sep +:+ Str.join sep (q :: ps).
Proof. reflexivity. Qed.

(** Splitting at the separator undoes joining with it. *)
Lemma split_join (sep : ascii) (segments : list string) :
  segments <> [] ->
  Forall (fun seg => all_chars (fun a => negb (bool_decide (a = sep))) seg = true)
    segments ->
  Str.split sep (Str.join (String sep "") segments) = segments.
Proof.
  intros Hne Hall. unfold Str.split.
  induction Hall as [|seg segments Hseg Hall IH]; [done|].
  destruct segments as [|seg' segments].
  - cbn [Str.join]. by rewrite split_go_plain.
  - rewrite join_cons.
    change (seg +:+ String sep "" +:+ Str.join (String sep "") (seg' :: segments))
      with (seg +:+ String sep (Str.join (String sep "") (seg' :: segments))).
    rewrite split_go_sep by done. by rewrite IH.
Qed.

Lemma all_chars_impl (p q : ascii -> bool) (s : string) :
  (forall a, p a = true -> q a = true) ->
  all_chars p s = true -> all_chars q s = true.
Proof.
  intros Hpq. induction s as [|a s IH]; [done|]. simpl.
  intros [Ha H]%andb_true_iff. by rewrite (Hpq _ Ha), IH.
Qed.

Lemma all_chars_app (p : ascii -> bool) (s t : string) :
  all_chars p (s +:+ t) = all_chars p s && all_chars p t.
Proof. induction s as [|a s IH]; [done|]. simpl. by rewrite IH, andb_assoc. Qed.

Lemma all_chars_join (p : ascii -> bool) (sep : string) (segments : list string) :
  all_chars p sep = true ->
  Forall (fun seg => all_chars p seg = true) segments ->
  all_chars p (Str.join sep segments) = true.
Proof.
  intros Hsep. induction 1 as [|seg segments Hseg Hall IH]; [done|].
  destruct segments as [|seg' segments]; [done|].
  rewrite join_cons. by rewrite !all_chars_app, Hseg, Hsep, IH.
Qed.

(** A name without a slash that is neither empty nor a single dot is one
    path component, appended as it is. *)
Lemma div_name (p : Path.t) (name : string) :
  name <> "" -> name <> "." ->
  all_chars (fun a => negb (bool_decide (a = "/"%char))) name = true ->
  p /: name = Path.Mk (Path.anchor p) (Path.parts p ++ [name]).
Proof.
  intros Hne Hdot Hall. unfold Path.div.
  assert (Str.startswith "/" name = false) as ->.
  { destruct name as [|a name]; [done|]. cbn [Str.startswith].
    simpl in Hall. apply andb_true_iff in Hall as [Ha _].
    apply negb_true_iff, bool_decide_eq_false in Ha.
    destruct (decide ("/"%char = a)); [by subst|done]. }
  unfold Path.components, Str.split. rewrite split_go_plain by done.
  change (String.rev_app "" name) with name.
  rewrite filter_cons_True by done. done.
Qed.

Lemma plain_segment_name (seg : string) :
  plain_segment seg = true ->
  seg <> "" /\ seg <> "."
  /\ all_chars (fun a => negb (bool_decide (a = "/"%char))) seg = true
  /\ all_chars (fun a => negb (bool_decide (a = "."%char))) seg = true.
Proof.
  unfold plain_segment. intros [Hne Hall]%andb_true_iff.
  apply bool_decide_eq_true in Hne. split; [done|]. split.
  - intros ->. vm_compute in Hall. discriminate Hall.
  - split; (eapply all_chars_impl; [|exact Hall]);
      by intros a [? ?]%andb_true_iff.
Qed.

Lemma joinpath_plain (segments : list string) :
  forall p : Path.t,
    Forall (fun seg => plain_segment seg = true) segments ->
    Path.joinpath p segments = Path.Mk (Path.anchor p) (Path.parts p ++ segments).
Proof.
  unfold Path.joinpath.
  induction segments as [|seg segments IH]; intros p Hall.
  - simpl. rewrite app_nil_r. by destruct p.
  - apply Forall_cons in Hall as [Hseg Hall].
    destruct (plain_segment_name _ Hseg) as (Hne & Hdot & Hslash & _).
    cbn [foldl]. rewrite div_name by done. rewrite IH by done.
    cbn [Path.anchor Path.parts]. by rewrite <- app_assoc.
Qed.

Lemma Forall_removelast {A} (P : A -> Prop) (l : list A) :
  Forall P l -> Forall P (removelast l).
Proof.
  induction 1 as [|x l Hx Hl IH]; [done|]. simpl.
  destruct l; [done|]. by constructor.
Qed.

(** The path that the code computes is the nested one: for an EC number
    made of plain segments joined by dots, the segments but the last are
    the directories and the whole EC number with ".txt" is the file. *)
Lemma enzyme_cache_file_nested (root : Path.t) (segments : list string) :
  segments <> [] ->
  Forall (fun seg => plain_segment seg = true) segments ->
  enzyme_cache_file root (Str.join "." segments) = nested_cache_file root segments.
Proof.
  intros Hne Hall. unfold enzyme_cache_file, nested_cache_file.
  assert (Forall (fun seg =>
                    all_chars (fun a => negb (bool_decide (a = "."%char))) seg
                    = true) segments) as Hdots.
  { eapply Forall_impl; [exact Hall|]. intros seg Hseg.
    by destruct (plain_segment_name _ Hseg) as (_ & _ & _ & ?). }
  assert (Forall (fun seg =>
                    all_chars (fun a => negb (bool_decide (a = "/"%char))) seg
                    = true) segments) as Hslashes.
  { eapply Forall_impl; [exact Hall|]. intros seg Hseg.
    by destruct (plain_segment_name _ Hseg) as (_ & _ & ? & _). }
  rewrite (split_join "." segments Hne Hdots).
  rewrite joinpath_plain by by apply Forall_removelast.
  rewrite div_name;
    [cbn [Path.anchor Path.parts]; by rewrite <- app_assoc| | |].
  - by destruct (Str.join "." segments).
  - intros E. apply (f_equal String.length) in E.
    rewrite length_app_str in E. simpl in E. lia.
  - rewrite all_chars_app. rewrite all_chars_join; [done|done|done].
Qed.

(** C8.  Under the cache root /cache the EC number 1.1.1.1 is kept in
    /cache/1/1/1/1.1.1.1.txt; in general, for an EC number made of plain
    segments joined by dots, the segments before the last one are nested
    directories under the root and the file is the whole EC number with
    ".txt".  The store and the lookup use the same path: [fetch_enzyme]
    writes its response to that file and to no other; the lookup
    [_get_enzyme_from_cache] is a miss exactly when there is no file at
    that path, so after a store it is a hit. *)
Theorem enzyme_cache_file_shared :
  enzyme_cache_file (Path.of_string "/cache") "1.1.1.1"
  = "/cache/1/1/1/1.1.1.1.txt"
  /\
  (forall (root : Path.t) (segments : list string),
     segments <> [] ->
     Forall (fun seg => plain_segment seg = true) segments ->
     enzyme_cache_file root (Str.join "." segments)
     = nested_cache_file root segments)
  /\
  (forall (fuel : nat) (cache_path : Path.t) (ec_number : string)
          (w w' : World) (genes : list GetSequences.Row),
     GetSequences.fetch_enzyme fuel (Some cache_path) ec_number w
     = Return (Some genes) w' ->
     (exists content : string,
        files w' = <[enzyme_cache_file cache_path ec_number := content]> (files w)
        /\ GetSequences.parse_genes ec_number content = inr genes)
     /\ GetSequences._get_enzyme_from_cache cache_path ec_number w'
        <> Return None w')
  /\
  (forall (cache_path : Path.t) (ec_number : string) (w : World),
     GetSequences._get_enzyme_from_cache cache_path ec_number w = Return None w
     <-> files w !! enzyme_cache_file cache_path ec_number = None).
Proof.
  assert (forall (cache_path : Path.t) (ec_number : string) (w : World),
            GetSequences._get_enzyme_from_cache cache_path ec_number w
            = Return None w
            <-> files w !! enzyme_cache_file cache_path ec_number = None)
    as Hlookup.
  { intros cache_path ec_number w. rewrite get_enzyme_from_cache_run.
    destruct (files w !! enzyme_cache_file cache_path ec_number) as [content|];
      [|done].
    by destruct (GetSequences.parse_genes ec_number content). }
  split; [reflexivity|]. split; [apply enzyme_cache_file_nested|].
  split; [|exact Hlookup].
  intros fuel cache_path ec_number w w' genes H.
  destruct (fetch_enzyme_stores _ _ _ _ _ _ H) as (content & Hfiles & Hparse).
  split; [by exists content|].
  rewrite Hlookup, Hfiles, lookup_insert_eq. done.
Qed.

Lemma enzyme_cache_file_shared_witness :
  enzyme_cache_file (Path.of_string "/cache/enzyme")
    (Str.join "." ["2"; "7"; "1"; "1"])
  = nested_cache_file (Path.of_string "/cache/enzyme") ["2"; "7"; "1"; "1"]
  /\ GetSequences.fetch_enzyme 0 (Some (Path.of_string "/cache")) "1.1.1.1"
       world_with_enzyme
     = Return (Some [["1.1.1.1"; "hsa"; "124"]; ["1.1.1.1"; "eco"; "b1241"]])
         (add_file "/cache/1/1/1/1.1.1.1.txt" enzyme_example
            (answered "/get/ec:1.1.1.1" world_with_enzyme))
  /\ GetSequences._get_enzyme_from_cache (Path.of_string "/cache") "1.1.1.1"
       (add_file "/cache/1/1/1/1.1.1.1.txt" enzyme_example
          (answered "/get/ec:1.1.1.1" world_with_enzyme))
     <> Return None
          (add_file "/cache/1/1/1/1.1.1.1.txt" enzyme_example
             (answered "/get/ec:1.1.1.1" world_with_enzyme))
  /\ GetSequences._get_enzyme_from_cache (Path.of_string "/cache") "1.1.1.1"
       world_with_enzyme
     = Return None world_with_enzyme.
Proof.
  destruct enzyme_cache_file_shared as (_ & Hnested & Hshared & Hlookup).
  assert (GetSequences.fetch_enzyme 0 (Some (Path.of_string "/cache"))
            "1.1.1.1" world_with_enzyme
          = Return (Some [["1.1.1.1"; "hsa"; "124"]; ["1.1.1.1"; "eco"; "b1241"]])
              (add_file "/cache/1/1/1/1.1.1.1.txt" enzyme_example
                 (answered "/get/ec:1.1.1.1" world_with_enzyme)))
    as H by (vm_compute; reflexivity).
  split; [apply Hnested; [done|]; repeat constructor|].
  split; [exact H|]. split; [exact (proj2 (Hshared _ _ _ _ _ _ H))|].
  apply Hlookup. reflexivity.
Defined.

(** * Further properties of the scripts *)

(** ** [fetch_with_retry]: what a call does to the world *)

Lemma retry_loop_accounting (path : string) (fuel : nat) :
  forall (r r' : Response) (s : Float.t) (w w' : World),
    retry_loop fuel path r s w = Return r' w' ->
    exists n : nat,
      requests w' = repeat path n ++ requests w
      /\ slept w' = rev (backoff s n) ++ slept w
      /\ Forall Float.finite (backoff s n)
      /\ draws w' = draws w
      /\ files w' = files w.
Proof.
  induction fuel as [|fuel IH]; intros r r' s w w';
    destruct (Z.eq_dec (status_code r) 403%Z) as [E|E];
    try (rewrite retry_loop_done by done; intros [= _ <-]; by exists 0).
  - simpl. by rewrite E.
  - destruct s as [q|]; [|by rewrite retry_loop_hangs].
    rewrite retry_loop_step by done. intros H.
    apply IH in H as (n & Hq & Hs & Hfin & Hd & Hf).
    exists (S n). rewrite Hq, Hs, Hd, Hf. unfold after_round.
    split; [by destruct (environ_DEBUG w); simpl; rewrite repeat_snoc_app|].
    split; [by destruct (environ_DEBUG w); simpl; rewrite <- app_assoc|].
    split; [constructor; [by eexists|done]|].
    by destruct (environ_DEBUG w).
Qed.

Lemma fetch_with_retry_requests (fuel : nat) (path : string) (w w' : World)
  (r : Response) :
  fetch_with_retry fuel path w = Return r w' ->
  exists n : nat,
    requests w' = repeat path (S n) ++ requests w /\ files w' = files w.
Proof.
  unfold fetch_with_retry, bind, client_get, random. intros E.
  apply retry_loop_accounting in E as (n & Hq & _ & _ & _ & Hf).
  exists n. simpl in *. rewrite Hq, Hf. by rewrite repeat_snoc_app.
Qed.

(** X1.  When a call of [fetch_with_retry] returns, it has drawn one
    random number, sent all its requests to the one path, and slept once
    between two requests, each time for a finite duration: the binary64
    sum [4 + random() * 2] the first time and the double of the duration
    before each next time.  The cache is as it was, and the response is
    no rejection. *)
Theorem fetch_with_retry_accounting (fuel : nat) (path : string)
  (w w' : World) (r : Response) :
  fetch_with_retry fuel path w = Return r w' ->
  exists n : nat,
    requests w' = repeat path (S n) ++ requests w
    /\ slept w' = rev (backoff (first_sleep w) n) ++ slept w
    /\ Forall Float.finite (backoff (first_sleep w) n)
    /\ draws w' = S (draws w)
    /\ files w' = files w
    /\ status_code r <> 403%Z.
Proof.
  intros E. pose proof (fetch_with_retry_not_403 _ _ _ _ _ E) as Hstatus.
  unfold fetch_with_retry, bind, client_get, random in E.
  apply retry_loop_accounting in E as (n & Hq & Hs & Hfin & Hd & Hf).
  exists n. simpl in *. rewrite Hq, Hs, Hd, Hf.
  split; [by rewrite repeat_snoc_app|]. done.
Qed.

Lemma fetch_with_retry_accounting_witness :
  exists n : nat,
    ["/get/hsa00010"; "/get/hsa00010"; "/get/hsa00010"]
    = repeat "/get/hsa00010" (S n) ++ requests world_rejecting_twice
    /\ [Float.Finite 10; Float.Finite 5]
       = rev (backoff (first_sleep world_rejecting_twice) n)
         ++ slept world_rejecting_twice
    /\ Forall Float.finite (backoff (first_sleep world_rejecting_twice) n)
    /\ 1 = S (draws world_rejecting_twice)
    /\ (∅ : gmap string string) = files world_rejecting_twice
    /\ status_code (MkResponse 200 "ok") <> 403%Z.
Proof.
  apply (fetch_with_retry_accounting 2 "/get/hsa00010" world_rejecting_twice
           (MkWorld rejecting_twice
              ["/get/hsa00010"; "/get/hsa00010"; "/get/hsa00010"]
              (fun _ => 1 # 2) 1 [Float.Finite 10; Float.Finite 5] ∅ []
              false false)).
  vm_compute; reflexivity.
Defined.

Lemma retry_loop_rejected_forever (path : string) (fuel : nat) :
  forall (r : Response) (s : Float.t) (w : World),
    status_code r = 403%Z ->
    (forall n : nat, status_code (api w n path) = 403%Z) ->
    retry_loop fuel path r s w = OutOfFuel.
Proof.
  induction fuel as [|fuel IH]; intros r s w Hr Hall.
  - simpl. by rewrite Hr.
  - destruct s as [q|]; [|by rewrite retry_loop_hangs].
    rewrite retry_loop_step by done. apply IH; [apply Hall|].
    intros n. unfold after_round. destruct (environ_DEBUG w); apply Hall.
Qed.

(** X2.  The 403 loop has no bound of its own: against a server that rejects
    every request, [fetch_with_retry] has not returned after any number of
    rounds. *)
Theorem fetch_with_retry_never_gives_up :
  forall (fuel : nat) (path : string) (w : World),
    (forall n : nat, status_code (api w n path) = 403%Z) ->
    fetch_with_retry fuel path w = OutOfFuel.
Proof.
  intros fuel path w Hall. unfold fetch_with_retry, bind, client_get, random.
  apply retry_loop_rejected_forever; simpl; auto.
Qed.

Lemma fetch_with_retry_never_gives_up_witness :
  fetch_with_retry 1000 "/get/hsa00010" world_always_rejecting = OutOfFuel.
Proof.
  apply (fetch_with_retry_never_gives_up 1000 "/get/hsa00010"
           world_always_rejecting).
  intros n. reflexivity.
Defined.

(** X3.  After [k] rejections and one other answer, that answer is returned
    after [k + 1] requests and [k] sleeps, of the binary64 sum
    [4 + random() * 2] and of the double of the duration before each next
    time, provided these durations are finite and the loop is given [k]
    rounds. *)
Theorem fetch_with_retry_after_rejections :
  forall (path : string) (k fuel : nat) (w : World),
    k <= fuel ->
    (forall i, i < k ->
       status_code (api w (length (requests w) + i) path) = 403%Z) ->
    status_code (api w (length (requests w) + k) path) <> 403%Z ->
    Forall Float.finite (backoff (first_sleep w) k) ->
    exists w' : World,
      fetch_with_retry fuel path w
      = Return (api w (length (requests w) + k) path) w'
      /\ slept w' = rev (backoff (first_sleep w) k) ++ slept w
      /\ requests w' = repeat path (S k) ++ requests w.
Proof.
  intros path k fuel w Hfuel H403 Hlast Hfin.
  destruct (fetch_with_retry_backoff path k fuel w Hfuel H403 Hlast Hfin)
    as (w' & Hrun & Hs & Hq & _).
  by exists w'.
Qed.

Lemma fetch_with_retry_after_rejections_witness :
  exists w' : World,
    fetch_with_retry 2 "/get/hsa00010" world_rejecting_twice
    = Return (MkResponse 200 "ok") w'
    /\ slept w' = [Float.Finite 10; Float.Finite 5]
    /\ requests w' = ["/get/hsa00010"; "/get/hsa00010"; "/get/hsa00010"].
Proof.
  apply (fetch_with_retry_after_rejections "/get/hsa00010" 2 2
           world_rejecting_twice).
  - lia.
  - intros [|[|i]] Hi; [reflexivity|reflexivity|lia].
  - by vm_compute.
  - vm_compute. repeat constructor; by eexists.
Defined.

(** ** The text that a match covers *)

Lemma consumed_refl (c : cursor) : consumed c c "".
Proof. by split. Qed.

Lemma consumed_trans (c c1 c2 : cursor) (s1 s2 : string) :
  consumed c c1 s1 -> consumed c1 c2 s2 -> consumed c c2 (s1 +:+ s2).
Proof.
  intros [Ha1 Hb1] [Ha2 Hb2]. split.
  - by rewrite Ha1, Ha2, app_assoc_str.
  - by rewrite Hb2, Hb1, rev_app_app.
Qed.

Lemma consumed_span (c c' : cursor) (s : string) :
  consumed c c' s -> span c c' = s.
Proof.
  intros [Ha Hb]. unfold span, pos.
  by rewrite Hb, Ha, length_rev_app, Nat.add_sub, take_app_length.
Qed.

Lemma eat_consumed (s : string) :
  forall c c' : cursor, eat s c = Some c' -> consumed c c' s.
Proof.
  induction s as [|a s IH]; intros c c'; cbn [eat].
  - intros [= ->]. apply consumed_refl.
  - destruct (ahead c) as [|b rest] eqn:E; [done|].
    destruct (decide (a = b)) as [<-|]; [|done].
    intros H. apply IH in H as [Ha Hb]. cbn [ahead behind] in Ha, Hb.
    split; [by rewrite E, Ha|by rewrite Hb].
Qed.

Lemma app_not_nil_l (s t : string) : s <> "" -> s +:+ t <> "".
Proof. by destruct s. Qed.

Lemma matches_group (n : nat) (r : regex) (c : cursor) (g : groups) :
  matches (Group n r) c g
  = map (fun cg => (cg.1, set_group n (span c cg.1) cg.2)) (matches r c g).
Proof. reflexivity. Qed.

Lemma matches_plus (r : regex) (c : cursor) (g : groups) :
  matches (Plus r) c g = plus_loop (matches r) (S (String.length (ahead c))) c g.
Proof. reflexivity. Qed.

Lemma matches_lit (s : string) (c : cursor) (g : groups) :
  matches (Lit s) c g = match eat s c with Some c' => [(c', g)] | None => [] end.
Proof. reflexivity. Qed.

Lemma matches_class_consumed (p : ascii -> bool) (c : cursor) (g : groups)
  (cg : cursor * groups) :
  cg ∈ matches (Class p) c g ->
  exists a : ascii, p a = true /\ cg.2 = g /\ consumed c cg.1 (String a "").
Proof.
  cbn [matches]. destruct (ahead c) as [|a rest] eqn:E;
    [intros H; by apply elem_of_nil in H|].
  destruct (p a) eqn:Ha; [|intros H; by apply elem_of_nil in H].
  intros ->%list_elem_of_singleton. exists a. by repeat split.
Qed.

(** A greedy run over a class covers at least one character, and only
    characters of the class. *)
Lemma matches_plus_class (p : ascii -> bool) (c : cursor) (g : groups)
  (cg : cursor * groups) :
  cg ∈ matches (Plus (Class p)) c g ->
  exists s : string,
    s <> "" /\ all_chars p s = true /\ cg.2 = g /\ consumed c cg.1 s.
Proof.
  rewrite matches_plus. generalize (S (String.length (ahead c))). intros fuel.
  revert c cg. induction fuel as [|fuel IH]; intros c cg H.
  - by apply elem_of_nil in H.
  - rewrite plus_loop_step in H.
    apply list_elem_of_In, in_flat_map in H as (mid & Hmid & H).
    apply list_elem_of_In in Hmid, H.
    apply matches_class_consumed in Hmid as (a & Ha & Hg & H1).
    apply elem_of_app in H as [H|H].
    + destruct (_ <? _); [|by apply elem_of_nil in H].
      rewrite Hg in H. apply IH in H as (s2 & _ & Hall & Hg2 & H2).
      exists (String a "" +:+ s2). split; [done|].
      split; [simpl; by rewrite Ha|]. split; [done|].
      by eapply consumed_trans.
    + apply list_elem_of_singleton in H as ->.
      exists (String a ""). split; [done|]. split; [simpl; by rewrite Ha|done].
Qed.

(** In every way of matching, the cursor has moved over a stretch of the
    text ahead. *)
Lemma matches_consumed (r : regex) :
  forall (c : cursor) (g : groups) (cg : cursor * groups),
    cg ∈ matches r c g -> exists s : string, consumed c cg.1 s.
Proof.
  induction r as [|s|p|r1 IH1 r2 IH2|r1 IH1 r2 IH2|r IH|n r IH|s|r IH|];
    intros c g cg H.
  - apply list_elem_of_singleton in H as ->. exists "". apply consumed_refl.
  - rewrite matches_lit in H.
    destruct (eat s c) as [c'|] eqn:E; [|by apply elem_of_nil in H].
    apply list_elem_of_singleton in H as ->. exists s. by apply eat_consumed.
  - apply matches_class_consumed in H as (a & _ & _ & H). by exists (String a "").
  - rewrite matches_cat in H.
    apply list_elem_of_In, in_flat_map in H as (mid & Hmid & H).
    apply list_elem_of_In in Hmid, H.
    apply IH1 in Hmid as [s1 H1]. apply IH2 in H as [s2 H2].
    exists (s1 +:+ s2). by eapply consumed_trans.
  - cbn [matches] in H. apply elem_of_app in H as [H|H]; eauto.
  - rewrite matches_plus in H. revert H.
    generalize (S (String.length (ahead c))). intros fuel. revert c g cg.
    induction fuel as [|fuel IHf]; intros c g cg H.
    + by apply elem_of_nil in H.
    + rewrite plus_loop_step in H.
      apply list_elem_of_In, in_flat_map in H as (mid & Hmid & H).
      apply list_elem_of_In in Hmid, H. apply IH in Hmid as [s1 H1].
      apply elem_of_app in H as [H|H].
      * destruct (_ <? _); [|by apply elem_of_nil in H].
        apply IHf in H as [s2 H2]. exists (s1 +:+ s2). by eapply consumed_trans.
      * apply list_elem_of_singleton in H as ->. by exists s1.
  - rewrite matches_group in H.
    apply list_elem_of_fmap in H as (mid & -> & H). cbn [fst]. by eapply IH.
  - cbn [matches] in H. destruct (Str.startswith _ _); [|by apply elem_of_nil in H].
    apply list_elem_of_singleton in H as ->. exists "". apply consumed_refl.
  - cbn [matches] in H. destruct (matches r c g); [by apply elem_of_nil in H|].
    apply list_elem_of_singleton in H as ->. exists "". apply consumed_refl.
  - assert (cg = (c, g)) as ->; [|exists ""; apply consumed_refl].
    cbn [matches] in H. destruct (ahead c) as [|a [|b rest]].
    + by apply list_elem_of_singleton in H.
    + destruct a as [[] [] [] [] [] [] [] []];
        first [by apply elem_of_nil in H | by apply list_elem_of_singleton in H].
    + destruct a as [[] [] [] [] [] [] [] []]; by apply elem_of_nil in H.
Qed.

(** [m.group(0)] is the text between the start and the end of the match. *)
Lemma match_here_consumed (r : regex) (c : cursor) (m : Match) :
  match_here r c = Some m -> consumed c (m_end m) (group0 m).
Proof.
  unfold match_here. destruct (matches r c []) as [|cg l] eqn:E; [done|].
  intros [= <-]. cbn [group0 m_end].
  destruct (matches_consumed r c [] cg) as [s Hs]; [rewrite E; left|].
  by rewrite (consumed_span _ _ _ Hs).
Qed.

Lemma search_from_found (r : regex) (ah : string) :
  forall (bh : string) (m : Match),
    search_from r bh ah = Some m ->
    exists bh' ah' : string, match_here r (Cursor bh' ah') = Some m.
Proof.
  induction ah as [|a ah IH]; intros bh m; cbn [search_from].
  - destruct (match_here r (Cursor bh "")) eqn:E; [|done].
    intros [= <-]. eauto.
  - destruct (match_here r (Cursor bh (String a ah))) eqn:E.
    + intros [= <-]. eauto.
    + apply IH.
Qed.

(** ** Deleting the runs of a class of characters *)

Lemma matches_plus_class_none (p : ascii -> bool) (bh rest : string) (a : ascii)
  (g : groups) :
  p a = false -> matches (Plus (Class p)) (Cursor bh (String a rest)) g = [].
Proof.
  intros Ha. by rewrite matches_plus, plus_loop_step, matches_class_cons, Ha.
Qed.

Lemma matches_plus_class_some (p : ascii -> bool) (bh rest : string) (a : ascii)
  (g : groups) :
  p a = true -> matches (Plus (Class p)) (Cursor bh (String a rest)) g <> [].
Proof.
  intros Ha. rewrite matches_plus, plus_loop_step, matches_class_cons, Ha.
  cbn [flat_map]. rewrite app_nil_r. intros H.
  by apply app_eq_nil in H as [_ ?].
Qed.

Lemma delete_from_skip (r : regex) (bh rest : string) (a : ascii) (k : nat) :
  delete_from r bh (String a rest) (S k) = delete_from r (String a bh) rest k.
Proof. reflexivity. Qed.

Lemma delete_from_here (r : regex) (bh rest : string) (a : ascii) :
  delete_from r bh (String a rest) 0
  = match match_here r (Cursor bh (String a rest)) with
    | Some m =>
        match String.length (group0 m) with
        | O => String a (delete_from r (String a bh) rest 0)
        | S k => delete_from r (String a bh) rest k
        end
    | None => String a (delete_from r (String a bh) rest 0)
    end.
Proof. cbn [delete_from]. by destruct (match_here _ _). Qed.

Lemma keep_ext (p q : ascii -> bool) (s : string) :
  (forall a, p a = q a) -> keep p s = keep q s.
Proof.
  intros H. induction s as [|a s IH]; [done|]. simpl. by rewrite H, IH.
Qed.

Lemma all_chars_keep (p : ascii -> bool) (s : string) :
  all_chars p (keep p s) = true.
Proof.
  induction s as [|a s IH]; [done|]. simpl.
  destruct (p a) eqn:Ha; [simpl; by rewrite Ha|done].
Qed.

Lemma keep_all (p : ascii -> bool) (s : string) :
  keep p s = s <-> all_chars p s = true.
Proof.
  split.
  - intros <-. apply all_chars_keep.
  - induction s as [|a s IH]; [done|]. simpl.
    destruct (p a); [|done]. simpl. intros H. by rewrite IH.
Qed.

(** Deleting the runs of the characters of a class leaves the other
    characters, in their order.  [skip] characters of a run found earlier
    are still ahead. *)
Lemma delete_from_plus_class (p : ascii -> bool) (ah : string) :
  forall (bh : string) (skip : nat) (s t : string),
    ah = s +:+ t -> String.length s = skip -> all_chars p s = true ->
    delete_from (Plus (Class p)) bh ah skip = keep (fun a => negb (p a)) ah.
Proof.
  induction ah as [|a rest IH]; intros bh skip s t Hah Hlen Hall.
  - by destruct skip.
  - destruct skip as [|k].
    + rewrite delete_from_here. cbn [keep]. destruct (p a) eqn:Ha.
      * unfold match_here.
        destruct (matches (Plus (Class p)) (Cursor bh (String a rest)) [])
          as [|cg l] eqn:E; [by apply matches_plus_class_some in E|].
        destruct (matches_plus_class p (Cursor bh (String a rest)) [] cg)
          as (s' & Hne & Hall' & _ & Hcons); [rewrite E; left|].
        cbn [group0]. rewrite (consumed_span _ _ _ Hcons).
        destruct Hcons as [Hcons _]. cbn [ahead] in Hcons.
        destruct s' as [|a' s'']; [done|]. simpl in Hcons, Hall'.
        injection Hcons as <- ->. apply andb_true_iff in Hall' as [_ Hall'].
        cbn [String.length negb]. by apply (IH _ _ s'' (ahead cg.1)).
      * unfold match_here. rewrite matches_plus_class_none by done.
        cbn [negb]. f_equal. by apply (IH _ _ "" rest).
    + destruct s as [|a' s']; [done|]. simpl in Hah, Hlen, Hall.
      injection Hah as <- ->. injection Hlen as Hlen.
      apply andb_true_iff in Hall as [Ha Hall].
      rewrite delete_from_skip. cbn [keep]. rewrite Ha. cbn [negb].
      by apply (IH _ _ s' t).
Qed.

Lemma delete_not_upper (s : string) : delete regex_not_upper s = keep upper s.
Proof.
  unfold delete, regex_not_upper.
  rewrite (delete_from_plus_class not_upper s "" 0 "" s) by done.
  apply keep_ext. intros a. unfold not_upper, upper. apply negb_involutive.
Qed.

(** ** Patterns with two groups *)

Lemma lookup_two_groups (s1 s2 : string) (g : groups) :
  lookup_group 1 (set_group 2 s2 (set_group 1 s1 g)) = Some s1
  /\ lookup_group 2 (set_group 2 s2 (set_group 1 s1 g)) = Some s2.
Proof.
  unfold set_group. cbn. by repeat case_decide.
Qed.

(** Where the pattern [(p1+)l(p2+)] matches, neither group is empty, each
    holds characters of its class only, and the match is the first group,
    the literal and the second group. *)
Lemma matches_two_groups (p1 p2 : ascii -> bool) (l : string) (c : cursor)
  (g0 : groups) (cg : cursor * groups) :
  cg ∈ matches
         (Cat (Group 1 (Plus (Class p1)))
            (Cat (Lit l) (Group 2 (Plus (Class p2))))) c g0 ->
  exists s1 s2 : string,
    s1 <> "" /\ all_chars p1 s1 = true /\ s2 <> "" /\ all_chars p2 s2 = true
    /\ lookup_group 1 cg.2 = Some s1 /\ lookup_group 2 cg.2 = Some s2
    /\ consumed c cg.1 (s1 +:+ l +:+ s2).
Proof.
  rewrite matches_cat. intros H.
  apply list_elem_of_In, in_flat_map in H as (cg1 & H1 & H).
  apply list_elem_of_In in H1, H. rewrite matches_group in H1.
  apply list_elem_of_fmap in H1 as (m1 & -> & H1).
  apply matches_plus_class in H1 as (s1 & Hne1 & Hall1 & Hg1 & Hc1).
  cbn [fst snd] in H. rewrite Hg1, (consumed_span _ _ _ Hc1) in H.
  rewrite matches_cat in H.
  apply list_elem_of_In, in_flat_map in H as (cg2 & H2 & H).
  apply list_elem_of_In in H2, H. rewrite matches_lit in H2.
  destruct (eat l m1.1) as [c2|] eqn:E; [|by apply elem_of_nil in H2].
  apply list_elem_of_singleton in H2 as ->. apply eat_consumed in E.
  cbn [fst snd] in H. rewrite matches_group in H.
  apply list_elem_of_fmap in H as (m3 & -> & H3).
  apply matches_plus_class in H3 as (s2 & Hne2 & Hall2 & Hg3 & Hc3).
  cbn [fst snd]. rewrite Hg3, (consumed_span _ _ _ Hc3).
  exists s1, s2. destruct (lookup_two_groups s1 s2 g0) as [L1 L2].
  repeat split; try done.
  - apply (consumed_trans _ _ _ _ _ Hc1 (consumed_trans _ _ _ _ _ E Hc3)).
  - destruct (consumed_trans _ _ _ _ _ Hc1 (consumed_trans _ _ _ _ _ E Hc3))
      as [_ ?]. done.
Qed.

Lemma fasta_match_groups (c : cursor) (m : Match) :
  match_here REGEX_FASTA c = Some m ->
  exists seq_id seq : string,
    groups2 m = (seq_id, seq)
    /\ seq_id <> "" /\ all_chars dot seq_id = true
    /\ seq <> "" /\ all_chars upper_or_nl seq = true
    /\ group0 m = ">" +:+ seq_id +:+ Str.of_char "010" +:+ seq.
Proof.
  unfold match_here. destruct (matches REGEX_FASTA c []) as [|cg l] eqn:E; [done|].
  intros [= <-]. assert (cg ∈ matches REGEX_FASTA c []) as H by (rewrite E; left).
  clear E. unfold REGEX_FASTA in H. rewrite matches_cat in H.
  apply list_elem_of_In, in_flat_map in H as (cg1 & H1 & H).
  apply list_elem_of_In in H1, H. rewrite matches_lit in H1.
  destruct (eat ">" c) as [c1|] eqn:E; [|by apply elem_of_nil in H1].
  apply list_elem_of_singleton in H1 as ->. apply eat_consumed in E.
  cbn [fst snd] in H.
  apply matches_two_groups in H
    as (s1 & s2 & Hne1 & Hall1 & Hne2 & Hall2 & L1 & L2 & Hc).
  exists s1, s2. unfold groups2, group. cbn [captured group0].
  rewrite L1, L2. repeat split; try done.
  by rewrite (consumed_span _ _ _ (consumed_trans _ _ _ _ _ E Hc)).
Qed.

Lemma gene_row_match_groups (c : cursor) (m : Match) :
  match_here regex_gene_row c = Some m ->
  exists code gene_list : string,
    groups2 m = (code, gene_list)
    /\ code <> "" /\ all_chars upper code = true
    /\ gene_list <> "" /\ all_chars dot gene_list = true.
Proof.
  unfold match_here.
  destruct (matches regex_gene_row c []) as [|cg l] eqn:E; [done|].
  intros [= <-]. assert (cg ∈ matches regex_gene_row c []) as H by (rewrite E; left).
  clear E. unfold regex_gene_row in H.
  apply matches_two_groups in H
    as (s1 & s2 & Hne1 & Hall1 & Hne2 & Hall2 & L1 & L2 & Hc).
  exists s1, s2. unfold groups2, group. cbn [captured].
  by rewrite L1, L2.
Qed.

(** ** [fetch_sequence]: the test on the groups *)

(** X4.  The test [seq_id != "" and seq != ""] of [fetch_sequence] never
    fails: wherever [REGEX_FASTA] is found, both groups hold at least one
    character.  So a response is accepted exactly when the pattern is
    found in it. *)
Theorem fasta_groups_never_empty (content : string) :
  located content = bool_decide (is_Some (search REGEX_FASTA content)).
Proof.
  unfold located, search.
  destruct (search_from REGEX_FASTA "" content) as [m|] eqn:E; cbn [groups_of].
  - apply search_from_found in E as (bh & ah & E).
    apply fasta_match_groups in E as (s1 & s2 & -> & Hne1 & _ & Hne2 & _).
    rewrite !bool_decide_eq_true_2; [done|by eexists|done|done].
  - symmetry. apply bool_decide_eq_false_2. by intros [? ?].
Qed.

(** ** [fetch_sequence] and [fetch_enzyme]: results and the cache *)

Lemma fetch_sequence_attempts_spec (fuel n : nat) (api_path : string) :
  forall w : World,
    match GetSequences.fetch_sequence_attempts fuel n api_path w with
    | Return found w' =>
        untouched w w'
        /\ match found with
           | Some (response, seq_id, seq) =>
               groups_of (search REGEX_FASTA (text response)) = inr (seq_id, seq)
           | None => True
           end
    | Raise _ _ => False
    | OutOfFuel => True
    end.
Proof.
  induction n as [|n IH]; intros w; cbn [GetSequences.fetch_sequence_attempts].
  - split; [apply untouched_refl|done].
  - unfold bind at 1.
    pose proof (fetch_with_retry_untouched fuel api_path w) as Hu.
    destruct (fetch_with_retry fuel api_path w) as [r w1| |]; [|done..].
    assert (match GetSequences.fetch_sequence_attempts fuel n api_path w1 with
            | Return found w' =>
                untouched w w'
                /\ match found with
                   | Some (response, seq_id, seq) =>
                       groups_of (search REGEX_FASTA (text response))
                       = inr (seq_id, seq)
                   | None => True
                   end
            | Raise _ _ => False
            | OutOfFuel => True
            end) as Hrec.
    { specialize (IH w1).
      destruct (GetSequences.fetch_sequence_attempts fuel n api_path w1)
        as [found w2| |]; [|done..].
      destruct IH as [Hu' ?]. split; [by eapply untouched_trans|done]. }
    destruct (groups_of (search REGEX_FASTA (text r))) as [e|[seq_id seq]] eqn:G.
    + apply groups_of_error in G as ->. exact Hrec.
    + destruct (_ && _); [|exact Hrec]. by split.
Qed.

Lemma fetch_sequence_inv (fuel : nat) (cache_path : option Path.t)
  (sequence s : GetSequences.Sequence) (seq_id seq : string) (w w' : World) :
  GetSequences.fetch_sequence fuel cache_path sequence w
  = Return (Some (s, seq_id, seq)) w' ->
  exists (response : Response) (raw : string),
    s = sequence /\ seq = delete regex_not_upper raw
    /\ groups_of (search REGEX_FASTA (text response)) = inr (seq_id, raw)
    /\ files w'
       = match cache_path with
         | Some p => <[sequence_cache_file p sequence := text response]> (files w)
         | None => files w
         end.
Proof.
  unfold GetSequences.fetch_sequence. intros H.
  apply bind_inv in H as (found & w1 & Hf & H).
  pose proof (fetch_sequence_attempts_spec fuel 3
    ("/get/" +:+ GetSequences.organism sequence +:+ ":"
     +:+ GetSequences.id sequence +:+ "/aaseq") w) as Hs.
  rewrite Hf in Hs. destruct Hs as [(Hfiles & _) Hs].
  destruct found as [[[response seq_id'] raw]|].
  - apply bind_inv in H as ([] & w2 & Hw & H).
    apply bind_inv in H as (dbg & w3 & Hd & H).
    apply bind_inv in H as ([] & w4 & Hp & H).
    injection Hd as <- <-. injection H as <- <- <- <-.
    exists response, raw. repeat split; [done|].
    assert (files w4 = files w2) as ->.
    { destruct (DEBUG w2); by injection Hp as <-. }
    destruct cache_path as [p|]; injection Hw as <-; cbn [files add_file];
      by rewrite Hfiles.
  - apply bind_inv in H as ([] & w2 & _ & H). done.
Qed.

(** X5.  The sequence that [fetch_sequence] hands back is its own argument
    with a header that is not empty and holds no line break, and a body
    made of capital letters only: the capital letters of the second group,
    in their order. *)
Theorem fetch_sequence_capitals_only (fuel : nat) (cache_path : option Path.t)
  (sequence s : GetSequences.Sequence) (seq_id seq : string) (w w' : World) :
  GetSequences.fetch_sequence fuel cache_path sequence w
  = Return (Some (s, seq_id, seq)) w' ->
  s = sequence
  /\ seq_id <> "" /\ all_chars dot seq_id = true
  /\ all_chars upper seq = true
  /\ exists (response : Response) (raw : string),
       groups_of (search REGEX_FASTA (text response)) = inr (seq_id, raw)
       /\ seq = keep upper raw.
Proof.
  intros H. apply fetch_sequence_inv in H as (response & raw & -> & -> & G & _).
  rewrite delete_not_upper. split; [done|].
  assert (seq_id <> "" /\ all_chars dot seq_id = true) as [? ?].
  { unfold groups_of, search in G.
    destruct (search_from REGEX_FASTA "" (text response)) as [m|] eqn:E; [|done].
    apply search_from_found in E as (bh & ah & E).
    apply fasta_match_groups in E as (s1 & s2 & E & ? & ? & _).
    rewrite E in G. by injection G as <- <-. }
  repeat split; [done..|apply all_chars_keep|by exists response, raw].
Qed.

Lemma fetch_sequence_capitals_only_witness :
  GetSequences.MkSequence "hsa" "124" = GetSequences.MkSequence "hsa" "124"
  /\ "hsa:124 K13951 alcohol dehydrogenase" <> ""
  /\ all_chars dot "hsa:124 K13951 alcohol dehydrogenase" = true
  /\ all_chars upper "MSTAGKVIKCKAAVLWE" = true
  /\ exists (response : Response) (raw : string),
       groups_of (search REGEX_FASTA (text response))
       = inr ("hsa:124 K13951 alcohol dehydrogenase", raw)
       /\ "MSTAGKVIKCKAAVLWE" = keep upper raw.
Proof.
  apply (fetch_sequence_capitals_only 0 None (GetSequences.MkSequence "hsa" "124")
           (GetSequences.MkSequence "hsa" "124")
           "hsa:124 K13951 alcohol dehydrogenase" "MSTAGKVIKCKAAVLWE"
           world_one_sequence (answered "/get/hsa:124/aaseq" world_one_sequence)).
  vm_compute; reflexivity.
Defined.

(** X6.  When [fetch_sequence] hands a sequence back, the response is in
    the cache under the key of the sequence.  If that text holds no
    carriage return, [_get_sequence_from_cache] reads it back with the
    same header; the body read back is the second group as it stands, and
    the body fetched is what is left of it once everything but the
    capital letters is dropped.  The two are equal only if the group holds
    no line break. *)
Theorem fetch_sequence_cache_round_trip (fuel : nat) (cache_path : Path.t)
  (sequence s : GetSequences.Sequence) (seq_id seq : string) (w w' : World) :
  GetSequences.fetch_sequence fuel (Some cache_path) sequence w
  = Return (Some (s, seq_id, seq)) w' ->
  exists content : string,
    files w' !! sequence_cache_file cache_path sequence = Some content
    /\ (no_carriage_return content = true ->
        exists raw : string,
          GetSequences._get_sequence_from_cache cache_path sequence w'
          = Return (Some (sequence, seq_id, raw)) w'
          /\ seq = keep upper raw
          /\ (seq = raw <-> all_chars upper raw = true)).
Proof.
  intros H. apply fetch_sequence_inv in H as (response & raw & -> & -> & G & Hf).
  exists (text response). rewrite Hf, lookup_insert_eq. split; [done|].
  intros _. exists raw.
  rewrite delete_not_upper, get_sequence_from_cache_run, Hf.
  rewrite lookup_insert_eq, G. repeat split; [apply keep_all..].
Qed.

Lemma fetch_sequence_cache_round_trip_witness :
  exists raw : string,
    GetSequences._get_sequence_from_cache (Path.of_string "/cache/aaseq")
      (GetSequences.MkSequence "hsa" "124") world_sequence_fetched
    = Return
        (Some (GetSequences.MkSequence "hsa" "124",
               "hsa:124 K13951 alcohol dehydrogenase", raw))
        world_sequence_fetched
    /\ "MSTAGKVIKCKAAVLWE" = keep upper raw
    /\ ("MSTAGKVIKCKAAVLWE" = raw <-> all_chars upper raw = true).
Proof.
  assert (GetSequences.fetch_sequence 0 (Some (Path.of_string "/cache/aaseq"))
            (GetSequences.MkSequence "hsa" "124") world_one_sequence
          = Return
              (Some (GetSequences.MkSequence "hsa" "124",
                     "hsa:124 K13951 alcohol dehydrogenase",
                     "MSTAGKVIKCKAAVLWE"))
              world_sequence_fetched) as Hrun by (vm_compute; reflexivity).
  destruct (fetch_sequence_cache_round_trip 0 (Path.of_string "/cache/aaseq")
              (GetSequences.MkSequence "hsa" "124")
              (GetSequences.MkSequence "hsa" "124")
              "hsa:124 K13951 alcohol dehydrogenase" "MSTAGKVIKCKAAVLWE"
              world_one_sequence world_sequence_fetched Hrun)
    as (content & Hfile & Hread).
  apply Hread. vm_compute in Hfile. injection Hfile as <-.
  vm_compute; reflexivity.
Defined.

(** X7.  In [fetch_sequence] an answer in which the pattern is not found
    counts as a failed attempt: the [AttributeError] of the call of
    [groups] is caught and the next attempt follows.  So the function
    does not end with that exception, and when it gives up, the cache is
    as it was before the call. *)
Theorem fetch_sequence_failed_attempt (fuel : nat) :
  (forall (n : nat) (api_path : string) (w w1 : World) (r : Response),
     fetch_with_retry fuel api_path w = Return r w1 ->
     search REGEX_FASTA (text r) = None ->
     GetSequences.fetch_sequence_attempts fuel (S n) api_path w
     = GetSequences.fetch_sequence_attempts fuel n api_path w1)
  /\ (forall (cache_path : option Path.t) (sequence : GetSequences.Sequence)
             (w : World),
        match GetSequences.fetch_sequence fuel cache_path sequence w with
        | Return (Some _) _ => True
        | Return None w' => files w' = files w
        | Raise e _ => e <> AttributeError
        | OutOfFuel => True
        end).
Proof.
  split.
  - intros n api_path w w1 r Hr Hnone.
    cbn [GetSequences.fetch_sequence_attempts].
    rewrite (bind_return _ _ _ _ _ Hr). by rewrite Hnone.
  - intros cache_path sequence w.
    unfold GetSequences.fetch_sequence, bind at 1.
    pose proof (fetch_sequence_attempts_spec fuel 3
      ("/get/" +:+ GetSequences.organism sequence +:+ ":"
       +:+ GetSequences.id sequence +:+ "/aaseq") w) as Hs.
    destruct (GetSequences.fetch_sequence_attempts _ _ _ _)
      as [[[[response seq_id] raw]|] w1| |]; [| |done..].
    + destruct cache_path; unfold bind, write_file, ret, get_DEBUG, when, print;
        cbn [DEBUG add_file]; by destruct (DEBUG w1).
    + destruct Hs as [(Hf & _) _]. exact Hf.
Qed.

Lemma fetch_sequence_failed_attempt_witness :
  GetSequences.fetch_sequence_attempts 0 3 "/get/eco:b1241/aaseq"
    world_one_sequence
  = GetSequences.fetch_sequence_attempts 0 2 "/get/eco:b1241/aaseq"
      (answered "/get/eco:b1241/aaseq" world_one_sequence).
Proof.
  apply (proj1 (fetch_sequence_failed_attempt 0) 2 "/get/eco:b1241/aaseq"
           world_one_sequence (answered "/get/eco:b1241/aaseq" world_one_sequence)
           (MkResponse 404 ""));
    vm_compute; reflexivity.
Defined.

Lemma fetch_enzyme_attempts_expected (fuel n : nat) (ec_number : string) :
  forall (w w' : World) (response : Response),
    GetSequences.fetch_enzyme_attempts fuel n ec_number w
    = Return (Some response) w' ->
    GetSequences.expected_response ec_number response = true.
Proof.
  induction n as [|n IH]; intros w w' response;
    cbn [GetSequences.fetch_enzyme_attempts]; [done|].
  intros H. apply bind_inv in H as (r & w1 & _ & H).
  destruct (GetSequences.expected_response ec_number r) eqn:E.
  - by injection H as <- <-.
  - by eapply IH.
Qed.

(** X8.  When [fetch_enzyme] returns genes, the cache holds nothing new
    but the response that passed the test of the function, under the key
    of the EC number.  When the function gives up, the cache is as it
    was.  When it ends with the [AttributeError] of [parse_genes], the
    response has been written to the cache before. *)
Theorem fetch_enzyme_caches_validated (fuel : nat) (cache_path : Path.t)
  (ec_number : string) (w : World) :
  match GetSequences.fetch_enzyme fuel (Some cache_path) ec_number w with
  | Return (Some genes) w' =>
      stored_validated cache_path ec_number w w' (inr genes)
  | Return None w' => files w' = files w
  | Raise AttributeError w' =>
      stored_validated cache_path ec_number w w' (inl AttributeError)
  | Raise _ _ => True
  | OutOfFuel => True
  end.
Proof.
  unfold GetSequences.fetch_enzyme, bind at 1.
  pose proof (fetch_enzyme_attempts_untouched fuel 3 ec_number w) as Hu.
  destruct (GetSequences.fetch_enzyme_attempts fuel 3 ec_number w)
    as [[response|] w1| |] eqn:E; [| |done..].
  - apply fetch_enzyme_attempts_expected in E. destruct Hu as (Hf & _).
    unfold bind at 1, write_file.
    destruct (GetSequences.parse_genes ec_number (text response))
      as [e|genes] eqn:P.
    + apply parse_genes_error in P as He. subst e.
      unfold bind, lift, raise. exists response.
      cbn [files add_file]. by rewrite Hf.
    + unfold bind, lift, ret, get_DEBUG, when, print. cbn [DEBUG add_file].
      destruct (DEBUG w1); exists response; cbn [files add_file add_line];
        by rewrite Hf.
  - destruct Hu as (Hf & _). exact Hf.
Qed.

(** ** [fetch_pathway] and its cache *)

Lemma fetch_pathway_inv (fuel : nat) (cache_path : option Path.t)
  (pathway : GetEnzymes.Pathway) (w w' : World) (rows : list GetEnzymes.Row) :
  GetEnzymes.fetch_pathway fuel cache_path pathway w = Return rows w' ->
  exists response : Response,
    status_code response <> 403%Z
    /\ rows
       = map (fun n => [GetEnzymes.organism pathway; GetEnzymes.id pathway; n])
           (GetEnzymes.ec_numbers_of (text response))
    /\ requests w <> requests w'
    /\ files w'
       = match cache_path with
         | Some p => <[pathway_cache_file p pathway := text response]> (files w)
         | None => files w
         end.
Proof.
  unfold GetEnzymes.fetch_pathway. intros H.
  apply bind_inv in H as (response & w1 & Hr & H).
  pose proof (fetch_with_retry_not_403 _ _ _ _ _ Hr) as Hs.
  pose proof (fetch_with_retry_requests _ _ _ _ _ Hr) as (n & Hreq & Hf).
  apply bind_inv in H as ([] & w2 & Hw & H).
  apply bind_inv in H as (dbg & w3 & Hd & H).
  apply bind_inv in H as ([] & w4 & Hp & H).
  injection Hd as <- <-. injection H as <- <-.
  exists response. repeat split; [done|..].
  - assert (requests w4 = requests w1) as ->.
    { destruct (DEBUG w2); injection Hp as <-;
        destruct cache_path; by injection Hw as <-. }
    rewrite Hreq. cbn [repeat]. intros Heq.
    apply (f_equal (@length string)) in Heq. rewrite <- app_comm_cons in Heq.
    cbn [length] in Heq. rewrite length_app in Heq. lia.
  - assert (files w4 = files w2) as ->.
    { destruct (DEBUG w2); by injection Hp as <-. }
    destruct cache_path as [p|]; injection Hw as <-; cbn [files add_file];
      by rewrite Hf.
Qed.

(** X9.  What [fetch_pathway] has written to the cache gives, read back by
    [_get_pathway_from_cache], the rows that the call returned. *)
Theorem fetch_pathway_cache_round_trip (fuel : nat) (cache_path : Path.t)
  (pathway : GetEnzymes.Pathway) (w w' : World) (rows : list GetEnzymes.Row) :
  GetEnzymes.fetch_pathway fuel (Some cache_path) pathway w = Return rows w' ->
  GetEnzymes._get_pathway_from_cache cache_path pathway w'
  = Return (Some rows) w'.
Proof.
  intros H. apply fetch_pathway_inv in H as (response & _ & -> & _ & Hf).
  unfold GetEnzymes._get_pathway_from_cache, bind, read_file.
  fold (pathway_cache_file cache_path pathway).
  by rewrite Hf, lookup_insert_eq.
Qed.

Lemma fetch_pathway_cache_round_trip_witness :
  GetEnzymes._get_pathway_from_cache (Path.of_string "/cache/pathway")
    (GetEnzymes.MkPathway "hsa00010" "hsa")
    (add_file "/cache/pathway/hsa/hsa00010.txt" pathway_example
       (answered "/get/hsa00010" world_pathway))
  = Return
      (Some [["hsa"; "hsa00010"; "2.7.1.1"]; ["hsa"; "hsa00010"; "5.3.1.9"]])
      (add_file "/cache/pathway/hsa/hsa00010.txt" pathway_example
         (answered "/get/hsa00010" world_pathway)).
Proof.
  apply (fetch_pathway_cache_round_trip 0 (Path.of_string "/cache/pathway")
           (GetEnzymes.MkPathway "hsa00010" "hsa") world_pathway).
  vm_compute; reflexivity.
Defined.

(** X10.  [fetch_pathway] has no test on the response: the first answer
    that is not a 403, whatever its status and its text, is written to
    the cache and searched for EC numbers. *)
Theorem fetch_pathway_caches_any_answer (fuel : nat) (cache_path : Path.t)
  (pathway : GetEnzymes.Pathway) (w : World) :
  let response := api w (length (requests w)) ("/get/" +:+ GetEnzymes.id pathway) in
  status_code response <> 403%Z ->
  exists w' : World,
    GetEnzymes.fetch_pathway fuel (Some cache_path) pathway w
    = Return
        (map (fun n => [GetEnzymes.organism pathway; GetEnzymes.id pathway; n])
           (GetEnzymes.ec_numbers_of (text response))) w'
    /\ files w' !! pathway_cache_file cache_path pathway = Some (text response).
Proof.
  intros response Hs. unfold GetEnzymes.fetch_pathway.
  rewrite (bind_return _ _ _ _ _ (fetch_with_retry_first fuel _ w Hs)).
  fold response. unfold bind, write_file, get_DEBUG, when, print, ret.
  cbn [DEBUG add_file add_draw add_request].
  destruct (DEBUG w); eexists; (split; [reflexivity|]);
    cbn [files add_line]; apply lookup_insert_eq.
Qed.

Lemma fetch_pathway_caches_any_answer_witness :
  exists w' : World,
    GetEnzymes.fetch_pathway 0 (Some (Path.of_string "/cache/pathway"))
      (GetEnzymes.MkPathway "hsa00010" "hsa") world_not_found
    = Return [] w'
    /\ files w' !! "/cache/pathway/hsa/hsa00010.txt" = Some "Not Found".
Proof.
  apply (fetch_pathway_caches_any_answer 0 (Path.of_string "/cache/pathway")
           (GetEnzymes.MkPathway "hsa00010" "hsa") world_not_found).
  vm_compute. lia.
Defined.

(** ** The runs over lists *)

Lemma misses_sublist {E R} (l : list E) (rs : list (option R)) :
  misses l rs `sublist_of` l.
Proof.
  unfold misses. revert rs. induction l as [|x l IH]; intros [|[r|] rs]; cbn;
    try apply sublist_nil_l.
  - apply sublist_cons, IH.
  - apply sublist_skip, IH.
Qed.

Lemma hits_and_misses {E R} (l : list E) (rs : list (option R)) :
  length rs = length l ->
  length (misses l rs) + length (omap (fun x => x) rs) = length l.
Proof.
  unfold misses. revert rs. induction l as [|x l IH]; intros [|[r|] rs] H;
    cbn in *; try done; injection H as H; specialize (IH _ H); lia.
Qed.

Lemma fetch_cache_inv {E R} (elements : list E) (cache_path : Path.t)
  (get_function : Path.t -> E -> M (option R)) (title : option string)
  (w w' : World) (uncached : list E) (cached : list R) :
  GetSequences.fetch_cache elements cache_path get_function title w
  = Return (uncached, cached) w' ->
  exists (cache_results : list (option R)) (w1 : World),
    run_all (get_function cache_path) elements w = Return cache_results w1
    /\ uncached = misses elements cache_results
    /\ cached = omap (fun x => x) cache_results
    /\ requests w' = requests w1 /\ files w' = files w1.
Proof.
  unfold GetSequences.fetch_cache. intros H.
  apply bind_inv in H as (rs & w1 & Hrun & H).
  apply bind_inv in H as (dbg & w2 & Hd & H).
  apply bind_inv in H as ([] & w3 & Hp & H).
  injection Hd as <- <-. injection H as <- <- <-.
  exists rs, w1. repeat split; [done|..];
    destruct (DEBUG w1); by injection Hp as <-.
Qed.

(** ** [fetch_cache]: hits and misses *)

(** X11.  [fetch_cache] counts every element once, as a hit or as a miss,
    and hands back the misses in the order of the elements. *)
Theorem fetch_cache_partition {E R} (elements : list E) (cache_path : Path.t)
  (get_function : Path.t -> E -> M (option R)) (title : option string)
  (w w' : World) (uncached : list E) (cached : list R) :
  GetSequences.fetch_cache elements cache_path get_function title w
  = Return (uncached, cached) w' ->
  length uncached + length cached = length elements
  /\ uncached `sublist_of` elements.
Proof.
  intros H. apply fetch_cache_inv in H as (rs & w1 & Hrun & -> & -> & _).
  split; [|apply misses_sublist].
  apply hits_and_misses. by eapply mapM_length.
Qed.

Lemma fetch_cache_partition_witness :
  length ["1.1.1.2"] + length [enzyme_example_genes]
  = length ["1.1.1.1"; "1.1.1.2"]
  /\ ["1.1.1.2"] `sublist_of` ["1.1.1.1"; "1.1.1.2"].
Proof.
  apply (fetch_cache_partition ["1.1.1.1"; "1.1.1.2"]
           (Path.of_string "/cache/enzyme") GetSequences._get_enzyme_from_cache
           (Some "enzymes") world_all_well world_all_well).
  vm_compute; reflexivity.
Defined.

Lemma enzyme_cache_pass_run (cache_path : Path.t) (l : list string) :
  forall (w w' : World) (rs : list (option (list GetSequences.Row))),
    mapM (GetSequences._get_enzyme_from_cache cache_path) l w = Return rs w' ->
    w' = w
    /\ misses l rs
       = filter (fun ec => files w !! enzyme_cache_file cache_path ec = None) l.
Proof.
  induction l as [|x l IH]; intros w w' rs H; cbn [mapM] in H.
  - by injection H as <- <-.
  - apply bind_inv in H as (y & w1 & Hy & H).
    apply bind_inv in H as (ys & w2 & Hys & H). injection H as <- <-.
    rewrite get_enzyme_from_cache_run in Hy.
    destruct (files w !! enzyme_cache_file cache_path x) as [content|] eqn:L.
    + destruct (GetSequences.parse_genes x content); [done|].
      injection Hy as <- <-. apply IH in Hys as [-> Hm]. split; [done|].
      rewrite filter_cons_False by (by rewrite L). by rewrite <- Hm.
    + injection Hy as <- <-. apply IH in Hys as [-> Hm]. split; [done|].
      rewrite filter_cons_True by done. unfold misses in *. cbn.
      by rewrite <- Hm.
Qed.

(** X12.  The pass of the sequence job over the enzyme cache sends no
    request and writes no file, and the EC numbers it leaves to be
    fetched are those without a cache file, in the order of the input. *)
Theorem enzyme_cache_pass_misses (ec_numbers : list string)
  (cache_path : Path.t) (title : option string) (w w' : World)
  (uncached : list string) (cached : list (list GetSequences.Row)) :
  GetSequences.fetch_cache ec_numbers cache_path
    GetSequences._get_enzyme_from_cache title w
  = Return (uncached, cached) w' ->
  uncached
  = filter (fun ec => files w !! enzyme_cache_file cache_path ec = None)
      ec_numbers
  /\ requests w' = requests w /\ files w' = files w.
Proof.
  intros H. apply fetch_cache_inv in H as (rs & w1 & Hrun & -> & -> & Hr & Hf).
  apply enzyme_cache_pass_run in Hrun as [-> Hm]. by rewrite Hm.
Qed.

Lemma enzyme_cache_pass_misses_witness :
  ["1.1.1.2"]
  = filter
      (fun ec =>
         files world_all_well
         !! enzyme_cache_file (Path.of_string "/cache/enzyme") ec = None)
      ["1.1.1.1"; "1.1.1.2"]
  /\ requests world_all_well = requests world_all_well
  /\ files world_all_well = files world_all_well.
Proof.
  apply (enzyme_cache_pass_misses ["1.1.1.1"; "1.1.1.2"]
           (Path.of_string "/cache/enzyme") (Some "enzymes")
           world_all_well world_all_well ["1.1.1.2"] [enzyme_example_genes]).
  vm_compute; reflexivity.
Defined.

Lemma enzyme_cache_pass_all_hits (cache_path : Path.t) (w : World)
  (ec_numbers : list string) (cached : list (list GetSequences.Row)) :
  Forall2
    (fun ec genes =>
       exists content : string,
         files w !! enzyme_cache_file cache_path ec = Some content
         /\ GetSequences.parse_genes ec content = inr genes)
    ec_numbers cached ->
  mapM (GetSequences._get_enzyme_from_cache cache_path) ec_numbers w
  = Return (map Some cached) w.
Proof.
  induction 1 as [|ec genes l l' (content & L & P) _ IH]; [done|].
  cbn [mapM map].
  rewrite (bind_return _ _ w w (Some genes))
    by (by rewrite get_enzyme_from_cache_run, L, P).
  by rewrite (bind_return _ _ w w (map Some l')).
Qed.

Lemma misses_all_hits {E R} (l : list E) (rs : list R) :
  misses l (map Some rs) = [].
Proof.
  unfold misses. revert rs. induction l as [|x l IH]; intros [|r rs]; cbn; auto.
Qed.

Lemma omap_map_Some {R} (rs : list R) : omap (fun x => x) (map Some rs) = rs.
Proof. induction rs as [|r rs IH]; cbn; [done|by rewrite IH]. Qed.

(** ** The sequence job *)

(** X13.  Without a cache directory the sequence job stops with a
    [TypeError] at [cache_path / "enzyme"], before any request is sent
    and with nothing printed or written. *)
Theorem sequences_main_needs_cache_dir (fuel : nat) (sched : Scheduler)
  (args : GetSequences.Args) (w : World) :
  GetSequences.output_exists args && negb (GetSequences.force args) = false ->
  GetSequences.cache_path_of args = None ->
  exists w' : World,
    GetSequences.main fuel sched args w = Raise TypeError w'
    /\ requests w' = requests w /\ files w' = files w
    /\ stdout w' = stdout w.
Proof.
  intros H1 H2. unfold GetSequences.main. rewrite H1, H2.
  unfold GetSequences.gather_genes, GetSequences.div_optional.
  destruct (GetSequences.debug args); eexists; (split; [reflexivity|done]).
Qed.

Lemma sequences_main_needs_cache_dir_witness :
  exists w' : World,
    GetSequences.main 0 in_order no_cache_args world_with_enzyme
    = Raise TypeError w'
    /\ requests w' = requests world_with_enzyme
    /\ files w' = files world_with_enzyme
    /\ stdout w' = stdout world_with_enzyme.
Proof.
  apply (sequences_main_needs_cache_dir 0 in_order no_cache_args
           world_with_enzyme); reflexivity.
Defined.

(** X14.  When every EC number of the input has a cache file that can be
    parsed, the genes are gathered from the cache alone: no request is
    sent, no file is written, and the rows come in the order of the
    input. *)
Theorem gather_genes_offline (fuel : nat) (sched : Scheduler)
  (cache_path : Path.t) (ec_numbers : list string)
  (cached : list (list GetSequences.Row)) (w : World) :
  Forall2
    (fun ec genes =>
       exists content : string,
         files w !! enzyme_cache_file (cache_path /: "enzyme") ec = Some content
         /\ GetSequences.parse_genes ec content = inr genes)
    ec_numbers cached ->
  exists w' : World,
    GetSequences.gather_genes fuel sched (Some cache_path) ec_numbers w
    = Return (concat cached) w'
    /\ requests w' = requests w /\ files w' = files w.
Proof.
  intros H. apply enzyme_cache_pass_all_hits in H.
  unfold GetSequences.gather_genes, GetSequences.fetch_cache, run_all.
  assert (completion sched (option (list GetSequences.Row)) [] = []) as Hc
    by apply Permutation_nil_r, completion_perm.
  unfold bind. rewrite H. unfold get_DEBUG.
  destruct (DEBUG w); unfold when, print, ret; cbn beta iota;
    fold (@misses string (list GetSequences.Row) ec_numbers (map Some cached));
    rewrite misses_all_hits, omap_map_Some;
    unfold GetSequences.div_optional, amap, bind, ret; cbn [mapM]; unfold ret;
    rewrite Hc; cbn [omap]; rewrite app_nil_r;
    eexists; (split; [reflexivity|done]).
Qed.

Lemma gather_genes_offline_witness :
  exists w' : World,
    GetSequences.gather_genes 0 in_order (Some (Path.of_string "/cache"))
      ["1.1.1.1"] world_all_well
    = Return (concat [enzyme_example_genes]) w'
    /\ requests w' = requests world_all_well
    /\ files w' = files world_all_well.
Proof.
  apply (gather_genes_offline 0 in_order (Path.of_string "/cache") ["1.1.1.1"]
           [enzyme_example_genes] world_all_well).
  constructor; [|constructor]. exists enzyme_example.
  split; vm_compute; reflexivity.
Defined.

(** ** The EC numbers of a text *)

Lemma finditer_from_found (r : regex) (ah : string) :
  forall (bh : string) (skip : nat) (m : Match),
    m ∈ finditer_from r bh ah skip ->
    exists c : cursor, match_here r c = Some m.
Proof.
  induction ah as [|a rest IH]; intros bh skip m H; cbn [finditer_from] in H.
  - rewrite app_nil_r in H. destruct skip; [|by apply elem_of_nil in H].
    destruct (match_here r (Cursor bh "")) eqn:E; [|by apply elem_of_nil in H].
    apply list_elem_of_singleton in H as ->. eauto.
  - apply elem_of_app in H as [H|H]; [|by eapply IH].
    destruct skip; [|by apply elem_of_nil in H].
    destruct (match_here r (Cursor bh (String a rest))) eqn:E;
      [|by apply elem_of_nil in H].
    apply list_elem_of_singleton in H as ->. eauto.
Qed.

Lemma matches_ahead (r : regex) (c : cursor) (g : groups) :
  matches (Ahead r) c g
  = match matches r c g with cg :: _ => [(c, cg.2)] | [] => [] end.
Proof. reflexivity. Qed.

Lemma ec_match_code (c : cursor) (m : Match) :
  match_here REGEX_EC_NUMBERS c = Some m -> is_code (group 1 m) = true.
Proof.
  unfold match_here.
  destruct (matches REGEX_EC_NUMBERS c []) as [|cg l] eqn:E; [done|].
  intros [= <-].
  assert (cg ∈ matches REGEX_EC_NUMBERS c []) as H by (rewrite E; left).
  clear E. unfold REGEX_EC_NUMBERS in H. rewrite matches_cat in H.
  apply list_elem_of_In, in_flat_map in H as (cg1 & H1 & H).
  apply list_elem_of_In in H1, H. cbn [matches] in H1.
  destruct (Str.startswith _ _); [|by apply elem_of_nil in H1].
  apply list_elem_of_singleton in H1 as ->. cbn [fst snd] in H.
  rewrite matches_cat in H.
  apply list_elem_of_In, in_flat_map in H as (cg2 & H2 & H).
  apply list_elem_of_In in H2, H. rewrite matches_group in H2.
  apply list_elem_of_fmap in H2 as (m1 & -> & H2).
  apply matches_plus_class in H2 as (s1 & Hne & Hall & Hg & Hc).
  cbn [fst snd] in H. rewrite matches_ahead, matches_lit in H.
  destruct (eat "]" m1.1); [|by apply elem_of_nil in H].
  apply list_elem_of_singleton in H as ->.
  unfold group, set_group. cbn [captured snd lookup_group]. case_decide; [|done].
  cbn [default]. rewrite (consumed_span _ _ _ Hc). unfold is_code, id.
  by rewrite Hall, bool_decide_eq_true_2.
Qed.

Lemma ec_numbers_of_is_code (text : string) :
  Forall (fun n => is_code n = true) (GetEnzymes.ec_numbers_of text).
Proof.
  apply Forall_forall. intros n Hn. unfold GetEnzymes.ec_numbers_of in Hn.
  apply (proj1 (elem_of_sorted_set _ _)) in Hn. unfold findall, finditer in Hn.
  apply list_elem_of_fmap in Hn as (m & -> & Hm).
  apply finditer_from_found in Hm as [c Hm]. by eapply ec_match_code.
Qed.

(** X15.  Whatever the text, the EC numbers found in it are codes (one or
    more digits, spaces, dots and dashes), each listed once, in the order
    of strings. *)
Theorem ec_numbers_of_codes (text : string) :
  Forall (fun n => is_code n = true) (GetEnzymes.ec_numbers_of text)
  /\ NoDup (GetEnzymes.ec_numbers_of text)
  /\ StronglySorted (key_le (fun x => x) str_leb) (GetEnzymes.ec_numbers_of text).
Proof.
  split; [apply ec_numbers_of_is_code|].
  split; [apply NoDup_sorted_set|apply sorted_set_sorted].
Qed.

(** ** The enzyme job *)

Lemma pathway_rows (pathways : list GetEnzymes.Pathway) (p : GetEnzymes.Pathway)
  (text : string) :
  p ∈ pathways ->
  Forall (enzyme_row_of pathways)
    (map (fun n => [GetEnzymes.organism p; GetEnzymes.id p; n])
       (GetEnzymes.ec_numbers_of text)).
Proof.
  intros Hp. apply Forall_map.
  eapply Forall_impl; [apply ec_numbers_of_is_code|].
  intros n Hn. by exists p, n.
Qed.

Lemma enzymes_fetch_cache_inv (pathways : list GetEnzymes.Pathway)
  (cache_path : Path.t) (w w' : World) (filtered : list GetEnzymes.Pathway)
  (cached : list (list GetEnzymes.Row)) :
  GetEnzymes.fetch_cache pathways cache_path w = Return (filtered, cached) w' ->
  exists (cache_results : list (option (list GetEnzymes.Row))) (w1 : World),
    run_all (GetEnzymes._get_pathway_from_cache cache_path) pathways w
    = Return cache_results w1
    /\ filtered = misses pathways cache_results
    /\ cached = omap (fun x => x) cache_results
    /\ files w' = files w1.
Proof.
  unfold GetEnzymes.fetch_cache. intros H.
  apply bind_inv in H as (rs & w1 & Hrun & H).
  apply bind_inv in H as (dbg & w2 & Hd & H).
  apply bind_inv in H as ([] & w3 & Hp & H).
  injection Hd as <- <-. injection H as <- <- <-.
  exists rs, w1. repeat split; [done|].
  destruct (DEBUG w1); by injection Hp as <-.
Qed.

Lemma enzymes_main_inv (fuel : nat) (sched : Scheduler) (args : GetEnzymes.Args)
  (w w' : World) (rows : list GetEnzymes.Row) :
  GetEnzymes.main fuel sched args w = Return (Some rows) w' ->
  exists (w0 w1 w2 : World) (pathways : list GetEnzymes.Pathway)
         (cached results : list (list GetEnzymes.Row)),
    files w0 = files w
    /\ match GetEnzymes.cache_path_of args with
       | Some p =>
           GetEnzymes.fetch_cache (GetEnzymes.input args) p w0
           = Return (pathways, cached) w1
       | None => pathways = GetEnzymes.input args /\ cached = [] /\ w1 = w0
       end
    /\ mapM (GetEnzymes.fetch_pathway fuel (GetEnzymes.cache_path_of args))
         pathways w1
       = Return results w2
    /\ w' = w2
    /\ rows ≡ₚ concat (cached ++ results).
Proof.
  unfold GetEnzymes.main. intros H.
  destruct (GetEnzymes.output_exists args && negb (GetEnzymes.force args));
    [unfold bind, print, ret in H; discriminate H|].
  apply bind_inv in H as ([] & w0 & H0 & H).
  apply bind_inv in H as ([pathways cached] & w1 & Hs & H).
  apply bind_inv in H as (enzymes & w2 & Ha & H).
  injection H as <- <-. unfold amap in Ha.
  apply bind_inv in Ha as (results & w3 & Hm & Ha). injection Ha as <- <-.
  exists w0, w1, w3, pathways, cached, results.
  split; [destruct (GetEnzymes.debug args); by injection H0 as <-|].
  split.
  { destruct (GetEnzymes.cache_path_of args); [done|]. by injection Hs as <- <- <-. }
  repeat split; [done|]. unfold GetEnzymes.enzymes_plain.
  rewrite sorted_by_perm. apply concat_perm. f_equiv. apply completion_perm.
Qed.

(** X16.  Every row of the enzyme job is made of the organism and the id
    of a pathway of the input and of a code found for it, whether the
    pathway was read from the cache or fetched. *)
Theorem enzymes_main_rows (fuel : nat) (sched : Scheduler)
  (args : GetEnzymes.Args) (w w' : World) (rows : list GetEnzymes.Row) :
  GetEnzymes.main fuel sched args w = Return (Some rows) w' ->
  Forall (enzyme_row_of (GetEnzymes.input args)) rows.
Proof.
  intros H.
  apply enzymes_main_inv in H
    as (w0 & w1 & w2 & pathways & cached & results & _ & Hs & Hm & _ & Hperm).
  rewrite Hperm. apply Forall_concat, Forall_app.
  assert (Forall (Forall (enzyme_row_of (GetEnzymes.input args))) cached
          /\ pathways `sublist_of` GetEnzymes.input args) as [Hc Hsub].
  { destruct (GetEnzymes.cache_path_of args) as [p|].
    - apply enzymes_fetch_cache_inv in Hs as (rs & w3 & Hrun & -> & -> & _).
      split; [|apply misses_sublist]. apply Forall_forall. intros y Hy.
      apply list_elem_of_omap in Hy as (oy & Hy & ->).
      destruct (mapM_elem _ _ _ _ _ Hrun _ Hy) as (x & wa & wb & Hx & Hr).
      unfold GetEnzymes._get_pathway_from_cache, bind, read_file in Hr.
      destruct (files wa !! _); [|done]. injection Hr as <- _.
      by apply pathway_rows.
    - destruct Hs as (-> & -> & _). split; [constructor|done]. }
  split; [done|]. apply Forall_forall. intros y Hy.
  destruct (mapM_elem _ _ _ _ _ Hm _ Hy) as (x & wa & wb & Hx & Hr).
  apply fetch_pathway_inv in Hr as (response & _ & -> & _).
  apply pathway_rows. by eapply elem_of_sublist.
Qed.

Lemma enzymes_main_rows_witness :
  exists w' : World,
    GetEnzymes.main 0 in_order enzymes_args world_pathway
    = Return (Some [["hsa"; "hsa00010"; "2.7.1.1"];
                    ["hsa"; "hsa00010"; "5.3.1.9"]]) w'
    /\ Forall (enzyme_row_of (GetEnzymes.input enzymes_args))
         [["hsa"; "hsa00010"; "2.7.1.1"]; ["hsa"; "hsa00010"; "5.3.1.9"]].
Proof.
  assert (exists w' : World,
            GetEnzymes.main 0 in_order enzymes_args world_pathway
            = Return (Some [["hsa"; "hsa00010"; "2.7.1.1"];
                            ["hsa"; "hsa00010"; "5.3.1.9"]]) w')
    as (w' & H) by (vm_compute; eexists; reflexivity).
  exists w'. split; [exact H|exact (enzymes_main_rows _ _ _ _ _ _ H)].
Defined.

(** X17.  Without a cache directory the enzyme job writes no file. *)
Theorem enzymes_main_without_cache (fuel : nat) (sched : Scheduler)
  (args : GetEnzymes.Args) (w w' : World) (rows : list GetEnzymes.Row) :
  GetEnzymes.cache_path_of args = None ->
  GetEnzymes.main fuel sched args w = Return (Some rows) w' ->
  files w' = files w.
Proof.
  intros Hn H.
  apply enzymes_main_inv in H
    as (w0 & w1 & w2 & pathways & cached & results & H0 & Hs & Hm & -> & _).
  rewrite Hn in Hs, Hm. destruct Hs as (_ & _ & ->). rewrite <- H0.
  eapply (mapM_preserves _ (fun w w' => files w' = files w)); [done| |
    |exact Hm].
  - intros ? ? ? ? ?. congruence.
  - intros x wa y wb _ Hr. by apply fetch_pathway_inv in Hr as (? & _ & _ & _ & ?).
Qed.

Lemma enzymes_main_without_cache_witness :
  exists w' : World,
    GetEnzymes.main 0 in_order enzymes_args world_pathway
    = Return (Some [["hsa"; "hsa00010"; "2.7.1.1"];
                    ["hsa"; "hsa00010"; "5.3.1.9"]]) w'
    /\ files w' = files world_pathway.
Proof.
  assert (exists w' : World,
            GetEnzymes.main 0 in_order enzymes_args world_pathway
            = Return (Some [["hsa"; "hsa00010"; "2.7.1.1"];
                            ["hsa"; "hsa00010"; "5.3.1.9"]]) w')
    as (w' & H) by (vm_compute; eexists; reflexivity).
  exists w'. split; [exact H|].
  exact (enzymes_main_without_cache 0 in_order enzymes_args world_pathway w' _
           eq_refl H).
Defined.

(** ** The rows of [parse_genes] *)

Lemma lower_char_upper (a : ascii) :
  upper a = true -> lower_letter (Str.lower_char a) = true.
Proof. destruct a as [[] [] [] [] [] [] [] []]; vm_compute; congruence. Qed.

Lemma lower_letters (code : string) :
  all_chars upper code = true -> all_chars lower_letter (Str.lower code) = true.
Proof.
  induction code as [|a code IH]; [done|]. simpl.
  intros [Ha Hall]%andb_true_iff. by rewrite lower_char_upper, IH.
Qed.

Lemma lower_not_nil (code : string) : code <> "" -> Str.lower code <> "".
Proof. by destruct code. Qed.

Lemma parse_gene_lines_codes (ec_number : string) (lines : list string) :
  forall genes0 genes : list GetSequences.Row,
    GetSequences.parse_gene_lines ec_number lines genes0 = inr genes ->
    Forall (gene_row_of ec_number) genes0 ->
    Forall (gene_row_of ec_number) genes.
Proof.
  induction lines as [|line lines IH]; intros genes0 genes;
    cbn [GetSequences.parse_gene_lines].
  - by intros [= <-].
  - destruct (groups_of (search regex_gene_row line))
      as [e|[organism gene_list]] eqn:G; [done|].
    intros H H0. apply (IH _ _ H). apply Forall_app. split; [done|].
    unfold groups_of, search in G.
    destruct (search_from regex_gene_row "" line) as [m|] eqn:E; [|done].
    apply search_from_found in E as (bh & ah & E).
    apply gene_row_match_groups in E as (code & gl & E & Hne & Hall & _).
    rewrite E in G. injection G as <- <-.
    apply Forall_map, Forall_forall. intros g _.
    exists (Str.lower code), g.
    split; [done|]. split; [by apply lower_not_nil|by apply lower_letters].
Qed.

(** X18.  In every row of [parse_genes] the first column is the EC number
    and the second one an organism code: one or more lower-case
    letters. *)
Theorem parse_genes_organism_codes (ec_number content : string)
  (genes : list GetSequences.Row) :
  GetSequences.parse_genes ec_number content = inr genes ->
  Forall (gene_row_of ec_number) genes.
Proof.
  unfold GetSequences.parse_genes.
  destruct (search REGEX_GENES_SECTION content) as [section|].
  - intros H. by eapply parse_gene_lines_codes.
  - by intros [= <-].
Qed.

Lemma parse_genes_organism_codes_witness :
  Forall (gene_row_of "1.1.1.1") enzyme_example_genes.
Proof.
  apply (parse_genes_organism_codes "1.1.1.1" enzyme_example).
  vm_compute; reflexivity.
Defined.

(** ** The rows of the sequence job *)

Lemma parse_genes_columns (ec_number content : string)
  (genes : list GetSequences.Row) :
  GetSequences.parse_genes ec_number content = inr genes ->
  Forall (fun g => length g = 3 /\ GetSequences.col 0 g = ec_number) genes.
Proof.
  unfold GetSequences.parse_genes.
  destruct (search REGEX_GENES_SECTION content) as [section|];
    [|by intros [= <-]].
  intros H. apply parse_gene_lines_codes in H; [|constructor].
  eapply Forall_impl; [exact H|]. by intros g (o & gene & -> & _).
Qed.

Lemma gather_genes_columns (fuel : nat) (sched : Scheduler)
  (cache_path : option Path.t) (ec_numbers : list string) (w w' : World)
  (genes_plain : list GetSequences.Row) :
  GetSequences.gather_genes fuel sched cache_path ec_numbers w
  = Return genes_plain w' ->
  Forall (fun g => length g = 3 /\ GetSequences.col 0 g ∈ ec_numbers) genes_plain.
Proof.
  unfold GetSequences.gather_genes. intros H.
  destruct cache_path as [p|];
    [|unfold bind, ret, GetSequences.div_optional, raise in H; discriminate H].
  apply bind_inv in H as ([uncached cached] & w1 & Hs & H).
  apply bind_inv in H as (enzyme_path & w2 & Hd & H). injection Hd as <- <-.
  apply bind_inv in H as (results & w3 & Ha & H). injection H as <- <-.
  unfold amap in Ha. apply bind_inv in Ha as (rs' & w4 & Hm & Ha).
  injection Ha as <- <-.
  apply fetch_cache_inv in Hs as (rs & w5 & Hrun & -> & -> & _).
  apply Forall_concat, Forall_app. split.
  - apply Forall_forall. intros y Hy.
    apply list_elem_of_omap in Hy as (oy & Hy & ->).
    destruct (mapM_elem _ _ _ _ _ Hrun _ Hy) as (x & wa & wb & Hx & Hr).
    rewrite get_enzyme_from_cache_run in Hr.
    destruct (files wa !! _) as [content|]; [|done].
    destruct (GetSequences.parse_genes x content) as [|genes] eqn:P; [done|].
    injection Hr as <- _. apply parse_genes_columns in P.
    eapply Forall_impl; [exact P|]. by intros g [? ->].
  - apply Forall_forall. intros y Hy.
    apply list_elem_of_omap in Hy as (oy & Hy & ->).
    rewrite completion_perm in Hy.
    destruct (mapM_elem _ _ _ _ _ Hm _ Hy) as (x & wa & wb & Hx & Hr).
    apply fetch_enzyme_stores in Hr as (content & _ & P).
    apply parse_genes_columns in P.
    eapply Forall_impl; [exact P|]. intros g [? ->]. split; [done|].
    eapply elem_of_sublist; [exact Hx|apply misses_sublist].
Qed.

Lemma merge_sequences_rows (dict : list (GetSequences.Sequence * string * string))
  (genes_plain : list GetSequences.Row) :
  forall (w w' : World) (rows : list GetSequences.Row),
    GetSequences.merge_sequences dict genes_plain w = Return rows w' ->
    Forall2
      (fun gene row =>
         row = gene \/ exists seq_id seq : string, row = gene ++ [seq_id; seq])
      genes_plain rows.
Proof.
  induction genes_plain as [|gene rest IH]; intros w w' rows H;
    cbn [GetSequences.merge_sequences] in H.
  - injection H as <- <-. constructor.
  - apply bind_inv in H as (gene' & w1 & Hg & H).
    apply bind_inv in H as (rest' & w2 & Hr & H). injection H as <- <-.
    constructor; [|by eapply IH].
    destruct (GetSequences.sequence_dict_get dict _) as [[seq_id seq]|].
    + injection Hg as <- _. right. by exists seq_id, seq.
    + unfold bind, print, ret in Hg. injection Hg as <- _. by left.
Qed.

(** X19.  Every row that the sequence job hands to the writer starts with
    an EC number of the input and has three columns, or five when a
    sequence was found for it. *)
Theorem sequences_main_rows (fuel : nat) (sched : Scheduler)
  (args : GetSequences.Args) (w w' : World) (rows : list GetSequences.Row) :
  GetSequences.main fuel sched args w = Return (Some rows) w' ->
  Forall
    (fun row =>
       (length row = 3 \/ length row = 5)
       /\ GetSequences.col 0 row ∈ Str.splitlines (GetSequences.input args))
    rows.
Proof.
  unfold GetSequences.main. intros H.
  destruct (GetSequences.output_exists args && negb (GetSequences.force args));
    [unfold bind, print, ret in H; discriminate H|].
  apply bind_inv in H as ([] & w0 & _ & H).
  apply bind_inv in H as (genes_plain & w1 & Hg & H).
  apply bind_inv in H as (all_sequences & w2 & _ & H).
  apply bind_inv in H as (rows' & w3 & Hm & H). injection H as <- <-.
  apply gather_genes_columns in Hg. apply merge_sequences_rows in Hm.
  induction Hm as [|gene row genes rows' Hrow _ IH]; [constructor|].
  apply Forall_cons in Hg as [[Hlen Hcol] Hg].
  constructor; [|by apply IH].
  destruct gene as [|ec gene]; [done|].
  destruct Hrow as [->|(seq_id & seq & ->)]; [by split; [left|]|].
  split; [right|done]. rewrite length_app, Hlen. done.
Qed.

Lemma sequences_main_rows_witness :
  exists w' : World,
    GetSequences.main 0 in_order one_enzyme_args world_all_well
    = Return
        (Some [["1.1.1.1"; "hsa"; "124"; "hsa:124 K13951 alcohol dehydrogenase";
                "MSTAGKVIKCKAAVLWE"];
               ["1.1.1.1"; "eco"; "b1241"; "hsa:124 K13951 alcohol dehydrogenase";
                "MSTAGKVIKCKAAVLWE"]]) w'
    /\ Forall
         (fun row =>
            (length row = 3 \/ length row = 5)
            /\ GetSequences.col 0 row
               ∈ Str.splitlines (GetSequences.input one_enzyme_args))
         [["1.1.1.1"; "hsa"; "124"; "hsa:124 K13951 alcohol dehydrogenase";
           "MSTAGKVIKCKAAVLWE"];
          ["1.1.1.1"; "eco"; "b1241"; "hsa:124 K13951 alcohol dehydrogenase";
           "MSTAGKVIKCKAAVLWE"]].
Proof.
  assert (exists w' : World,
            GetSequences.main 0 in_order one_enzyme_args world_all_well
            = Return
                (Some [["1.1.1.1"; "hsa"; "124";
                        "hsa:124 K13951 alcohol dehydrogenase";
                        "MSTAGKVIKCKAAVLWE"];
                       ["1.1.1.1"; "eco"; "b1241";
                        "hsa:124 K13951 alcohol dehydrogenase";
                        "MSTAGKVIKCKAAVLWE"]]) w')
    as (w' & H) by (vm_compute; eexists; reflexivity).
  exists w'. split; [exact H|exact (sequences_main_rows _ _ _ _ _ _ H)].
Defined.

(** ** The pathway job and the organism job *)

Lemma split_from_not_nil (r : regex) (ah : string) :
  forall (bh : string) (skip : nat) (cur : string),
    split_from r bh ah skip cur <> [].
Proof.
  induction ah as [|a rest IH]; intros bh skip cur; cbn [split_from]; [done|].
  destruct skip as [|k]; [|apply IH].
  destruct (match_here r (Cursor bh (String a rest))) as [m|]; [|apply IH].
  destruct (String.length (group0 m)); [apply IH|done].
Qed.

Lemma fetch_pathways_inv (fuel : nat) (organism_code : string) (w w' : World)
  (rows : list GetPathways.Row) :
  GetPathways.fetch_pathways fuel organism_code w = Return rows w' ->
  exists (response : Response) (n : nat),
    rows
    = map (fun line =>
             organism_code :: split regex_tab (GetPathways.strip_prefix_tag line))
        (Str.splitlines (text response))
    /\ requests w'
       = repeat ("/list/pathway/" +:+ organism_code) (S n) ++ requests w
    /\ files w' = files w.
Proof.
  unfold GetPathways.fetch_pathways. intros H.
  apply bind_inv in H as (response & w1 & Hr & H).
  pose proof (fetch_with_retry_requests _ _ _ _ _ Hr) as (n & Hreq & Hf).
  apply bind_inv in H as (dbg & w2 & Hd & H).
  apply bind_inv in H as ([] & w3 & Hp & H).
  injection Hd as <- <-. injection H as <- <-.
  exists response, n. split; [done|].
  destruct (DEBUG w1); injection Hp as <-; by rewrite <- Hreq, <- Hf.
Qed.

(** X20.  Every row of [fetch_pathways] starts with the organism code and
    has at least one more column, so the two columns by which the job
    sorts exist in every row. *)
Theorem fetch_pathways_rows (fuel : nat) (organism_code : string) (w w' : World)
  (rows : list GetPathways.Row) :
  GetPathways.fetch_pathways fuel organism_code w = Return rows w' ->
  Forall
    (fun row => GetPathways.col 0 row = organism_code /\ 2 <= length row) rows.
Proof.
  intros H. apply fetch_pathways_inv in H as (response & n & -> & _).
  apply Forall_map, Forall_forall. intros line _. split; [done|].
  unfold split. cbn [length].
  pose proof (split_from_not_nil regex_tab (GetPathways.strip_prefix_tag line)
                "" 0 "") as Hne.
  destruct (split_from _ _ _ _ _); [done|cbn [length]; lia].
Qed.

Lemma fetch_pathways_rows_witness :
  Forall (fun row => GetPathways.col 0 row = "hsa" /\ 2 <= length row)
    [["hsa"; "hsa00020"; "Citrate cycle (TCA cycle)"];
     ["hsa"; "hsa00010"; "Glycolysis / Gluconeogenesis"]].
Proof.
  apply (fetch_pathways_rows 0 "hsa" world_pathway_list
           (answered "/list/pathway/hsa" world_pathway_list)).
  vm_compute; reflexivity.
Defined.

(** X21.  The organism job makes one row of every line of the answer, and
    no row is empty, so the column by which it sorts exists in every
    row. *)
Theorem organisms_rows (text : string) :
  length (GetOrganisms.organisms_of text) = length (Str.splitlines text)
  /\ Forall (fun row => row <> []) (GetOrganisms.organisms_of text).
Proof.
  unfold GetOrganisms.organisms_of. rewrite sorted_by_perm. split.
  - apply length_map.
  - apply Forall_map, Forall_forall. intros line _. apply split_from_not_nil.
Qed.

Lemma pathways_run_requests (fuel : nat) (organisms l : list string) :
  (forall code, code ∈ l -> code ∈ organisms) ->
  forall (w w' : World) (rs : list (list GetPathways.Row)),
    mapM (GetPathways.fetch_pathways fuel) l w = Return rs w' ->
    exists new : list string,
      requests w' = new ++ requests w
      /\ Forall (pathway_list_request organisms) new
      /\ length l <= length new
      /\ files w' = files w.
Proof.
  induction l as [|code l IH]; intros Hin w w' rs H; cbn [mapM] in H.
  - injection H as <- <-. by exists [].
  - apply bind_inv in H as (y & w1 & Hy & H).
    apply bind_inv in H as (ys & w2 & Hys & H). injection H as <- <-.
    apply fetch_pathways_inv in Hy as (response & n & _ & Hreq & Hf).
    apply IH in Hys as (new & Hreq' & Hall & Hlen & Hf');
      [|intros; apply Hin; by right].
    exists (new ++ repeat ("/list/pathway/" +:+ code) (S n)).
    rewrite Hreq', Hreq, Hf', Hf, app_assoc.
    repeat split; [|rewrite length_app, repeat_length; cbn [length]; lia].
    apply Forall_app. split; [done|]. apply Forall_forall.
    intros p Hp%list_elem_of_In%repeat_spec. exists code.
    split; [apply Hin; left|done].
Qed.

(** X22.  The pathway job asks only for the pathway lists of the organisms
    of its input, at least once for each of them, and writes no file but
    its output. *)
Theorem pathways_main_requests (fuel : nat) (sched : Scheduler)
  (args : GetPathways.Args) (w w' : World) (rows : list GetPathways.Row) :
  GetPathways.main fuel sched args w = Return (Some rows) w' ->
  exists new : list string,
    requests w' = new ++ requests w
    /\ Forall (pathway_list_request (GetPathways.input args)) new
    /\ length (GetPathways.input args) <= length new
    /\ files w' = files w.
Proof.
  unfold GetPathways.main. intros H.
  destruct (GetPathways.output_exists args && negb (GetPathways.force args));
    [unfold bind, print, ret in H; discriminate H|].
  apply bind_inv in H as ([] & w0 & H0 & H).
  apply bind_inv in H as (pathways & w1 & Ha & H). injection H as _ <-.
  unfold amap in Ha. apply bind_inv in Ha as (rs & w2 & Hm & Ha).
  injection Ha as _ <-.
  apply (pathways_run_requests fuel (GetPathways.input args)) in Hm
    as (new & Hreq & Hall & Hlen & Hf); [|done].
  exists new.
  assert (requests w0 = requests w /\ files w0 = files w) as [<- <-]; [|done].
  destruct (GetPathways.debug args); by injection H0 as <-.
Qed.

Lemma pathways_main_requests_witness :
  exists w' : World,
    GetPathways.main 0 in_order pathways_args world_pathway_list
    = Return (Some [["hsa"; "hsa00010"; "Glycolysis / Gluconeogenesis"];
                    ["hsa"; "hsa00020"; "Citrate cycle (TCA cycle)"]]) w'
    /\ exists new : list string,
         requests w' = new ++ requests world_pathway_list
         /\ Forall (pathway_list_request (GetPathways.input pathways_args)) new
         /\ length (GetPathways.input pathways_args) <= length new
         /\ files w' = files world_pathway_list.
Proof.
  assert (exists w' : World,
            GetPathways.main 0 in_order pathways_args world_pathway_list
            = Return (Some [["hsa"; "hsa00010"; "Glycolysis / Gluconeogenesis"];
                            ["hsa"; "hsa00020"; "Citrate cycle (TCA cycle)"]])
                w')
    as (w' & H) by (vm_compute; eexists; reflexivity).
  exists w'. split; [exact H|exact (pathways_main_requests _ _ _ _ _ _ H)].
Defined.
